(** * The multi-camera fusion pipeline of depth_fusion

    A shallow embedding of [src/multi_static_camera_pipeline.cpp]: the
    orchestrator that owns the per-camera calibration and buffers and drives
    undistortion, fusion, raycasting and triangulation of one shared volume.

    The pipeline is a client of code it does not contain: libcgt (vectors,
    matrices, host and device arrays), CUDA's vector types, and this
    repository's [DepthProcessor], [InputBuffer] and [RegularGridTSDF].
    These are interfaces here ([Libcgt], [Collaborators]); what the proofs
    assume of them is stated as laws ([ArrayLaws], [TransformLaws]), and
    [Double] instantiates them with an executable test double. *)

From Stdlib Require Import ZArith Lia.
From stdpp Require Import base option list.

(** ** Outcomes of a call

    A C++ call returns, throws, or has undefined behaviour. The pipeline
    indexes its vectors with the unchecked [operator[]], so an index out of
    range is [Undefined], not a thrown [std::out_of_range]. *)

Inductive Exception : Type :=
| out_of_range
| invalid_argument.

Inductive outcome (A : Type) : Type :=
| Returns (a : A)
| Throws (e : Exception)
| Undefined.

Arguments Returns {A} a.
Arguments Throws {A} e.
Arguments Undefined {A}.

#[global] Instance outcome_ret : MRet outcome := fun A a => Returns a.

#[global] Instance outcome_bind : MBind outcome := fun A B f m =>
  match m with
  | Returns a => f a
  | Throws e => Throws e
  | Undefined => Undefined
  end.

(** [v[i]] for a [size_t] index: unchecked. *)
Definition vector_at {A : Type} (v : list A) (i : nat) : outcome A :=
  match v !! i with
  | Some a => Returns a
  | None => Undefined
  end.

(** [v[i]] for an [int] index: the index is converted to [size_t], where a
    negative one becomes at least 2^64 - 2^31, past the end of any vector. *)
Definition vector_at_int {A : Type} (v : list A) (i : Z) : outcome A :=
  if (i <? 0)%Z then Undefined else vector_at v (Z.to_nat i).

(** [v[i] = a] for a [size_t] index: unchecked. *)
Definition vector_set {A : Type} (v : list A) (i : nat) (a : A) : outcome (list A) :=
  if decide (i < length v) then Returns (<[i:=a]> v) else Undefined.

(** [static_cast<int>] of a size: wraps to 32 bits. *)
Definition static_cast_int (n : Z) : Z :=
  ((n + 2 ^ 31) mod 2 ^ 32 - 2 ^ 31)%Z.

(** ** Integer vectors *)

Record Vector2i : Type := { Vector2i_x : Z; Vector2i_y : Z }.
Record Vector3i : Type := { Vector3i_x : Z; Vector3i_y : Z; Vector3i_z : Z }.

Section Pipeline.

(** The scalar type [float]; the embedding does no arithmetic of its own on it. *)
Context {float : Type}.

(** ** libcgt's and CUDA's float vectors *)

Record Vector2f : Type := { Vector2f_x : float; Vector2f_y : float }.
Record Vector3f : Type := { Vector3f_x : float; Vector3f_y : float; Vector3f_z : float }.
Record Vector4f : Type :=
  { Vector4f_x : float; Vector4f_y : float; Vector4f_z : float; Vector4f_w : float }.
Record float2 : Type := { float2_x : float; float2_y : float }.
Record float4 : Type :=
  { float4_x : float; float4_y : float; float4_z : float; float4_w : float }.

(** [Vector4f{ a, b }] from two [Vector2f]. *)
Definition Vector4f_of (a b : Vector2f) : Vector4f :=
  {| Vector4f_x := Vector2f_x a; Vector4f_y := Vector2f_y a;
     Vector4f_z := Vector2f_x b; Vector4f_w := Vector2f_y b |}.

(** [make_float2(Vector2f)] and [make_float4(float2, float2)]. *)
Definition make_float2 (v : Vector2f) : float2 :=
  {| float2_x := Vector2f_x v; float2_y := Vector2f_y v |}.

Definition make_float4 (a b : float2) : float4 :=
  {| float4_x := float2_x a; float4_y := float2_y a;
     float4_z := float2_x b; float4_w := float2_y b |}.

Record Intrinsics : Type := { focalLength : Vector2f; principalPoint : Vector2f }.

Record TriangleMesh : Type :=
  { positions : list Vector3f; normals : list Vector3f; faces : list Vector3i }.

(** ** The libcgt interface *)

Class Libcgt : Type := {
  Range1f : Type;
  Matrix4f : Type;
  float4x4 : Type;
  EuclideanTransform : Type;
  SimilarityTransform : Type;
  PerspectiveCamera : Type;
  Array2D : Type -> Type;
  DeviceArray2D : Type -> Type;
  (** [Vector2f(Vector2i)] converts each component. *)
  float_of_int : Z -> float;
  Range1f_leftRight : Range1f -> Vector2f;
  EuclideanTransform_asMatrix : EuclideanTransform -> Matrix4f;
  make_float4x4 : Matrix4f -> float4x4;
  Matrix4f_identity : Matrix4f;
  Matrix4f_transformPoint : Matrix4f -> Vector3f -> Vector3f;
  Matrix4f_transformNormal : Matrix4f -> Vector3f -> Vector3f;
  PerspectiveCamera_intrinsics : PerspectiveCamera -> Vector2f -> Intrinsics;
  PerspectiveCamera_worldFromCamera : PerspectiveCamera -> EuclideanTransform;
  DeviceArray2D_size : forall T : Type, DeviceArray2D T -> Vector2i;
  (** [DeviceArray2D<T>(size)]. *)
  DeviceArray2D_new : forall T : Type, Vector2i -> DeviceArray2D T;
  (** [copy(src.readView(), dst)]: the new value of [dst]. *)
  copy : forall T : Type, Array2D T -> DeviceArray2D T -> DeviceArray2D T;
  (** [cast<float2>(view)]. *)
  cast_float2 : Array2D Vector2f -> Array2D float2
}.

Arguments DeviceArray2D_size {_ T} _.
Arguments DeviceArray2D_new {_} T _.
Arguments copy {_ T} _ _.

Context {L : Libcgt}.

Definition Vector2f_of_Vector2i (v : Vector2i) : Vector2f :=
  {| Vector2f_x := float_of_int (Vector2i_x v); Vector2f_y := float_of_int (Vector2i_y v) |}.

(** ** Calibration, as the pipeline reads it *)

Record ColorCameraParameters : Type := { color_resolution : Vector2i }.

Record DepthCameraParameters : Type := {
  intrinsics : Intrinsics;
  depth_range : Range1f;
  resolution : Vector2i;
  undistortion_map : Array2D Vector2f
}.

Record RGBDCameraParameters : Type :=
  { color : ColorCameraParameters; depth : DepthCameraParameters }.

Record CalibratedPosedDepthCamera : Type := {
  flpp : float4;
  depth_min_max : float2;
  camera_from_world : float4x4
}.

(** [DepthProcessor(intrinsics, depth_range)]: the processor is what it was
    constructed with. *)
Record DepthProcessor : Type :=
  { processor_intrinsics : Intrinsics; processor_depth_range : Range1f }.

(** ** This repository's collaborators *)

Class Collaborators : Type := {
  InputBuffer : Type;
  (** [InputBuffer(color_resolution, depth_resolution)]. *)
  InputBuffer_new : Vector2i -> Vector2i -> InputBuffer;
  depth_meters : InputBuffer -> Array2D float;
  (** [Undistort(raw, map, out)]: the new value of [out]. *)
  DepthProcessor_Undistort :
    DepthProcessor -> DeviceArray2D float -> DeviceArray2D float2 ->
    DeviceArray2D float -> DeviceArray2D float;
  RegularGridTSDF : Type;
  RegularGridTSDF_new : Vector3i -> SimilarityTransform -> float -> RegularGridTSDF;
  RegularGridTSDF_Reset : RegularGridTSDF -> RegularGridTSDF;
  RegularGridTSDF_Fuse :
    Vector4f -> Range1f -> Matrix4f -> DeviceArray2D float ->
    RegularGridTSDF -> RegularGridTSDF;
  RegularGridTSDF_FuseMultiple :
    list CalibratedPosedDepthCamera -> list (DeviceArray2D float) ->
    RegularGridTSDF -> RegularGridTSDF;
  (** The raycasts fill the two output buffers. *)
  RegularGridTSDF_Raycast :
    Vector4f -> Matrix4f -> DeviceArray2D float4 -> DeviceArray2D float4 ->
    RegularGridTSDF -> RegularGridTSDF * DeviceArray2D float4 * DeviceArray2D float4;
  RegularGridTSDF_AdaptiveRaycast :
    Vector4f -> Matrix4f -> DeviceArray2D float4 -> DeviceArray2D float4 ->
    RegularGridTSDF -> RegularGridTSDF * DeviceArray2D float4 * DeviceArray2D float4;
  RegularGridTSDF_Triangulate : RegularGridTSDF -> TriangleMesh;
  (** A value-initialised [CalibratedPosedDepthCamera], as [std::vector<>(n)]
      fills itself with. *)
  CalibratedPosedDepthCamera_default : CalibratedPosedDepthCamera
}.

Context {C : Collaborators}.

(** ** The pipeline's state: the members of [MultiStaticCameraPipeline] *)

Record MultiStaticCameraPipeline : Type := {
  regular_grid_ : RegularGridTSDF;
  camera_params_ : list RGBDCameraParameters;
  depth_camera_poses_cfw_ : list EuclideanTransform;
  depth_processor_ : DepthProcessor;
  input_buffers_ : list InputBuffer;
  depth_meters_ : list (DeviceArray2D float);
  depth_camera_undistort_maps_ : list (DeviceArray2D float2);
  undistorted_depth_meters_ : list (DeviceArray2D float)
}.

Definition set_regular_grid (g : RegularGridTSDF) (p : MultiStaticCameraPipeline) :
  MultiStaticCameraPipeline :=
  {| regular_grid_ := g;
     camera_params_ := camera_params_ p;
     depth_camera_poses_cfw_ := depth_camera_poses_cfw_ p;
     depth_processor_ := depth_processor_ p;
     input_buffers_ := input_buffers_ p;
     depth_meters_ := depth_meters_ p;
     depth_camera_undistort_maps_ := depth_camera_undistort_maps_ p;
     undistorted_depth_meters_ := undistorted_depth_meters_ p |}.

Definition set_input_buffers (v : list InputBuffer) (p : MultiStaticCameraPipeline) :
  MultiStaticCameraPipeline :=
  {| regular_grid_ := regular_grid_ p;
     camera_params_ := camera_params_ p;
     depth_camera_poses_cfw_ := depth_camera_poses_cfw_ p;
     depth_processor_ := depth_processor_ p;
     input_buffers_ := v;
     depth_meters_ := depth_meters_ p;
     depth_camera_undistort_maps_ := depth_camera_undistort_maps_ p;
     undistorted_depth_meters_ := undistorted_depth_meters_ p |}.

Definition set_depth_meters (v : list (DeviceArray2D float))
  (p : MultiStaticCameraPipeline) : MultiStaticCameraPipeline :=
  {| regular_grid_ := regular_grid_ p;
     camera_params_ := camera_params_ p;
     depth_camera_poses_cfw_ := depth_camera_poses_cfw_ p;
     depth_processor_ := depth_processor_ p;
     input_buffers_ := input_buffers_ p;
     depth_meters_ := v;
     depth_camera_undistort_maps_ := depth_camera_undistort_maps_ p;
     undistorted_depth_meters_ := undistorted_depth_meters_ p |}.

Definition set_undistorted_depth_meters (v : list (DeviceArray2D float))
  (p : MultiStaticCameraPipeline) : MultiStaticCameraPipeline :=
  {| regular_grid_ := regular_grid_ p;
     camera_params_ := camera_params_ p;
     depth_camera_poses_cfw_ := depth_camera_poses_cfw_ p;
     depth_processor_ := depth_processor_ p;
     input_buffers_ := input_buffers_ p;
     depth_meters_ := depth_meters_ p;
     depth_camera_undistort_maps_ := depth_camera_undistort_maps_ p;
     undistorted_depth_meters_ := v |}.

(** ** The constructor *)

(** One pass of the constructor's loop body, for camera [i]. *)
Definition construct_camera (camera_params : list RGBDCameraParameters) (i : nat)
  (p : MultiStaticCameraPipeline) : outcome MultiStaticCameraPipeline :=
  cp ← vector_at camera_params i;
  let depth_meters' := depth_meters_ p ++ [DeviceArray2D_new float (resolution (depth cp))] in
  let maps' :=
    depth_camera_undistort_maps_ p ++ [DeviceArray2D_new float2 (resolution (depth cp))] in
  let undistorted' :=
    undistorted_depth_meters_ p ++ [DeviceArray2D_new float (resolution (depth cp))] in
  let input_buffers' :=
    input_buffers_ p ++
      [InputBuffer_new (color_resolution (color cp)) (resolution (depth cp))] in
  m ← vector_at maps' i;
  maps'' ← vector_set maps' i (copy (cast_float2 (undistortion_map (depth cp))) m);
  mret {| regular_grid_ := regular_grid_ p;
          camera_params_ := camera_params_ p;
          depth_camera_poses_cfw_ := depth_camera_poses_cfw_ p;
          depth_processor_ := depth_processor_ p;
          input_buffers_ := input_buffers';
          depth_meters_ := depth_meters';
          depth_camera_undistort_maps_ := maps'';
          undistorted_depth_meters_ := undistorted' |}.

(** [for (size_t i = ...; i < camera_params.size(); ++i)], with [todo]
    iterations left. *)
Fixpoint construct_loop (camera_params : list RGBDCameraParameters) (todo i : nat)
  (p : MultiStaticCameraPipeline) : outcome MultiStaticCameraPipeline :=
  match todo with
  | O => mret p
  | S todo' =>
      p' ← construct_camera camera_params i p;
      construct_loop camera_params todo' (S i) p'
  end.

(** [MultiStaticCameraPipeline::MultiStaticCameraPipeline]. The member
    initialisers read [camera_params[0]] for the depth processor. *)
Definition MultiStaticCameraPipeline_new
  (camera_params : list RGBDCameraParameters)
  (depth_camera_poses_cfw : list EuclideanTransform)
  (grid_resolution : Vector3i) (world_from_grid : SimilarityTransform)
  (max_tsdf_value : float) : outcome MultiStaticCameraPipeline :=
  cp0 ← vector_at camera_params 0;
  construct_loop camera_params (length camera_params) 0
    {| regular_grid_ := RegularGridTSDF_new grid_resolution world_from_grid max_tsdf_value;
       camera_params_ := camera_params;
       depth_camera_poses_cfw_ := depth_camera_poses_cfw;
       depth_processor_ :=
         {| processor_intrinsics := intrinsics (depth cp0);
            processor_depth_range := depth_range (depth cp0) |};
       input_buffers_ := [];
       depth_meters_ := [];
       depth_camera_undistort_maps_ := [];
       undistorted_depth_meters_ := [] |}.

(** ** The accessors *)

Definition NumCameras (p : MultiStaticCameraPipeline) : Z :=
  static_cast_int (Z.of_nat (length (camera_params_ p))).

Definition GetCameraParameters (camera_index : Z) (p : MultiStaticCameraPipeline) :
  outcome RGBDCameraParameters :=
  vector_at_int (camera_params_ p) camera_index.

Definition GetInputBuffer (camera_index : Z) (p : MultiStaticCameraPipeline) :
  outcome InputBuffer :=
  vector_at_int (input_buffers_ p) camera_index.

Definition GetUndistortedDepthMap (camera_index : Z) (p : MultiStaticCameraPipeline) :
  outcome (DeviceArray2D float) :=
  vector_at_int (undistorted_depth_meters_ p) camera_index.

(** The capture source writes a frame through the reference that
    [GetInputBuffer] returns. *)
Definition WriteInputBuffer (camera_index : Z) (frame : InputBuffer)
  (p : MultiStaticCameraPipeline) : outcome MultiStaticCameraPipeline :=
  _ ← GetInputBuffer camera_index p;
  mret (set_input_buffers (<[Z.to_nat camera_index := frame]> (input_buffers_ p)) p).

Definition Reset (p : MultiStaticCameraPipeline) : MultiStaticCameraPipeline :=
  set_regular_grid (RegularGridTSDF_Reset (regular_grid_ p)) p.

(** ** NotifyInputUpdated *)

Definition NotifyInputUpdated (camera_index : Z) (color_updated depth_updated : bool)
  (p : MultiStaticCameraPipeline) : outcome MultiStaticCameraPipeline :=
  input ← vector_at_int (input_buffers_ p) camera_index;
  raw ← vector_at_int (depth_meters_ p) camera_index;
  let p1 :=
    set_depth_meters
      (<[Z.to_nat camera_index := copy (depth_meters input) raw]> (depth_meters_ p)) p in
  raw' ← vector_at_int (depth_meters_ p1) camera_index;
  map ← vector_at_int (depth_camera_undistort_maps_ p1) camera_index;
  out ← vector_at_int (undistorted_depth_meters_ p1) camera_index;
  mret (set_undistorted_depth_meters
          (<[Z.to_nat camera_index :=
               DepthProcessor_Undistort (depth_processor_ p1) raw' map out]>
             (undistorted_depth_meters_ p1)) p1).

(** ** Fuse *)

(** The arguments of one [regular_grid_.Fuse] call. *)
Record FuseArguments : Type := {
  fuse_flpp : Vector4f;
  fuse_depth_range : Range1f;
  fuse_camera_from_world : Matrix4f;
  fuse_depth : DeviceArray2D float
}.

Definition RegularGridTSDF_Fuse_with (a : FuseArguments) (g : RegularGridTSDF) :
  RegularGridTSDF :=
  RegularGridTSDF_Fuse (fuse_flpp a) (fuse_depth_range a) (fuse_camera_from_world a)
    (fuse_depth a) g.

(** What the loop body passes to the volume for camera [i]. *)
Definition Fuse_arguments (i : nat) (p : MultiStaticCameraPipeline) :
  outcome FuseArguments :=
  cp ← vector_at (camera_params_ p) i;
  pose ← vector_at (depth_camera_poses_cfw_ p) i;
  undistorted ← vector_at (undistorted_depth_meters_ p) i;
  mret {| fuse_flpp :=
            Vector4f_of (focalLength (intrinsics (depth cp)))
              (principalPoint (intrinsics (depth cp)));
          fuse_depth_range := depth_range (depth cp);
          fuse_camera_from_world := EuclideanTransform_asMatrix pose;
          fuse_depth := undistorted |}.

(** [for (size_t i = ...; i < depth_meters_.size(); ++i)], with [todo]
    iterations left. *)
Fixpoint Fuse_loop (todo i : nat) (p : MultiStaticCameraPipeline) :
  outcome MultiStaticCameraPipeline :=
  match todo with
  | O => mret p
  | S todo' =>
      a ← Fuse_arguments i p;
      Fuse_loop todo' (S i)
        (set_regular_grid (RegularGridTSDF_Fuse_with a (regular_grid_ p)) p)
  end.

Definition Fuse (p : MultiStaticCameraPipeline) : outcome MultiStaticCameraPipeline :=
  Fuse_loop (length (depth_meters_ p)) 0 p.

(** ** FuseMultiple *)

Definition set_flpp (v : float4) (c : CalibratedPosedDepthCamera) :
  CalibratedPosedDepthCamera :=
  {| flpp := v; depth_min_max := depth_min_max c;
     camera_from_world := camera_from_world c |}.

Definition set_depth_min_max (v : float2) (c : CalibratedPosedDepthCamera) :
  CalibratedPosedDepthCamera :=
  {| flpp := flpp c; depth_min_max := v; camera_from_world := camera_from_world c |}.

Definition set_camera_from_world (v : float4x4) (c : CalibratedPosedDepthCamera) :
  CalibratedPosedDepthCamera :=
  {| flpp := flpp c; depth_min_max := depth_min_max c; camera_from_world := v |}.

(** The three assignments to [c[i]] of the loop body. *)
Definition FuseMultiple_pack (i : nat) (p : MultiStaticCameraPipeline)
  (c : list CalibratedPosedDepthCamera) : outcome (list CalibratedPosedDepthCamera) :=
  cp ← vector_at (camera_params_ p) i;
  ci ← vector_at c i;
  c1 ← vector_set c i
    (set_flpp
       (make_float4 (make_float2 (focalLength (intrinsics (depth cp))))
          (make_float2 (principalPoint (intrinsics (depth cp))))) ci);
  cp ← vector_at (camera_params_ p) i;
  ci ← vector_at c1 i;
  c2 ← vector_set c1 i
    (set_depth_min_max (make_float2 (Range1f_leftRight (depth_range (depth cp)))) ci);
  pose ← vector_at (depth_camera_poses_cfw_ p) i;
  ci ← vector_at c2 i;
  vector_set c2 i
    (set_camera_from_world (make_float4x4 (EuclideanTransform_asMatrix pose)) ci).

Fixpoint FuseMultiple_loop (todo i : nat) (p : MultiStaticCameraPipeline)
  (c : list CalibratedPosedDepthCamera) : outcome (list CalibratedPosedDepthCamera) :=
  match todo with
  | O => mret c
  | S todo' =>
      c' ← FuseMultiple_pack i p c;
      FuseMultiple_loop todo' (S i) p c'
  end.

(** The list [c] as it stands when the volume is called:
    [std::vector<CalibratedPosedDepthCamera> c(3)], then the loop. *)
Definition FuseMultiple_cameras (p : MultiStaticCameraPipeline) :
  outcome (list CalibratedPosedDepthCamera) :=
  FuseMultiple_loop (length (depth_meters_ p)) 0 p
    (replicate 3 CalibratedPosedDepthCamera_default).

Definition FuseMultiple (p : MultiStaticCameraPipeline) :
  outcome MultiStaticCameraPipeline :=
  c ← FuseMultiple_cameras p;
  mret (set_regular_grid
          (RegularGridTSDF_FuseMultiple c (undistorted_depth_meters_ p) (regular_grid_ p))
          p).

(** ** Raycast *)

(** The packed intrinsics that [Raycast] hands to the volume. *)
Definition Raycast_flpp (camera : PerspectiveCamera) (world_points : DeviceArray2D float4) :
  Vector4f :=
  let intrinsics :=
    PerspectiveCamera_intrinsics camera
      (Vector2f_of_Vector2i (DeviceArray2D_size world_points)) in
  Vector4f_of (focalLength intrinsics) (principalPoint intrinsics).

(** [FLAGS_adaptive_raycast] is a process-wide flag; here an argument. The
    result is the pipeline and the two filled buffers. *)
Definition Raycast (FLAGS_adaptive_raycast : bool) (camera : PerspectiveCamera)
  (world_points world_normals : DeviceArray2D float4) (p : MultiStaticCameraPipeline) :
  MultiStaticCameraPipeline * DeviceArray2D float4 * DeviceArray2D float4 :=
  let flpp := Raycast_flpp camera world_points in
  let '(g, points, normals) :=
    if FLAGS_adaptive_raycast then
      RegularGridTSDF_AdaptiveRaycast flpp
        (EuclideanTransform_asMatrix (PerspectiveCamera_worldFromCamera camera))
        world_points world_normals (regular_grid_ p)
    else
      RegularGridTSDF_Raycast flpp
        (EuclideanTransform_asMatrix (PerspectiveCamera_worldFromCamera camera))
        world_points world_normals (regular_grid_ p) in
  (set_regular_grid g p, points, normals).

(** ** Triangulate *)

Definition Triangulate (output_from_world : Matrix4f) (p : MultiStaticCameraPipeline) :
  TriangleMesh :=
  let mesh := RegularGridTSDF_Triangulate (regular_grid_ p) in
  let mesh :=
    {| positions := map (Matrix4f_transformPoint output_from_world) (positions mesh);
       normals := normals mesh;
       faces := faces mesh |} in
  {| positions := positions mesh;
     normals := map (Matrix4f_transformNormal output_from_world) (normals mesh);
     faces := faces mesh |}.

(** ** Sequences of calls on one pipeline *)

Inductive Call : Type :=
| CallWriteInputBuffer (camera_index : Z) (frame : InputBuffer)
| CallNotifyInputUpdated (camera_index : Z) (color_updated depth_updated : bool)
| CallReset
| CallFuse
| CallFuseMultiple
| CallRaycast (FLAGS_adaptive_raycast : bool) (camera : PerspectiveCamera)
    (world_points world_normals : DeviceArray2D float4).

Definition call (c : Call) (p : MultiStaticCameraPipeline) :
  outcome MultiStaticCameraPipeline :=
  match c with
  | CallWriteInputBuffer i frame => WriteInputBuffer i frame p
  | CallNotifyInputUpdated i color_updated depth_updated =>
      NotifyInputUpdated i color_updated depth_updated p
  | CallReset => mret (Reset p)
  | CallFuse => Fuse p
  | CallFuseMultiple => FuseMultiple p
  | CallRaycast adaptive camera world_points world_normals =>
      mret (Raycast adaptive camera world_points world_normals p).1.1
  end.

Fixpoint calls (cs : list Call) (p : MultiStaticCameraPipeline) :
  outcome MultiStaticCameraPipeline :=
  match cs with
  | [] => mret p
  | c :: cs' => p' ← call c p; calls cs' p'
  end.

(** ** Predicates on pipeline states *)

(** Camera [i] exists: [i] is in [[0, N)]. *)
Definition camera_index_in_range (i : Z) (p : MultiStaticCameraPipeline) : Prop :=
  (0 <= i < Z.of_nat (length (camera_params_ p)))%Z.

(** Every camera has its four buffers. *)
Definition buffers_per_camera (p : MultiStaticCameraPipeline) : Prop :=
  length (input_buffers_ p) = length (camera_params_ p) /\
  length (depth_meters_ p) = length (camera_params_ p) /\
  length (depth_camera_undistort_maps_ p) = length (camera_params_ p) /\
  length (undistorted_depth_meters_ p) = length (camera_params_ p).

(** Every camera has a pose. *)
Definition pose_per_camera (p : MultiStaticCameraPipeline) : Prop :=
  length (camera_params_ p) <= length (depth_camera_poses_cfw_ p).

(** [rawDepth[i]] and [undistortedDepth[i]] have the resolution that camera
    [i]'s calibration declares. *)
Definition buffers_have_declared_resolution (p : MultiStaticCameraPipeline) : Prop :=
  forall (i : nat) (cp : RGBDCameraParameters),
    camera_params_ p !! i = Some cp ->
    exists raw undistorted : DeviceArray2D float,
      depth_meters_ p !! i = Some raw /\
      DeviceArray2D_size raw = resolution (depth cp) /\
      undistorted_depth_meters_ p !! i = Some undistorted /\
      DeviceArray2D_size undistorted = resolution (depth cp).

(** A device array of the resolution that a calibration declares. *)
Definition has_declared_resolution (cp : RGBDCameraParameters)
  (a : DeviceArray2D float) : Prop :=
  DeviceArray2D_size a = resolution (depth cp).

(** The device copy of a calibration's undistortion map, as the constructor
    makes it. *)
Definition undistortion_map_of (cp : RGBDCameraParameters) : DeviceArray2D float2 :=
  copy (cast_float2 (undistortion_map (depth cp)))
    (DeviceArray2D_new float2 (resolution (depth cp))).

(** The one depth processor is the one built from camera 0's calibration. *)
Definition processor_of_first_camera (p : MultiStaticCameraPipeline) : Prop :=
  exists cp0 : RGBDCameraParameters,
    camera_params_ p !! 0 = Some cp0 /\
    depth_processor_ p =
      {| processor_intrinsics := intrinsics (depth cp0);
         processor_depth_range := depth_range (depth cp0) |}.

(** What [FuseMultiple]'s loop writes to [c[i]]. *)
Definition packed_camera (cp : RGBDCameraParameters) (pose : EuclideanTransform) :
  CalibratedPosedDepthCamera :=
  {| flpp :=
       make_float4 (make_float2 (focalLength (intrinsics (depth cp))))
         (make_float2 (principalPoint (intrinsics (depth cp))));
     depth_min_max := make_float2 (Range1f_leftRight (depth_range (depth cp)));
     camera_from_world := make_float4x4 (EuclideanTransform_asMatrix pose) |}.

(** What [Fuse]'s loop passes for camera [i]. *)
Definition fuse_arguments_of (cp : RGBDCameraParameters) (pose : EuclideanTransform)
  (undistorted : DeviceArray2D float) : FuseArguments :=
  {| fuse_flpp :=
       Vector4f_of (focalLength (intrinsics (depth cp)))
         (principalPoint (intrinsics (depth cp)));
     fuse_depth_range := depth_range (depth cp);
     fuse_camera_from_world := EuclideanTransform_asMatrix pose;
     fuse_depth := undistorted |}.

(** ** Effects and invariants of calls *)

(** The state after [NotifyInputUpdated] on camera [n], given the camera's
    four buffers before the call. *)
Definition notified (n : nat) (input : InputBuffer) (raw : DeviceArray2D float)
  (map : DeviceArray2D float2) (out : DeviceArray2D float)
  (p : MultiStaticCameraPipeline) : MultiStaticCameraPipeline :=
  {| regular_grid_ := regular_grid_ p;
     camera_params_ := camera_params_ p;
     depth_camera_poses_cfw_ := depth_camera_poses_cfw_ p;
     depth_processor_ := depth_processor_ p;
     input_buffers_ := input_buffers_ p;
     depth_meters_ := <[n := copy (depth_meters input) raw]> (depth_meters_ p);
     depth_camera_undistort_maps_ := depth_camera_undistort_maps_ p;
     undistorted_depth_meters_ :=
       <[n := DepthProcessor_Undistort (depth_processor_ p)
                (copy (depth_meters input) raw) map out]>
         (undistorted_depth_meters_ p) |}.

(** The effect of a call that returns: on the volume only, on one input
    buffer only, or a notification for one camera. *)
Inductive effect (p : MultiStaticCameraPipeline) : MultiStaticCameraPipeline -> Prop :=
| effect_volume (g : RegularGridTSDF) : effect p (set_regular_grid g p)
| effect_input (n : nat) (frame : InputBuffer) :
    effect p (set_input_buffers (<[n := frame]> (input_buffers_ p)) p)
| effect_notified (n : nat) (input : InputBuffer) (raw : DeviceArray2D float)
    (map : DeviceArray2D float2) (out : DeviceArray2D float) :
    input_buffers_ p !! n = Some input ->
    depth_meters_ p !! n = Some raw ->
    depth_camera_undistort_maps_ p !! n = Some map ->
    undistorted_depth_meters_ p !! n = Some out ->
    effect p (notified n input raw map out p).

(** The constructor's loop invariant: cameras [0 .. i-1] have their buffers,
    and each depth buffer is related by [R] to its camera's calibration. *)
Definition constructed_up_to
  (R : RGBDCameraParameters -> DeviceArray2D float -> Prop)
  (camera_params : list RGBDCameraParameters) (i : nat)
  (p : MultiStaticCameraPipeline) : Prop :=
  length (input_buffers_ p) = i /\
  depth_camera_undistort_maps_ p = undistortion_map_of <$> take i camera_params /\
  Forall2 R (take i camera_params) (depth_meters_ p) /\
  Forall2 R (take i camera_params) (undistorted_depth_meters_ p).

(** The members that the constructor's loop leaves as initialised. *)
Definition same_initialisers (p p' : MultiStaticCameraPipeline) : Prop :=
  regular_grid_ p' = regular_grid_ p /\
  camera_params_ p' = camera_params_ p /\
  depth_camera_poses_cfw_ p' = depth_camera_poses_cfw_ p /\
  depth_processor_ p' = depth_processor_ p.

(** The buffers of camera [i] are paired with the calibration of camera [i]. *)
Definition depth_buffers_sized (p : MultiStaticCameraPipeline) : Prop :=
  Forall2 has_declared_resolution (camera_params_ p) (depth_meters_ p) /\
  Forall2 has_declared_resolution (camera_params_ p) (undistorted_depth_meters_ p).

(** What holds of every state that a sequence of calls reaches from a freshly
    constructed pipeline: the calibration, the poses, the undistortion maps
    and the depth processor are the constructor's. *)
Definition as_constructed (camera_params : list RGBDCameraParameters)
  (depth_camera_poses_cfw : list EuclideanTransform)
  (p : MultiStaticCameraPipeline) : Prop :=
  camera_params_ p = camera_params /\
  depth_camera_poses_cfw_ p = depth_camera_poses_cfw /\
  depth_camera_undistort_maps_ p = undistortion_map_of <$> camera_params /\
  buffers_per_camera p /\
  processor_of_first_camera p.

(** ** Laws assumed of the collaborators *)

(** The array constructor gives the size asked for; [copy] and [Undistort]
    write into their destination without resizing it. *)
Class ArrayLaws : Prop := {
  DeviceArray2D_new_size :
    forall (T : Type) (size : Vector2i), DeviceArray2D_size (DeviceArray2D_new T size) = size;
  copy_size :
    forall (T : Type) (src : Array2D T) (dst : DeviceArray2D T),
      DeviceArray2D_size (copy src dst) = DeviceArray2D_size dst;
  Undistort_size :
    forall (d : DepthProcessor) (raw : DeviceArray2D float) (map : DeviceArray2D float2)
      (out : DeviceArray2D float),
      DeviceArray2D_size (DepthProcessor_Undistort d raw map out) = DeviceArray2D_size out
}.

(** The identity matrix transforms every point and every normal to itself. *)
Class TransformLaws : Prop := {
  transformPoint_identity :
    forall v : Vector3f, Matrix4f_transformPoint Matrix4f_identity v = v;
  transformNormal_identity :
    forall n : Vector3f, Matrix4f_transformNormal Matrix4f_identity n = n
}.

End Pipeline.

Arguments DeviceArray2D_size {float _ T} _.
Arguments DeviceArray2D_new {float _} T _.
Arguments copy {float _ T} _ _.

(** * The rest of the pipeline *)

Section PipelineRest.

Context {float : Type} {L : @Libcgt float} {C : @Collaborators float L}.

(** ** More of libcgt and of the volume *)

Class LibcgtCameras : Type := {
  Box3f : Type;
  Range1f_left : Range1f -> float;
  Range1f_right : Range1f -> float;
  (** [PerspectiveCamera(camera_from_world, intrinsics, image_size, z_near, z_far)]. *)
  PerspectiveCamera_new :
    EuclideanTransform -> @Intrinsics float -> @Vector2f float -> float -> float ->
    PerspectiveCamera
}.

Context {LC : LibcgtCameras}.

Class VolumeGeometry : Type := {
  RegularGridTSDF_BoundingBox : RegularGridTSDF -> Box3f;
  RegularGridTSDF_WorldFromGrid : RegularGridTSDF -> SimilarityTransform
}.

Context {VG : VolumeGeometry}.

(** ** The remaining accessors *)

Definition TSDFGridBoundingBox (p : MultiStaticCameraPipeline) : Box3f :=
  RegularGridTSDF_BoundingBox (regular_grid_ p).

Definition TSDFWorldFromGridTransform (p : MultiStaticCameraPipeline) :
  SimilarityTransform :=
  RegularGridTSDF_WorldFromGrid (regular_grid_ p).

Definition GetDepthCamera (camera_index : Z) (p : MultiStaticCameraPipeline) :
  outcome PerspectiveCamera :=
  pose ← vector_at_int (depth_camera_poses_cfw_ p) camera_index;
  cp ← vector_at_int (camera_params_ p) camera_index;
  mret (PerspectiveCamera_new pose (intrinsics (depth cp))
          (Vector2f_of_Vector2i (resolution (depth cp)))
          (Range1f_left (depth_range (depth cp)))
          (Range1f_right (depth_range (depth cp)))).

(** ** Closed forms of the loops *)

(** The buffers that the constructor's loop makes for one camera. *)
Definition input_buffer_of (cp : RGBDCameraParameters) : InputBuffer :=
  InputBuffer_new (color_resolution (color cp)) (resolution (depth cp)).

Definition depth_buffer_of (cp : RGBDCameraParameters) : DeviceArray2D float :=
  DeviceArray2D_new float (resolution (depth cp)).

(** The pipeline that the constructor returns, given the first calibration. *)
Definition constructed (cp0 : RGBDCameraParameters)
  (camera_params : list RGBDCameraParameters)
  (depth_camera_poses_cfw : list EuclideanTransform)
  (grid_resolution : Vector3i) (world_from_grid : SimilarityTransform)
  (max_tsdf_value : float) : MultiStaticCameraPipeline :=
  {| regular_grid_ := RegularGridTSDF_new grid_resolution world_from_grid max_tsdf_value;
     camera_params_ := camera_params;
     depth_camera_poses_cfw_ := depth_camera_poses_cfw;
     depth_processor_ :=
       {| processor_intrinsics := intrinsics (depth cp0);
          processor_depth_range := depth_range (depth cp0) |};
     input_buffers_ := input_buffer_of <$> camera_params;
     depth_meters_ := depth_buffer_of <$> camera_params;
     depth_camera_undistort_maps_ := undistortion_map_of <$> camera_params;
     undistorted_depth_meters_ := depth_buffer_of <$> camera_params |}.

(** The arguments of [Fuse]'s calls, camera by camera. *)
Definition fuse_arguments_list (p : MultiStaticCameraPipeline) : list FuseArguments :=
  zip_with (fun f undistorted => f undistorted)
    (zip_with fuse_arguments_of (camera_params_ p) (depth_camera_poses_cfw_ p))
    (undistorted_depth_meters_ p).

(** One [Fuse] call's arguments as an entry of [FuseMultiple]'s batch: the
    same numbers in CUDA's types. *)
Definition batch_entry_of (a : FuseArguments) : CalibratedPosedDepthCamera :=
  {| flpp :=
       {| float4_x := Vector4f_x (fuse_flpp a); float4_y := Vector4f_y (fuse_flpp a);
          float4_z := Vector4f_z (fuse_flpp a); float4_w := Vector4f_w (fuse_flpp a) |};
     depth_min_max := make_float2 (Range1f_leftRight (fuse_depth_range a));
     camera_from_world := make_float4x4 (fuse_camera_from_world a) |}.

(** The calls that touch the input side only. *)
Definition is_input_call (c : Call) : Prop :=
  match c with
  | CallWriteInputBuffer _ _ | CallNotifyInputUpdated _ _ _ => True
  | _ => False
  end.

End PipelineRest.


(** * The viewer's OpenGL state: multi_static_camera_gl_state.cpp

    The members that hold data are fields of the state; the pipeline behind
    [pipeline_] is one of them. Calls into OpenGL are recorded in order in
    [gl_calls]; the viewport, which the code reads back, is [gl_viewport].
    The constructor is not modelled: the members it leaves to their
    declarations are not in the sources. *)

Section GLState.

Context {float : Type} {L : @Libcgt float} {C : @Collaborators float L}.
Context {LC : @LibcgtCameras float L} {VG : @VolumeGeometry float L C LC}.

(** ** More of libcgt *)

Class LibcgtGL : Type := {
  Rect2i : Type;
  (** [Rect2i{origin, size}]. *)
  Rect2i_new : Vector2i -> Vector2i -> Rect2i;
  translate : Rect2i -> Vector2i -> Rect2i;
  (** [Vector2i / int]. *)
  Vector2i_div : Vector2i -> Z -> Vector2i;
  (** The [float] literal [m]e[e]: [float_literal 2 (-1)] is [0.2f]. *)
  float_literal : Z -> Z -> float;
  (** [a != b] on cameras. *)
  PerspectiveCamera_neq : PerspectiveCamera -> PerspectiveCamera -> bool;
  PerspectiveCamera_viewProjectionMatrix : PerspectiveCamera -> Matrix4f;
  Range1f_minimum : Range1f -> float;
  Range1f_maximum : Range1f -> float;
  Matrix4f_uniformScaling : float -> Matrix4f;
  Matrix4f_translation : @Vector3f float -> Matrix4f;
  Matrix4f_mul : Matrix4f -> Matrix4f -> Matrix4f;
  (** [m.setRow(i, v)]: the new value of [m]. *)
  Matrix4f_setRow : Z -> @Vector4f float -> Matrix4f -> Matrix4f;
  (** [rescaleRangeToScaleOffset(a, b, c, d, scale, offset)]: scale and
      offset. *)
  rescaleRangeToScaleOffset : float -> float -> float -> float -> float * float;
  (** [a.resize(size)]: the new value of [a]. *)
  DeviceArray2D_resize : forall T : Type, Vector2i -> DeviceArray2D T -> DeviceArray2D T
}.

Context {LG : LibcgtGL}.

(** [Vector3f{f}] and [Vector4f{f}] fill every component. *)
Definition Vector3f_fill (f : float) : @Vector3f float :=
  {| Vector3f_x := f; Vector3f_y := f; Vector3f_z := f |}.

Definition Vector4f_fill (f : float) : @Vector4f float :=
  {| Vector4f_x := f; Vector4f_y := f; Vector4f_z := f; Vector4f_w := f |}.

(** [Vector4f{x, y, z, w}] from integer literals. *)
Definition Vector4f_of_ints (x y z w : Z) : @Vector4f float :=
  {| Vector4f_x := float_of_int x; Vector4f_y := float_of_int y;
     Vector4f_z := float_of_int z; Vector4f_w := float_of_int w |}.

(** ** OpenGL objects and calls *)

Inductive GLImageInternalFormat : Type := RGBA32F | R32F.

(** What a texture was last filled with. *)
Inductive TextureContent : Type :=
| NoContent
| HostDepth (a : Array2D float)
| DeviceDepth (a : DeviceArray2D float)
| DevicePixels (a : DeviceArray2D (@float4 float)).

(** [Texture2D(GLTexture2D(size, format), MapFlags::WRITE_DISCARD)]. *)
Record Texture : Type := {
  texture_size : Vector2i;
  texture_format : GLImageInternalFormat;
  texture_content : TextureContent
}.

Definition Texture_new (size : Vector2i) (format : GLImageInternalFormat) : Texture :=
  {| texture_size := size; texture_format := format; texture_content := NoContent |}.

Definition Texture_fill (c : TextureContent) (t : Texture) : Texture :=
  {| texture_size := texture_size t; texture_format := texture_format t;
     texture_content := c |}.

(** A camera frustum to draw: the camera it was last positioned at. *)
Record Frustum : Type := { frustum_camera : option PerspectiveCamera }.

Inductive Capability : Type := GL_DEPTH_TEST | GL_BLEND.

Inductive ProgramPipeline : Type :=
| draw_color_ | draw_single_color_ | draw_texture_ | unproject_point_cloud_.

Inductive Stage : Type := vertexProgram | fragmentProgram.

Inductive TextureName : Type :=
| raw_depth_texture (i : nat)
| undistorted_depth_texture (i : nat)
| world_normals_texture.

Inductive Drawable : Type :=
| world_axes_
| depth_camera_frustum (i : nat)
| tsdf_bbox_
| xy_coords_
| input_buffer_textured_rect_.

Inductive GLCall : Type :=
| glDisable (c : Capability)
| glEnable (c : Capability)
| setViewport (r : Rect2i)
| setUniformMatrix4f (p : ProgramPipeline) (s : Stage) (location : Z) (m : Matrix4f)
| setUniformInt (p : ProgramPipeline) (s : Stage) (location : Z) (v : Z)
| setUniformVector4f (p : ProgramPipeline) (s : Stage) (location : Z) (v : @Vector4f float)
| setUniformVector2f (p : ProgramPipeline) (s : Stage) (location : Z) (v : @Vector2f float)
| bind (p : ProgramPipeline)
| unbindAll
| texture_bind (t : TextureName) (unit : Z)
| nearest_sampler_bind (unit : Z)
| draw (d : Drawable).

(** ** The state: the members of [MultiStaticCameraGLState] *)

Record MultiStaticCameraGLState : Type := {
  pipeline_ : MultiStaticCameraPipeline;
  depth_camera_frusta_ : list Frustum;
  free_camera_world_positions_tex_ : Texture;
  free_camera_world_normals_tex_ : Texture;
  raw_depth_textures_ : list Texture;
  undistorted_depth_textures_ : list Texture;
  window_size_ : Vector2i;
  free_camera_world_positions_ : DeviceArray2D (@float4 float);
  free_camera_world_normals_ : DeviceArray2D (@float4 float);
  free_camera_ : PerspectiveCamera;
  tsdf_is_dirty_ : bool;
  gl_viewport : Rect2i;
  gl_calls : list GLCall
}.

Definition set_pipeline (v : MultiStaticCameraPipeline) (s : MultiStaticCameraGLState) :
  MultiStaticCameraGLState :=
  {| pipeline_ := v;
     depth_camera_frusta_ := depth_camera_frusta_ s;
     free_camera_world_positions_tex_ := free_camera_world_positions_tex_ s;
     free_camera_world_normals_tex_ := free_camera_world_normals_tex_ s;
     raw_depth_textures_ := raw_depth_textures_ s;
     undistorted_depth_textures_ := undistorted_depth_textures_ s;
     window_size_ := window_size_ s;
     free_camera_world_positions_ := free_camera_world_positions_ s;
     free_camera_world_normals_ := free_camera_world_normals_ s;
     free_camera_ := free_camera_ s;
     tsdf_is_dirty_ := tsdf_is_dirty_ s;
     gl_viewport := gl_viewport s;
     gl_calls := gl_calls s |}.

Definition set_depth_camera_frusta (v : list Frustum) (s : MultiStaticCameraGLState) :
  MultiStaticCameraGLState :=
  {| pipeline_ := pipeline_ s;
     depth_camera_frusta_ := v;
     free_camera_world_positions_tex_ := free_camera_world_positions_tex_ s;
     free_camera_world_normals_tex_ := free_camera_world_normals_tex_ s;
     raw_depth_textures_ := raw_depth_textures_ s;
     undistorted_depth_textures_ := undistorted_depth_textures_ s;
     window_size_ := window_size_ s;
     free_camera_world_positions_ := free_camera_world_positions_ s;
     free_camera_world_normals_ := free_camera_world_normals_ s;
     free_camera_ := free_camera_ s;
     tsdf_is_dirty_ := tsdf_is_dirty_ s;
     gl_viewport := gl_viewport s;
     gl_calls := gl_calls s |}.

Definition set_free_camera_world_positions_tex (v : Texture) (s : MultiStaticCameraGLState) :
  MultiStaticCameraGLState :=
  {| pipeline_ := pipeline_ s;
     depth_camera_frusta_ := depth_camera_frusta_ s;
     free_camera_world_positions_tex_ := v;
     free_camera_world_normals_tex_ := free_camera_world_normals_tex_ s;
     raw_depth_textures_ := raw_depth_textures_ s;
     undistorted_depth_textures_ := undistorted_depth_textures_ s;
     window_size_ := window_size_ s;
     free_camera_world_positions_ := free_camera_world_positions_ s;
     free_camera_world_normals_ := free_camera_world_normals_ s;
     free_camera_ := free_camera_ s;
     tsdf_is_dirty_ := tsdf_is_dirty_ s;
     gl_viewport := gl_viewport s;
     gl_calls := gl_calls s |}.

Definition set_free_camera_world_normals_tex (v : Texture) (s : MultiStaticCameraGLState) :
  MultiStaticCameraGLState :=
  {| pipeline_ := pipeline_ s;
     depth_camera_frusta_ := depth_camera_frusta_ s;
     free_camera_world_positions_tex_ := free_camera_world_positions_tex_ s;
     free_camera_world_normals_tex_ := v;
     raw_depth_textures_ := raw_depth_textures_ s;
     undistorted_depth_textures_ := undistorted_depth_textures_ s;
     window_size_ := window_size_ s;
     free_camera_world_positions_ := free_camera_world_positions_ s;
     free_camera_world_normals_ := free_camera_world_normals_ s;
     free_camera_ := free_camera_ s;
     tsdf_is_dirty_ := tsdf_is_dirty_ s;
     gl_viewport := gl_viewport s;
     gl_calls := gl_calls s |}.

Definition set_raw_depth_textures (v : list Texture) (s : MultiStaticCameraGLState) :
  MultiStaticCameraGLState :=
  {| pipeline_ := pipeline_ s;
     depth_camera_frusta_ := depth_camera_frusta_ s;
     free_camera_world_positions_tex_ := free_camera_world_positions_tex_ s;
     free_camera_world_normals_tex_ := free_camera_world_normals_tex_ s;
     raw_depth_textures_ := v;
     undistorted_depth_textures_ := undistorted_depth_textures_ s;
     window_size_ := window_size_ s;
     free_camera_world_positions_ := free_camera_world_positions_ s;
     free_camera_world_normals_ := free_camera_world_normals_ s;
     free_camera_ := free_camera_ s;
     tsdf_is_dirty_ := tsdf_is_dirty_ s;
     gl_viewport := gl_viewport s;
     gl_calls := gl_calls s |}.

Definition set_undistorted_depth_textures (v : list Texture) (s : MultiStaticCameraGLState) :
  MultiStaticCameraGLState :=
  {| pipeline_ := pipeline_ s;
     depth_camera_frusta_ := depth_camera_frusta_ s;
     free_camera_world_positions_tex_ := free_camera_world_positions_tex_ s;
     free_camera_world_normals_tex_ := free_camera_world_normals_tex_ s;
     raw_depth_textures_ := raw_depth_textures_ s;
     undistorted_depth_textures_ := v;
     window_size_ := window_size_ s;
     free_camera_world_positions_ := free_camera_world_positions_ s;
     free_camera_world_normals_ := free_camera_world_normals_ s;
     free_camera_ := free_camera_ s;
     tsdf_is_dirty_ := tsdf_is_dirty_ s;
     gl_viewport := gl_viewport s;
     gl_calls := gl_calls s |}.

Definition set_window_size (v : Vector2i) (s : MultiStaticCameraGLState) :
  MultiStaticCameraGLState :=
  {| pipeline_ := pipeline_ s;
     depth_camera_frusta_ := depth_camera_frusta_ s;
     free_camera_world_positions_tex_ := free_camera_world_positions_tex_ s;
     free_camera_world_normals_tex_ := free_camera_world_normals_tex_ s;
     raw_depth_textures_ := raw_depth_textures_ s;
     undistorted_depth_textures_ := undistorted_depth_textures_ s;
     window_size_ := v;
     free_camera_world_positions_ := free_camera_world_positions_ s;
     free_camera_world_normals_ := free_camera_world_normals_ s;
     free_camera_ := free_camera_ s;
     tsdf_is_dirty_ := tsdf_is_dirty_ s;
     gl_viewport := gl_viewport s;
     gl_calls := gl_calls s |}.

Definition set_free_camera_world_positions (v : DeviceArray2D (@float4 float)) (s : MultiStaticCameraGLState) :
  MultiStaticCameraGLState :=
  {| pipeline_ := pipeline_ s;
     depth_camera_frusta_ := depth_camera_frusta_ s;
     free_camera_world_positions_tex_ := free_camera_world_positions_tex_ s;
     free_camera_world_normals_tex_ := free_camera_world_normals_tex_ s;
     raw_depth_textures_ := raw_depth_textures_ s;
     undistorted_depth_textures_ := undistorted_depth_textures_ s;
     window_size_ := window_size_ s;
     free_camera_world_positions_ := v;
     free_camera_world_normals_ := free_camera_world_normals_ s;
     free_camera_ := free_camera_ s;
     tsdf_is_dirty_ := tsdf_is_dirty_ s;
     gl_viewport := gl_viewport s;
     gl_calls := gl_calls s |}.

Definition set_free_camera_world_normals (v : DeviceArray2D (@float4 float)) (s : MultiStaticCameraGLState) :
  MultiStaticCameraGLState :=
  {| pipeline_ := pipeline_ s;
     depth_camera_frusta_ := depth_camera_frusta_ s;
     free_camera_world_positions_tex_ := free_camera_world_positions_tex_ s;
     free_camera_world_normals_tex_ := free_camera_world_normals_tex_ s;
     raw_depth_textures_ := raw_depth_textures_ s;
     undistorted_depth_textures_ := undistorted_depth_textures_ s;
     window_size_ := window_size_ s;
     free_camera_world_positions_ := free_camera_world_positions_ s;
     free_camera_world_normals_ := v;
     free_camera_ := free_camera_ s;
     tsdf_is_dirty_ := tsdf_is_dirty_ s;
     gl_viewport := gl_viewport s;
     gl_calls := gl_calls s |}.

Definition set_free_camera (v : PerspectiveCamera) (s : MultiStaticCameraGLState) :
  MultiStaticCameraGLState :=
  {| pipeline_ := pipeline_ s;
     depth_camera_frusta_ := depth_camera_frusta_ s;
     free_camera_world_positions_tex_ := free_camera_world_positions_tex_ s;
     free_camera_world_normals_tex_ := free_camera_world_normals_tex_ s;
     raw_depth_textures_ := raw_depth_textures_ s;
     undistorted_depth_textures_ := undistorted_depth_textures_ s;
     window_size_ := window_size_ s;
     free_camera_world_positions_ := free_camera_world_positions_ s;
     free_camera_world_normals_ := free_camera_world_normals_ s;
     free_camera_ := v;
     tsdf_is_dirty_ := tsdf_is_dirty_ s;
     gl_viewport := gl_viewport s;
     gl_calls := gl_calls s |}.

Definition set_tsdf_is_dirty (v : bool) (s : MultiStaticCameraGLState) :
  MultiStaticCameraGLState :=
  {| pipeline_ := pipeline_ s;
     depth_camera_frusta_ := depth_camera_frusta_ s;
     free_camera_world_positions_tex_ := free_camera_world_positions_tex_ s;
     free_camera_world_normals_tex_ := free_camera_world_normals_tex_ s;
     raw_depth_textures_ := raw_depth_textures_ s;
     undistorted_depth_textures_ := undistorted_depth_textures_ s;
     window_size_ := window_size_ s;
     free_camera_world_positions_ := free_camera_world_positions_ s;
     free_camera_world_normals_ := free_camera_world_normals_ s;
     free_camera_ := free_camera_ s;
     tsdf_is_dirty_ := v;
     gl_viewport := gl_viewport s;
     gl_calls := gl_calls s |}.

Definition set_gl_viewport (v : Rect2i) (s : MultiStaticCameraGLState) :
  MultiStaticCameraGLState :=
  {| pipeline_ := pipeline_ s;
     depth_camera_frusta_ := depth_camera_frusta_ s;
     free_camera_world_positions_tex_ := free_camera_world_positions_tex_ s;
     free_camera_world_normals_tex_ := free_camera_world_normals_tex_ s;
     raw_depth_textures_ := raw_depth_textures_ s;
     undistorted_depth_textures_ := undistorted_depth_textures_ s;
     window_size_ := window_size_ s;
     free_camera_world_positions_ := free_camera_world_positions_ s;
     free_camera_world_normals_ := free_camera_world_normals_ s;
     free_camera_ := free_camera_ s;
     tsdf_is_dirty_ := tsdf_is_dirty_ s;
     gl_viewport := v;
     gl_calls := gl_calls s |}.

(** One call into OpenGL, appended to the record of calls. *)
Definition gl (c : GLCall) (s : MultiStaticCameraGLState) : MultiStaticCameraGLState :=
  {| pipeline_ := pipeline_ s;
     depth_camera_frusta_ := depth_camera_frusta_ s;
     free_camera_world_positions_tex_ := free_camera_world_positions_tex_ s;
     free_camera_world_normals_tex_ := free_camera_world_normals_tex_ s;
     raw_depth_textures_ := raw_depth_textures_ s;
     undistorted_depth_textures_ := undistorted_depth_textures_ s;
     window_size_ := window_size_ s;
     free_camera_world_positions_ := free_camera_world_positions_ s;
     free_camera_world_normals_ := free_camera_world_normals_ s;
     free_camera_ := free_camera_ s;
     tsdf_is_dirty_ := tsdf_is_dirty_ s;
     gl_viewport := gl_viewport s;
     gl_calls := gl_calls s ++ [c] |}.

(** ** The constants of the file *)

Definition kDrawUnprojectedPointCloud : bool := false.
Definition kDrawFullscreenRaycast : bool := true.
Definition kFullscreenRaycastDownsampleFactor : Z := 1.

(** [static_cast<int>(v.size())] as a loop bound for an [int] counter from 0. *)
Definition int_size {A : Type} (v : list A) : nat :=
  Z.to_nat (static_cast_int (Z.of_nat (length v))).

(** ** NotifyTSDFUpdated and Resize *)

Definition NotifyTSDFUpdated (s : MultiStaticCameraGLState) : MultiStaticCameraGLState :=
  set_tsdf_is_dirty true s.

Definition Resize (size : Vector2i) (s : MultiStaticCameraGLState) :
  MultiStaticCameraGLState :=
  let s := set_window_size size s in
  let downsampled_size := Vector2i_div size kFullscreenRaycastDownsampleFactor in
  let s :=
    set_free_camera_world_positions
      (DeviceArray2D_resize (@float4 float) downsampled_size (free_camera_world_positions_ s)) s in
  let s :=
    set_free_camera_world_normals
      (DeviceArray2D_resize (@float4 float) downsampled_size (free_camera_world_normals_ s)) s in
  let s := set_free_camera_world_positions_tex (Texture_new downsampled_size RGBA32F) s in
  set_free_camera_world_normals_tex (Texture_new downsampled_size RGBA32F) s.

(** ** The draw functions *)

Definition DrawWorldAxes (s : MultiStaticCameraGLState) : MultiStaticCameraGLState :=
  let s :=
    gl (setUniformMatrix4f draw_color_ vertexProgram 0
          (PerspectiveCamera_viewProjectionMatrix (free_camera_ s))) s in
  let s := gl (bind draw_color_) s in
  let s := gl (draw world_axes_) s in
  gl unbindAll s.

(** [for (size_t i = ...; i < depth_camera_frusta_.size(); ++i)
    depth_camera_frusta_[i].draw()], with [todo] iterations left. *)
Fixpoint draw_frusta (todo i : nat) (s : MultiStaticCameraGLState) :
  outcome MultiStaticCameraGLState :=
  match todo with
  | O => mret s
  | S todo' =>
      _ ← vector_at (depth_camera_frusta_ s) i;
      draw_frusta todo' (S i) (gl (draw (depth_camera_frustum i)) s)
  end.

Definition DrawCameraFrustaAndTSDFGrid (s : MultiStaticCameraGLState) :
  outcome MultiStaticCameraGLState :=
  let s :=
    gl (setUniformMatrix4f draw_color_ vertexProgram 0
          (PerspectiveCamera_viewProjectionMatrix (free_camera_ s))) s in
  let s := gl (bind draw_color_) s in
  s ← draw_frusta (length (depth_camera_frusta_ s)) 0 s;
  let s := gl (draw tsdf_bbox_) s in
  mret (gl unbindAll s).

Definition normalsToRGBA : Matrix4f :=
  let m :=
    Matrix4f_mul (Matrix4f_uniformScaling (float_literal 5 (-1)))
      (Matrix4f_translation (Vector3f_fill (float_literal 10 (-1)))) in
  Matrix4f_setRow 3 (Vector4f_of_ints 1 0 0 0) m.

(** The colour of camera [i]'s point cloud. *)
Definition point_cloud_color (i : nat) : @Vector4f float :=
  match i with
  | 0 => Vector4f_of_ints 1 0 0 1
  | 1 => Vector4f_of_ints 0 1 0 1
  | 2 => Vector4f_of_ints 0 0 1 1
  | _ => Vector4f_fill (float_of_int 1)
  end.

(** One pass of the loop of [DrawUnprojectedPointClouds], for camera [i]. *)
Definition draw_point_cloud (i : nat) (s : MultiStaticCameraGLState) :
  outcome MultiStaticCameraGLState :=
  cp ← GetCameraParameters (Z.of_nat i) (pipeline_ s);
  let params := depth cp in
  let flpp :=
    Vector4f_of (focalLength (intrinsics params)) (principalPoint (intrinsics params)) in
  let depth_range :=
    {| Vector2f_x := Range1f_minimum (depth_range params);
       Vector2f_y := Range1f_maximum (depth_range params) |} in
  let s := gl (setUniformVector4f unproject_point_cloud_ vertexProgram 1 flpp) s in
  let s := gl (setUniformVector2f unproject_point_cloud_ vertexProgram 2 depth_range) s in
  camera ← GetDepthCamera (Z.of_nat i) (pipeline_ s);
  let s :=
    gl (setUniformMatrix4f unproject_point_cloud_ vertexProgram 3
          (EuclideanTransform_asMatrix (PerspectiveCamera_worldFromCamera camera))) s in
  let s := gl (setUniformInt unproject_point_cloud_ vertexProgram 4 0) s in
  _ ← vector_at (undistorted_depth_textures_ s) i;
  let s := gl (texture_bind (undistorted_depth_texture i) 0) s in
  let s := gl (nearest_sampler_bind 0) s in
  let s :=
    gl (setUniformVector4f unproject_point_cloud_ vertexProgram 5 (point_cloud_color i)) s in
  mret (gl (draw xy_coords_) s).

Fixpoint draw_point_clouds (todo i : nat) (s : MultiStaticCameraGLState) :
  outcome MultiStaticCameraGLState :=
  match todo with
  | O => mret s
  | S todo' => s' ← draw_point_cloud i s; draw_point_clouds todo' (S i) s'
  end.

Definition DrawUnprojectedPointClouds (s : MultiStaticCameraGLState) :
  outcome MultiStaticCameraGLState :=
  let s := gl (bind unproject_point_cloud_) s in
  let s :=
    gl (setUniformMatrix4f unproject_point_cloud_ vertexProgram 0
          (PerspectiveCamera_viewProjectionMatrix (free_camera_ s))) s in
  draw_point_clouds (Z.to_nat (NumCameras (pipeline_ s))) 0 s.

(** The raycast of the free camera's view, when the view is dirty. *)
Definition update_free_camera_view (FLAGS_adaptive_raycast : bool)
  (s : MultiStaticCameraGLState) : MultiStaticCameraGLState :=
  let '(pipeline, world_points, world_normals) :=
    Raycast FLAGS_adaptive_raycast (free_camera_ s)
      (free_camera_world_positions_ s) (free_camera_world_normals_ s) (pipeline_ s) in
  let s := set_pipeline pipeline s in
  let s := set_free_camera_world_positions world_points s in
  let s := set_free_camera_world_normals world_normals s in
  let s :=
    set_free_camera_world_positions_tex
      (Texture_fill (DevicePixels (free_camera_world_positions_ s))
         (free_camera_world_positions_tex_ s)) s in
  let s :=
    set_free_camera_world_normals_tex
      (Texture_fill (DevicePixels (free_camera_world_normals_ s))
         (free_camera_world_normals_tex_ s)) s in
  set_tsdf_is_dirty false s.

Definition DrawFullscreenRaycast (FLAGS_adaptive_raycast : bool)
  (s : MultiStaticCameraGLState) : MultiStaticCameraGLState :=
  let s :=
    if tsdf_is_dirty_ s then update_free_camera_view FLAGS_adaptive_raycast s else s in
  let s := gl (glDisable GL_DEPTH_TEST) s in
  let s := gl (glEnable GL_BLEND) s in
  let s := gl (setUniformMatrix4f draw_texture_ vertexProgram 0 Matrix4f_identity) s in
  let s := gl (setUniformInt draw_texture_ fragmentProgram 0 0) s in
  let s := gl (setUniformMatrix4f draw_texture_ fragmentProgram 1 normalsToRGBA) s in
  let s := gl (bind draw_texture_) s in
  let s := gl (texture_bind world_normals_texture 0) s in
  let s := gl (draw input_buffer_textured_rect_) s in
  let s := gl (glDisable GL_BLEND) s in
  gl (glEnable GL_DEPTH_TEST) s.

(** [GLUtilities::setViewport(r)]. *)
Definition GLUtilities_setViewport (r : Rect2i) (s : MultiStaticCameraGLState) :
  MultiStaticCameraGLState :=
  set_gl_viewport r (gl (setViewport r) s).

(** One pass of the loop of [DrawInputsAndIntermediates], for camera [i]:
    the state and the rectangle for the next tile. *)
Definition draw_depth_tiles (sz : Vector2i) (i : nat) (current_rect : Rect2i)
  (s : MultiStaticCameraGLState) : outcome (MultiStaticCameraGLState * Rect2i) :=
  let right := {| Vector2i_x := Vector2i_x sz; Vector2i_y := 0 |} in
  let s := GLUtilities_setViewport current_rect s in
  _ ← vector_at (raw_depth_textures_ s) i;
  let s := gl (texture_bind (raw_depth_texture i) 0) s in
  let s := gl (draw input_buffer_textured_rect_) s in
  let current_rect := translate current_rect right in
  let s := GLUtilities_setViewport current_rect s in
  _ ← vector_at (undistorted_depth_textures_ s) i;
  let s := gl (texture_bind (undistorted_depth_texture i) 0) s in
  let s := gl (draw input_buffer_textured_rect_) s in
  mret (s, translate current_rect right).

Fixpoint draw_depth_tiles_loop (sz : Vector2i) (todo i : nat) (current_rect : Rect2i)
  (s : MultiStaticCameraGLState) : outcome MultiStaticCameraGLState :=
  match todo with
  | O => mret s
  | S todo' =>
      '(s', rect') ← draw_depth_tiles sz i current_rect s;
      draw_depth_tiles_loop sz todo' (S i) rect' s'
  end.

(** The matrix that maps depths in [0.2, 10] metres to grey levels. *)
Definition depth_color_matrix : Matrix4f :=
  let '(scale, offset) :=
    rescaleRangeToScaleOffset (float_literal 2 (-1)) (float_literal 100 (-1))
      (float_of_int 0) (float_of_int 1) in
  let colorMatrix :=
    Matrix4f_mul (Matrix4f_uniformScaling scale)
      (Matrix4f_translation (Vector3f_fill offset)) in
  Matrix4f_setRow 3 (Vector4f_of_ints 1 0 0 0) colorMatrix.

Definition DrawInputsAndIntermediates (s : MultiStaticCameraGLState) :
  outcome MultiStaticCameraGLState :=
  let s := gl (glDisable GL_DEPTH_TEST) s in
  let vp := gl_viewport s in
  let s := gl (setUniformMatrix4f draw_texture_ vertexProgram 0 Matrix4f_identity) s in
  let s := gl (setUniformInt draw_texture_ fragmentProgram 0 0) s in
  let s := gl (setUniformMatrix4f draw_texture_ fragmentProgram 1 depth_color_matrix) s in
  let s := gl (bind draw_texture_) s in
  t0 ← vector_at (raw_depth_textures_ s) 0;
  let sz := Vector2i_div (texture_size t0) 2 in
  let current_rect := Rect2i_new {| Vector2i_x := 0; Vector2i_y := 0 |} sz in
  s ← draw_depth_tiles_loop sz (length (raw_depth_textures_ s)) 0 current_rect s;
  let s := GLUtilities_setViewport vp s in
  mret (gl (glEnable GL_DEPTH_TEST) s).

(** ** Render *)

(** One pass of [Render]'s first loop: the depth textures of camera [i]. *)
Definition upload_depth (i : nat) (s : MultiStaticCameraGLState) :
  outcome MultiStaticCameraGLState :=
  raw ← vector_at (raw_depth_textures_ s) i;
  input ← GetInputBuffer (Z.of_nat i) (pipeline_ s);
  let s :=
    set_raw_depth_textures
      (<[i := Texture_fill (HostDepth (depth_meters input)) raw]> (raw_depth_textures_ s))
      s in
  texture ← vector_at (undistorted_depth_textures_ s) i;
  undistorted ← GetUndistortedDepthMap (Z.of_nat i) (pipeline_ s);
  mret (set_undistorted_depth_textures
          (<[i := Texture_fill (DeviceDepth undistorted) texture]>
             (undistorted_depth_textures_ s)) s).

Fixpoint upload_depths (todo i : nat) (s : MultiStaticCameraGLState) :
  outcome MultiStaticCameraGLState :=
  match todo with
  | O => mret s
  | S todo' => s' ← upload_depth i s; upload_depths todo' (S i) s'
  end.

(** One pass of [Render]'s second loop: the frustum of camera [i]. *)
Definition update_frustum (i : nat) (s : MultiStaticCameraGLState) :
  outcome MultiStaticCameraGLState :=
  _ ← vector_at (depth_camera_frusta_ s) i;
  camera ← GetDepthCamera (Z.of_nat i) (pipeline_ s);
  mret (set_depth_camera_frusta
          (<[i := {| frustum_camera := Some camera |}]> (depth_camera_frusta_ s)) s).

Fixpoint update_frusta (todo i : nat) (s : MultiStaticCameraGLState) :
  outcome MultiStaticCameraGLState :=
  match todo with
  | O => mret s
  | S todo' => s' ← update_frustum i s; update_frusta todo' (S i) s'
  end.

Definition Render (FLAGS_adaptive_raycast : bool) (free_camera : PerspectiveCamera)
  (s : MultiStaticCameraGLState) : outcome MultiStaticCameraGLState :=
  let s :=
    if PerspectiveCamera_neq free_camera (free_camera_ s)
    then set_tsdf_is_dirty true (set_free_camera free_camera s)
    else s in
  s ← upload_depths (int_size (raw_depth_textures_ s)) 0 s;
  s ← update_frusta (int_size (depth_camera_frusta_ s)) 0 s;
  let s := DrawWorldAxes s in
  s ← DrawCameraFrustaAndTSDFGrid s;
  s ← (if kDrawUnprojectedPointCloud then DrawUnprojectedPointClouds s else mret s);
  let s :=
    if kDrawFullscreenRaycast then DrawFullscreenRaycast FLAGS_adaptive_raycast s else s in
  DrawInputsAndIntermediates s.

(** ** What the proofs about the viewer speak of *)

(** A camera does not differ from itself. *)
Class CameraLaws : Prop := {
  PerspectiveCamera_neq_same :
    forall c : PerspectiveCamera, PerspectiveCamera_neq c c = false
}.

(** The free camera's view: what [DrawFullscreenRaycast] shows and keeps. *)
Record View : Type := {
  view_pipeline : MultiStaticCameraPipeline;
  view_positions : DeviceArray2D (@float4 float);
  view_normals : DeviceArray2D (@float4 float);
  view_positions_tex : Texture;
  view_normals_tex : Texture;
  view_camera : PerspectiveCamera;
  view_is_dirty : bool;
  view_window_size : Vector2i
}.

Definition view_of (s : MultiStaticCameraGLState) : View :=
  {| view_pipeline := pipeline_ s;
     view_positions := free_camera_world_positions_ s;
     view_normals := free_camera_world_normals_ s;
     view_positions_tex := free_camera_world_positions_tex_ s;
     view_normals_tex := free_camera_world_normals_tex_ s;
     view_camera := free_camera_ s;
     view_is_dirty := tsdf_is_dirty_ s;
     view_window_size := window_size_ s |}.

(** The viewport of tile [k] of [DrawInputsAndIntermediates]: the first
    tile moved [k] times to the right by its width. *)
Definition tile (sz : Vector2i) (k : nat) : Rect2i :=
  Nat.iter k (fun r => translate r {| Vector2i_x := Vector2i_x sz; Vector2i_y := 0 |})
    (Rect2i_new {| Vector2i_x := 0; Vector2i_y := 0 |} sz).

(** The calls that draw camera [i]'s two tiles. *)
Definition tile_calls (sz : Vector2i) (i : nat) : list GLCall :=
  [setViewport (tile sz (2 * i)); texture_bind (raw_depth_texture i) 0;
   draw input_buffer_textured_rect_;
   setViewport (tile sz (S (2 * i))); texture_bind (undistorted_depth_texture i) 0;
   draw input_buffer_textured_rect_].

(** The calls of [DrawFullscreenRaycast]. *)
Definition fullscreen_calls : list GLCall :=
  [glDisable GL_DEPTH_TEST; glEnable GL_BLEND;
   setUniformMatrix4f draw_texture_ vertexProgram 0 Matrix4f_identity;
   setUniformInt draw_texture_ fragmentProgram 0 0;
   setUniformMatrix4f draw_texture_ fragmentProgram 1 normalsToRGBA;
   bind draw_texture_; texture_bind world_normals_texture 0;
   draw input_buffer_textured_rect_; glDisable GL_BLEND; glEnable GL_DEPTH_TEST].

(** The calls of [DrawInputsAndIntermediates] with [n] depth textures of
    which the first has size [size0], from the viewport [vp]. *)
Definition depth_tiles_calls (size0 : Vector2i) (n : nat) (vp : Rect2i) : list GLCall :=
  [glDisable GL_DEPTH_TEST;
   setUniformMatrix4f draw_texture_ vertexProgram 0 Matrix4f_identity;
   setUniformInt draw_texture_ fragmentProgram 0 0;
   setUniformMatrix4f draw_texture_ fragmentProgram 1 depth_color_matrix;
   bind draw_texture_]
  ++ flat_map (tile_calls (Vector2i_div size0 2)) (seq 0 n)
  ++ [setViewport vp; glEnable GL_DEPTH_TEST].


(** Several calls into OpenGL in a row. *)
Definition gl_many (cs : list GLCall) (s : MultiStaticCameraGLState) :
  MultiStaticCameraGLState :=
  foldl (fun s c => gl c s) s cs.

(** The OpenGL objects that [Render] refreshes. *)
Definition objects_of (s : MultiStaticCameraGLState) :
  list Frustum * list Texture * list Texture :=
  (depth_camera_frusta_ s, raw_depth_textures_ s, undistorted_depth_textures_ s).

(** The calls of [DrawWorldAxes] and [DrawCameraFrustaAndTSDFGrid] for a
    free camera and [n] frusta. *)
Definition scene_calls (camera : PerspectiveCamera) (n : nat) : list GLCall :=
  [setUniformMatrix4f draw_color_ vertexProgram 0
     (PerspectiveCamera_viewProjectionMatrix camera);
   bind draw_color_; draw world_axes_; unbindAll;
   setUniformMatrix4f draw_color_ vertexProgram 0
     (PerspectiveCamera_viewProjectionMatrix camera);
   bind draw_color_]
  ++ ((fun i => draw (depth_camera_frustum i)) <$> seq 0 n)
  ++ [draw tsdf_bbox_; unbindAll].

(** The calls that only [DrawUnprojectedPointClouds] makes: those on its
    program pipeline, on its sampler and the draw of its vertices. *)
Definition is_point_cloud_call (c : GLCall) : bool :=
  match c with
  | setUniformMatrix4f unproject_point_cloud_ _ _ _
  | setUniformInt unproject_point_cloud_ _ _ _
  | setUniformVector4f unproject_point_cloud_ _ _ _
  | setUniformVector2f unproject_point_cloud_ _ _ _
  | bind unproject_point_cloud_
  | nearest_sampler_bind _
  | draw xy_coords_ => true
  | _ => false
  end.

(** The state after [Render]'s test of the camera. *)
Definition with_camera (free_camera : PerspectiveCamera)
  (s : MultiStaticCameraGLState) : MultiStaticCameraGLState :=
  if PerspectiveCamera_neq free_camera (free_camera_ s)
  then set_tsdf_is_dirty true (set_free_camera free_camera s)
  else s.

(** The state after the raycast of a dirty view. *)
Definition with_view (FLAGS_adaptive_raycast : bool) (s : MultiStaticCameraGLState) :
  MultiStaticCameraGLState :=
  if tsdf_is_dirty_ s then update_free_camera_view FLAGS_adaptive_raycast s else s.

End GLState.


(** * A test double for the collaborators

    Scalars are integers, device and host arrays are a size with a list of
    elements, and the volume records the calls it receives. Used to run the
    pipeline on concrete inputs. *)

Module Double.

Local Open Scope Z_scope.

Record array (T : Type) : Type := { array_size : Vector2i; array_data : list T }.

Arguments array_size {T} _.
Arguments array_data {T} _.

Definition array_new (T : Type) (size : Vector2i) : array T :=
  {| array_size := size; array_data := [] |}.

Definition Vector2i_eqb (a b : Vector2i) : bool :=
  (Vector2i_x a =? Vector2i_x b)%Z && (Vector2i_y a =? Vector2i_y b)%Z.

(** A copy between arrays of different sizes is refused. *)
Definition array_copy (T : Type) (src dst : array T) : array T :=
  if Vector2i_eqb (array_size src) (array_size dst)
  then {| array_size := array_size dst; array_data := array_data src |}
  else dst.

Definition array_cast_float2 (a : array (@Vector2f Z)) : array (@float2 Z) :=
  {| array_size := array_size a; array_data := map make_float2 (array_data a) |}.

(** A 4x4 matrix by rows. *)
Record Matrix : Type :=
  { row0 : @Vector4f Z; row1 : @Vector4f Z; row2 : @Vector4f Z; row3 : @Vector4f Z }.

Definition identity : Matrix :=
  {| row0 := {| Vector4f_x := 1; Vector4f_y := 0; Vector4f_z := 0; Vector4f_w := 0 |};
     row1 := {| Vector4f_x := 0; Vector4f_y := 1; Vector4f_z := 0; Vector4f_w := 0 |};
     row2 := {| Vector4f_x := 0; Vector4f_y := 0; Vector4f_z := 1; Vector4f_w := 0 |};
     row3 := {| Vector4f_x := 0; Vector4f_y := 0; Vector4f_z := 0; Vector4f_w := 1 |} |}.

(** A row times the homogeneous vector [(v, w)]. *)
Definition dot (r : @Vector4f Z) (v : @Vector3f Z) (w : Z) : Z :=
  (Vector4f_x r * Vector3f_x v + Vector4f_y r * Vector3f_y v +
   Vector4f_z r * Vector3f_z v + Vector4f_w r * w)%Z.

(** The double's point transform: the matrix times [(v, 1)], translation
    included. *)
Definition transformPoint (m : Matrix) (v : @Vector3f Z) : @Vector3f Z :=
  {| Vector3f_x := dot (row0 m) v 1; Vector3f_y := dot (row1 m) v 1;
     Vector3f_z := dot (row2 m) v 1 |}.

(** The double's normal transform: the matrix times [(n, 0)], the linear
    part only. *)
Definition transformNormal (m : Matrix) (n : @Vector3f Z) : @Vector3f Z :=
  {| Vector3f_x := dot (row0 m) n 0; Vector3f_y := dot (row1 m) n 0;
     Vector3f_z := dot (row2 m) n 0 |}.

(** A viewpoint: a focal factor per output pixel and a pose. *)
Record Camera : Type := { camera_focal : Z; camera_pose : Matrix }.

(** The intrinsics of a viewpoint for a screen of the given size. *)
Definition camera_intrinsics (c : Camera) (screen : @Vector2f Z) : @Intrinsics Z :=
  {| focalLength :=
       {| Vector2f_x := (camera_focal c * Vector2f_x screen)%Z;
          Vector2f_y := (camera_focal c * Vector2f_y screen)%Z |};
     principalPoint :=
       {| Vector2f_x := (Vector2f_x screen / 2)%Z; Vector2f_y := (Vector2f_y screen / 2)%Z |} |}.

#[global] Instance libcgt : @Libcgt Z := {|
  Range1f := Z * Z;
  Matrix4f := Matrix;
  float4x4 := Matrix;
  EuclideanTransform := Matrix;
  SimilarityTransform := Matrix;
  PerspectiveCamera := Camera;
  Array2D := array;
  DeviceArray2D := array;
  float_of_int := fun z => z;
  Range1f_leftRight := fun r => {| Vector2f_x := r.1; Vector2f_y := r.2 |};
  EuclideanTransform_asMatrix := fun m => m;
  make_float4x4 := fun m => m;
  Matrix4f_identity := identity;
  Matrix4f_transformPoint := transformPoint;
  Matrix4f_transformNormal := transformNormal;
  PerspectiveCamera_intrinsics := camera_intrinsics;
  PerspectiveCamera_worldFromCamera := camera_pose;
  DeviceArray2D_size := @array_size;
  DeviceArray2D_new := array_new;
  copy := array_copy;
  cast_float2 := array_cast_float2
|}.

Record Input : Type := { input_color_resolution : Vector2i; input_depth : array Z }.

(** A depth outside the processor's range is invalid: it becomes 0. *)
Definition clamp_depth (d : @DepthProcessor Z libcgt) (z : Z) : Z :=
  if ((processor_depth_range d).1 <=? z)%Z && (z <=? (processor_depth_range d).2)%Z
  then z else 0%Z.

Definition undistort (d : @DepthProcessor Z libcgt) (raw : array Z)
  (map : array (@float2 Z)) (out : array Z) : array Z :=
  {| array_size := array_size out; array_data := List.map (clamp_depth d) (array_data raw) |}.

(** The calls a volume can receive. *)
Inductive GridCall : Type :=
| FuseCall (a : @FuseArguments Z libcgt)
| FuseMultipleCall (c : list (@CalibratedPosedDepthCamera Z libcgt))
    (depth_maps : list (array Z))
| RaycastCall (flpp : @Vector4f Z) (world_from_camera : Matrix)
| AdaptiveRaycastCall (flpp : @Vector4f Z) (world_from_camera : Matrix).

(** The volume: the calls received since the last reset, oldest first, and
    the surface it holds. *)
Record Grid : Type := { grid_calls : list GridCall; grid_surface : @TriangleMesh Z }.

Definition empty_mesh : @TriangleMesh Z :=
  {| positions := []; normals := []; faces := [] |}.

Definition grid_record (c : GridCall) (g : Grid) : Grid :=
  {| grid_calls := grid_calls g ++ [c]; grid_surface := grid_surface g |}.

Definition zero4 : @float4 Z :=
  {| float4_x := 0; float4_y := 0; float4_z := 0; float4_w := 0 |}.

Definition zero_matrix : Matrix :=
  {| row0 := {| Vector4f_x := 0; Vector4f_y := 0; Vector4f_z := 0; Vector4f_w := 0 |};
     row1 := {| Vector4f_x := 0; Vector4f_y := 0; Vector4f_z := 0; Vector4f_w := 0 |};
     row2 := {| Vector4f_x := 0; Vector4f_y := 0; Vector4f_z := 0; Vector4f_w := 0 |};
     row3 := {| Vector4f_x := 0; Vector4f_y := 0; Vector4f_z := 0; Vector4f_w := 0 |} |}.

#[global] Instance collaborators : @Collaborators Z libcgt := {|
  InputBuffer := Input;
  InputBuffer_new := fun color_size depth_size =>
    {| input_color_resolution := color_size; input_depth := array_new Z depth_size |};
  depth_meters := input_depth;
  DepthProcessor_Undistort := undistort;
  RegularGridTSDF := Grid;
  RegularGridTSDF_new := fun _ _ _ => {| grid_calls := []; grid_surface := empty_mesh |};
  RegularGridTSDF_Reset := fun _ => {| grid_calls := []; grid_surface := empty_mesh |};
  RegularGridTSDF_Fuse := fun flpp range pose depth_map =>
    grid_record
      (FuseCall {| fuse_flpp := flpp; fuse_depth_range := range;
                   fuse_camera_from_world := pose; fuse_depth := depth_map |});
  RegularGridTSDF_FuseMultiple := fun c depth_maps =>
    grid_record (FuseMultipleCall c depth_maps);
  RegularGridTSDF_Raycast := fun flpp pose points normals g =>
    (grid_record (RaycastCall flpp pose) g, points, normals);
  RegularGridTSDF_AdaptiveRaycast := fun flpp pose points normals g =>
    (grid_record (AdaptiveRaycastCall flpp pose) g, points, normals);
  RegularGridTSDF_Triangulate := grid_surface;
  CalibratedPosedDepthCamera_default :=
    {| flpp := zero4;
       depth_min_max := {| float2_x := 0%Z; float2_y := 0%Z |};
       camera_from_world := zero_matrix |}
|}.

End Double.

(** * Concrete pipelines over the test double *)

Module Examples.

Import Double.

Local Open Scope Z_scope.

Definition vec2 (x y : Z) : @Vector2f Z := {| Vector2f_x := x; Vector2f_y := y |}.

(** A calibration: resolution [w] x [h], valid depths [lo .. hi], focal
    length [f]. *)
Definition calibration (w h lo hi f : Z) : @RGBDCameraParameters Z libcgt :=
  {| color := {| color_resolution := {| Vector2i_x := w; Vector2i_y := h |} |};
     depth :=
       {| intrinsics := {| focalLength := vec2 f f; principalPoint := vec2 (w / 2) (h / 2) |};
          depth_range := (lo, hi);
          resolution := {| Vector2i_x := w; Vector2i_y := h |};
          undistortion_map :=
            {| array_size := {| Vector2i_x := w; Vector2i_y := h |};
               array_data := [vec2 0 0; vec2 1 0] |} |} |}.

(** Two depth cameras of 2 x 1 pixels; the second sees twice as far. *)
Definition camera0 : @RGBDCameraParameters Z libcgt := calibration 2 1 1 5 500.
Definition camera1 : @RGBDCameraParameters Z libcgt := calibration 2 1 1 10 600.

(** A calibration with a resolution that is not positive. *)
Definition camera_without_pixels : @RGBDCameraParameters Z libcgt :=
  calibration 0 (-1) 1 5 500.

(** The pose that translates by [(tx, 0, 0)]. *)
Definition shifted (tx : Z) : Matrix :=
  {| row0 := {| Vector4f_x := 1; Vector4f_y := 0; Vector4f_z := 0; Vector4f_w := tx |};
     row1 := row1 identity; row2 := row2 identity; row3 := row3 identity |}.

Definition grid_size : Vector3i := {| Vector3i_x := 4; Vector3i_y := 4; Vector3i_z := 4 |}.

Definition construct (camera_params : list (@RGBDCameraParameters Z libcgt))
  (poses : list Matrix) : outcome (@MultiStaticCameraPipeline Z libcgt collaborators) :=
  MultiStaticCameraPipeline_new camera_params poses grid_size identity 1.

(** The value a call returned, or [d] when it did not return. *)
Definition returned_or {A : Type} (d : A) (o : outcome A) : A :=
  match o with
  | Returns a => a
  | _ => d
  end.

Definition no_cameras : @MultiStaticCameraPipeline Z libcgt collaborators :=
  {| regular_grid_ := {| grid_calls := []; grid_surface := empty_mesh |};
     camera_params_ := [];
     depth_camera_poses_cfw_ := [];
     depth_processor_ :=
       {| processor_intrinsics := {| focalLength := vec2 0 0; principalPoint := vec2 0 0 |};
          processor_depth_range := (0, 0) |};
     input_buffers_ := [];
     depth_meters_ := [];
     depth_camera_undistort_maps_ := [];
     undistorted_depth_meters_ := [] |}.

Definition one_camera : @MultiStaticCameraPipeline Z libcgt collaborators :=
  returned_or no_cameras (construct [camera0] [identity]).

Definition two_cameras : @MultiStaticCameraPipeline Z libcgt collaborators :=
  returned_or no_cameras (construct [camera0; camera1] [identity; shifted 3]).

Definition four_cameras : @MultiStaticCameraPipeline Z libcgt collaborators :=
  returned_or no_cameras
    (construct [camera0; camera1; camera0; camera1]
       [identity; shifted 3; shifted 6; shifted 9]).

(** A frame of camera 1: depths 3 and 7, both within camera 1's range and
    the second beyond camera 0's. *)
Definition frame : @InputBuffer Z libcgt collaborators :=
  {| input_color_resolution := {| Vector2i_x := 2; Vector2i_y := 1 |};
     input_depth :=
       {| array_size := {| Vector2i_x := 2; Vector2i_y := 1 |}; array_data := [3; 7] |} |}.

(** [two_cameras] after the capture source has written [frame] for camera 1. *)
Definition two_cameras_with_frame : @MultiStaticCameraPipeline Z libcgt collaborators :=
  returned_or no_cameras (WriteInputBuffer 1 frame two_cameras).

(** A session: the frame arrives, camera 1 is notified, all cameras are
    fused, camera 0 is notified, the volume is reset. *)
Definition session : list (@Call Z libcgt collaborators) :=
  [CallWriteInputBuffer 1 frame; CallNotifyInputUpdated 1 true true; CallFuse;
   CallNotifyInputUpdated 0 false false; CallReset].

Definition two_cameras_after_session : @MultiStaticCameraPipeline Z libcgt collaborators :=
  returned_or no_cameras (calls session two_cameras).

(** A 2 x 1 depth image. *)
Definition depths (l : list Z) : array Z :=
  {| array_size := {| Vector2i_x := 2; Vector2i_y := 1 |}; array_data := l |}.

(** A volume holding one vertex with its normal. *)
Definition one_vertex : @TriangleMesh Z :=
  {| positions := [{| Vector3f_x := 1; Vector3f_y := 2; Vector3f_z := 3 |}];
     normals := [{| Vector3f_x := 0; Vector3f_y := 0; Vector3f_z := 1 |}];
     faces := [] |}.

Definition two_cameras_with_surface : @MultiStaticCameraPipeline Z libcgt collaborators :=
  set_regular_grid {| grid_calls := []; grid_surface := one_vertex |} two_cameras.

(** A viewpoint and two 8 x 6 output buffers. *)
Definition viewpoint : Camera := {| camera_focal := 2; camera_pose := shifted 1 |}.

Definition output_buffer : array (@float4 Z) :=
  {| array_size := {| Vector2i_x := 8; Vector2i_y := 6 |}; array_data := [] |}.

End Examples.


(** * A test double for the viewer's collaborators

    Cameras, rectangles and matrices of the viewer over the integers, and
    a viewer of two cameras to run [Render] on. *)

Module DoubleViewer.

Import Double Examples.

Local Open Scope Z_scope.

Definition vec3 (x y z : Z) : @Vector3f Z :=
  {| Vector3f_x := x; Vector3f_y := y; Vector3f_z := z |}.

Definition vec4 (x y z w : Z) : @Vector4f Z :=
  {| Vector4f_x := x; Vector4f_y := y; Vector4f_z := z; Vector4f_w := w |}.

(** The camera with the given pose whose intrinsics, for a screen of the
    given size, have the given focal length. *)
Definition camera_new (pose : Matrix) (k : @Intrinsics Z) (size : @Vector2f Z)
  (z_near z_far : Z) : Camera :=
  {| camera_focal := Vector2f_x (focalLength k) / Vector2f_x size; camera_pose := pose |}.

#[global] Instance libcgt_cameras : @LibcgtCameras Z libcgt := {|
  Box3f := @Vector3f Z * @Vector3f Z;
  Range1f_left := fun r => r.1;
  Range1f_right := fun r => r.2;
  PerspectiveCamera_new := camera_new
|}.

(** The double's volume is the unit cube, grid and world the same. *)
#[global] Instance volume_geometry :
  @VolumeGeometry Z libcgt collaborators libcgt_cameras := {|
  RegularGridTSDF_BoundingBox := fun _ => (vec3 0 0 0, vec3 1 1 1);
  RegularGridTSDF_WorldFromGrid := fun _ => identity
|}.

(** A rectangle: origin and size. *)
Record Rect : Type := { rect_origin : Vector2i; rect_size : Vector2i }.

Definition rect_translate (r : Rect) (v : Vector2i) : Rect :=
  {| rect_origin :=
       {| Vector2i_x := Vector2i_x (rect_origin r) + Vector2i_x v;
          Vector2i_y := Vector2i_y (rect_origin r) + Vector2i_y v |};
     rect_size := rect_size r |}.

(** C++ integer division truncates toward zero. *)
Definition vector_quot (v : Vector2i) (k : Z) : Vector2i :=
  {| Vector2i_x := Z.quot (Vector2i_x v) k; Vector2i_y := Z.quot (Vector2i_y v) k |}.

Definition literal (m e : Z) : Z :=
  if 0 <=? e then m * 10 ^ e else m / 10 ^ (- e).

Definition Vector4f_eqb (a b : @Vector4f Z) : bool :=
  (Vector4f_x a =? Vector4f_x b) && (Vector4f_y a =? Vector4f_y b) &&
  (Vector4f_z a =? Vector4f_z b) && (Vector4f_w a =? Vector4f_w b).

Definition Matrix_eqb (a b : Matrix) : bool :=
  Vector4f_eqb (row0 a) (row0 b) && Vector4f_eqb (row1 a) (row1 b) &&
  Vector4f_eqb (row2 a) (row2 b) && Vector4f_eqb (row3 a) (row3 b).

Definition Camera_eqb (a b : Camera) : bool :=
  (camera_focal a =? camera_focal b) && Matrix_eqb (camera_pose a) (camera_pose b).

Definition transpose (m : Matrix) : Matrix :=
  {| row0 := vec4 (Vector4f_x (row0 m)) (Vector4f_x (row1 m)) (Vector4f_x (row2 m))
               (Vector4f_x (row3 m));
     row1 := vec4 (Vector4f_y (row0 m)) (Vector4f_y (row1 m)) (Vector4f_y (row2 m))
               (Vector4f_y (row3 m));
     row2 := vec4 (Vector4f_z (row0 m)) (Vector4f_z (row1 m)) (Vector4f_z (row2 m))
               (Vector4f_z (row3 m));
     row3 := vec4 (Vector4f_w (row0 m)) (Vector4f_w (row1 m)) (Vector4f_w (row2 m))
               (Vector4f_w (row3 m)) |}.

Definition dot4 (a b : @Vector4f Z) : Z :=
  Vector4f_x a * Vector4f_x b + Vector4f_y a * Vector4f_y b +
  Vector4f_z a * Vector4f_z b + Vector4f_w a * Vector4f_w b.

Definition row_times (r : @Vector4f Z) (columns : Matrix) : @Vector4f Z :=
  vec4 (dot4 r (row0 columns)) (dot4 r (row1 columns)) (dot4 r (row2 columns))
    (dot4 r (row3 columns)).

Definition matrix_mul (a b : Matrix) : Matrix :=
  {| row0 := row_times (row0 a) (transpose b); row1 := row_times (row1 a) (transpose b);
     row2 := row_times (row2 a) (transpose b); row3 := row_times (row3 a) (transpose b) |}.

Definition uniform_scaling (k : Z) : Matrix :=
  {| row0 := vec4 k 0 0 0; row1 := vec4 0 k 0 0; row2 := vec4 0 0 k 0;
     row3 := vec4 0 0 0 1 |}.

Definition translation (v : @Vector3f Z) : Matrix :=
  {| row0 := vec4 1 0 0 (Vector3f_x v); row1 := vec4 0 1 0 (Vector3f_y v);
     row2 := vec4 0 0 1 (Vector3f_z v); row3 := vec4 0 0 0 1 |}.

Definition set_row (i : Z) (v : @Vector4f Z) (m : Matrix) : Matrix :=
  if i =? 0 then {| row0 := v; row1 := row1 m; row2 := row2 m; row3 := row3 m |}
  else if i =? 1 then {| row0 := row0 m; row1 := v; row2 := row2 m; row3 := row3 m |}
  else if i =? 2 then {| row0 := row0 m; row1 := row1 m; row2 := v; row3 := row3 m |}
  else if i =? 3 then {| row0 := row0 m; row1 := row1 m; row2 := row2 m; row3 := v |}
  else m.

(** The scale and offset that take [[a, b]] onto [[c, d]]. *)
Definition rescale (a b c d : Z) : Z * Z :=
  let scale := (d - c) / (b - a) in (scale, c - a * scale).

#[global] Instance libcgt_gl : @LibcgtGL Z libcgt := {|
  Rect2i := Rect;
  Rect2i_new := fun origin size => {| rect_origin := origin; rect_size := size |};
  translate := rect_translate;
  Vector2i_div := vector_quot;
  float_literal := literal;
  PerspectiveCamera_neq := fun a b => negb (Camera_eqb a b);
  PerspectiveCamera_viewProjectionMatrix := fun c =>
    matrix_mul (uniform_scaling (camera_focal c)) (camera_pose c);
  Range1f_minimum := fun r => Z.min r.1 r.2;
  Range1f_maximum := fun r => Z.max r.1 r.2;
  Matrix4f_uniformScaling := uniform_scaling;
  Matrix4f_translation := translation;
  Matrix4f_mul := matrix_mul;
  Matrix4f_setRow := set_row;
  rescaleRangeToScaleOffset := rescale;
  DeviceArray2D_resize := fun T size a => {| array_size := size; array_data := [] |}
|}.

(** Three cameras, each with a pose. *)
Definition three_cameras : @MultiStaticCameraPipeline Z libcgt collaborators :=
  returned_or no_cameras
    (construct [camera0; camera1; camera0] [identity; shifted 3; shifted 6]).

(** Two calibrations, one pose. *)
Definition two_cameras_one_pose : @MultiStaticCameraPipeline Z libcgt collaborators :=
  returned_or no_cameras (construct [camera0; camera1] [identity]).

(** [two_cameras] after camera 1's frame was written, notified and fused. *)
Definition fused : list (@Call Z libcgt collaborators) :=
  [CallWriteInputBuffer 1 frame; CallNotifyInputUpdated 1 true true; CallFuse].

Definition two_cameras_fused : @MultiStaticCameraPipeline Z libcgt collaborators :=
  returned_or no_cameras (calls fused two_cameras).

(** The input side of a session. *)
Definition input_session : list (@Call Z libcgt collaborators) :=
  [CallWriteInputBuffer 1 frame; CallNotifyInputUpdated 1 true true;
   CallNotifyInputUpdated 0 false true].

Definition window : Vector2i := {| Vector2i_x := 8; Vector2i_y := 6 |}.

Definition depth_texture : @Texture Z libcgt :=
  Texture_new {| Vector2i_x := 2; Vector2i_y := 1 |} R32F.

(** A viewer of [two_cameras_fused] in an 8 x 6 window, looking from
    [viewpoint], before its first [Render]. *)
Definition viewer :
  @MultiStaticCameraGLState Z libcgt collaborators libcgt_gl :=
  {| pipeline_ := two_cameras_fused;
     depth_camera_frusta_ := [{| frustum_camera := None |}; {| frustum_camera := None |}];
     free_camera_world_positions_tex_ := Texture_new window RGBA32F;
     free_camera_world_normals_tex_ := Texture_new window RGBA32F;
     raw_depth_textures_ := [depth_texture; depth_texture];
     undistorted_depth_textures_ := [depth_texture; depth_texture];
     window_size_ := window;
     free_camera_world_positions_ := output_buffer;
     free_camera_world_normals_ := output_buffer;
     free_camera_ := viewpoint;
     tsdf_is_dirty_ := true;
     gl_viewport :=
       {| rect_origin := {| Vector2i_x := 0; Vector2i_y := 0 |}; rect_size := window |};
     gl_calls := [] |}.

(** The viewer after one [Render] from [viewpoint]. *)
Definition viewer_rendered :
  @MultiStaticCameraGLState Z libcgt collaborators libcgt_gl :=
  returned_or viewer (Render false viewpoint viewer).

(** The viewer after a second [Render] from the same viewpoint. *)
Definition viewer_rendered_again :
  @MultiStaticCameraGLState Z libcgt collaborators libcgt_gl :=
  returned_or viewer (Render false viewpoint viewer_rendered).

(** The rendered viewer after the window shrinks to 4 x 3 and [Render]
    runs once more. *)
Definition small_window : Vector2i := {| Vector2i_x := 4; Vector2i_y := 3 |}.

Definition viewer_resized :
  @MultiStaticCameraGLState Z libcgt collaborators libcgt_gl :=
  returned_or viewer (Render false viewpoint (Resize small_window viewer_rendered)).

End DoubleViewer.



(** * Properties of the pipeline *)

Section Properties.

Context {float : Type} {L : @Libcgt float} {C : @Collaborators float L}.

(** ** Unchecked indexing *)

Lemma vector_at_lookup {A : Type} (v : list A) (i : nat) (a : A) :
  v !! i = Some a -> vector_at v i = Returns a.
Proof. intros H. unfold vector_at. now rewrite H. Qed.

Lemma vector_at_Returns {A : Type} (v : list A) (i : nat) (a : A) :
  vector_at v i = Returns a -> v !! i = Some a.
Proof. unfold vector_at. destruct (v !! i); congruence. Qed.

Lemma vector_at_past_end {A : Type} (v : list A) (i : nat) :
  length v <= i -> vector_at v i = Undefined.
Proof. intros H. unfold vector_at. now rewrite (lookup_ge_None_2 v i H). Qed.

Lemma vector_at_not_Throws {A : Type} (v : list A) (i : nat) (e : Exception) :
  vector_at v i <> Throws e.
Proof. unfold vector_at. destruct (v !! i); congruence. Qed.

Lemma vector_at_int_lookup {A : Type} (v : list A) (i : Z) (a : A) :
  (0 <= i)%Z -> v !! Z.to_nat i = Some a -> vector_at_int v i = Returns a.
Proof.
  intros Hi H. unfold vector_at_int.
  destruct (Z.ltb_spec i 0); [lia | now apply vector_at_lookup].
Qed.

Lemma vector_at_int_Returns {A : Type} (v : list A) (i : Z) (a : A) :
  vector_at_int v i = Returns a -> (0 <= i)%Z /\ v !! Z.to_nat i = Some a.
Proof.
  unfold vector_at_int. destruct (Z.ltb_spec i 0) as [Hneg | Hpos]; [discriminate |].
  intros Hr. split; [assumption | now apply vector_at_Returns].
Qed.

Lemma vector_at_int_outside {A : Type} (v : list A) (i : Z) :
  ~ (0 <= i < Z.of_nat (length v))%Z -> vector_at_int v i = Undefined.
Proof.
  intros H. unfold vector_at_int. destruct (Z.ltb_spec i 0); [reflexivity |].
  apply vector_at_past_end. lia.
Qed.

Lemma vector_at_int_not_Throws {A : Type} (v : list A) (i : Z) (e : Exception) :
  vector_at_int v i <> Throws e.
Proof.
  unfold vector_at_int. destruct (i <? 0)%Z; [congruence | apply vector_at_not_Throws].
Qed.

Lemma vector_set_in_range {A : Type} (v : list A) (i : nat) (a : A) :
  i < length v -> vector_set v i a = Returns (<[i:=a]> v).
Proof. intros H. unfold vector_set. now destruct (decide (i < length v)). Qed.

Lemma vector_set_past_end {A : Type} (v : list A) (i : nat) (a : A) :
  length v <= i -> vector_set v i a = Undefined.
Proof. intros H. unfold vector_set. destruct (decide (i < length v)); [lia | reflexivity]. Qed.

Lemma vector_set_Returns {A : Type} (v v' : list A) (i : nat) (a : A) :
  vector_set v i a = Returns v' -> i < length v /\ v' = <[i:=a]> v.
Proof.
  unfold vector_set. destruct (decide (i < length v)); [| discriminate].
  intros [= <-]. now split.
Qed.

(** A bind that returns: both of its halves return. *)
Lemma bind_Returns {A B : Type} (m : outcome A) (f : A -> outcome B) (b : B) :
  m ≫= f = Returns b -> exists a : A, m = Returns a /\ f a = Returns b.
Proof. destruct m as [a | e |]; simpl; [eauto | discriminate | discriminate]. Qed.

Lemma bind_not_Throws {A B : Type} (m : outcome A) (f : A -> outcome B) :
  (forall e, m <> Throws e) -> (forall a e, f a <> Throws e) ->
  forall e, m ≫= f <> Throws e.
Proof.
  intros Hm Hf e. destruct m as [a | e' |]; simpl;
    [apply Hf | intros _; now apply (Hm e') | discriminate].
Qed.

(** Splits a hypothesis [H : (x ← m; k) = Returns b] into its steps. *)
Ltac returns_inv H :=
  repeat match type of H with
    | (_ ≫= _) = Returns _ =>
        let a := fresh "a" in
        let Ha := fresh "Ha" in
        apply bind_Returns in H; destruct H as (a & Ha & H)
    | mret _ = Returns _ => injection H as H
    end.

(** ** NotifyInputUpdated *)

Lemma NotifyInputUpdated_lookup (p : MultiStaticCameraPipeline) (i : Z)
  (color_updated depth_updated : bool) (input : InputBuffer)
  (raw : DeviceArray2D float) (map : DeviceArray2D float2) (out : DeviceArray2D float) :
  (0 <= i)%Z ->
  input_buffers_ p !! Z.to_nat i = Some input ->
  depth_meters_ p !! Z.to_nat i = Some raw ->
  depth_camera_undistort_maps_ p !! Z.to_nat i = Some map ->
  undistorted_depth_meters_ p !! Z.to_nat i = Some out ->
  NotifyInputUpdated i color_updated depth_updated p
  = Returns (notified (Z.to_nat i) input raw map out p).
Proof.
  intros Hi Hin Hraw Hmap Hout. unfold NotifyInputUpdated.
  rewrite (vector_at_int_lookup _ _ _ Hi Hin). simpl.
  rewrite (vector_at_int_lookup _ _ _ Hi Hraw). simpl.
  assert (Hraw' : <[Z.to_nat i := copy (depth_meters input) raw]> (depth_meters_ p)
                    !! Z.to_nat i = Some (copy (depth_meters input) raw)).
  { apply list_lookup_insert_eq. now apply lookup_lt_Some in Hraw. }
  rewrite (vector_at_int_lookup _ _ _ Hi Hraw'). simpl.
  rewrite (vector_at_int_lookup _ _ _ Hi Hmap). simpl.
  rewrite (vector_at_int_lookup _ _ _ Hi Hout). reflexivity.
Qed.

Lemma NotifyInputUpdated_Returns (p p' : MultiStaticCameraPipeline) (i : Z)
  (color_updated depth_updated : bool) :
  NotifyInputUpdated i color_updated depth_updated p = Returns p' ->
  exists (input : InputBuffer) (raw : DeviceArray2D float) (map : DeviceArray2D float2)
    (out : DeviceArray2D float),
    (0 <= i)%Z /\
    input_buffers_ p !! Z.to_nat i = Some input /\
    depth_meters_ p !! Z.to_nat i = Some raw /\
    depth_camera_undistort_maps_ p !! Z.to_nat i = Some map /\
    undistorted_depth_meters_ p !! Z.to_nat i = Some out /\
    p' = notified (Z.to_nat i) input raw map out p.
Proof.
  intros H. unfold NotifyInputUpdated in H.
  apply bind_Returns in H. destruct H as (input & Hin & H).
  apply bind_Returns in H. destruct H as (raw & Hraw & H).
  apply bind_Returns in H. destruct H as (raw' & Hraw' & H).
  apply bind_Returns in H. destruct H as (map & Hmap & H).
  apply bind_Returns in H. destruct H as (out & Hout & H).
  apply vector_at_int_Returns in Hin, Hraw, Hraw', Hmap, Hout. simpl in *.
  destruct Hin as [Hi Hin], Hraw as [_ Hraw], Hraw' as [_ Hraw'],
    Hmap as [_ Hmap], Hout as [_ Hout].
  exists input, raw, map, out. repeat split; try assumption.
  rewrite list_lookup_insert_eq in Hraw' by now apply lookup_lt_Some in Hraw.
  injection Hraw' as <-. injection H as <-. reflexivity.
Qed.

(** A camera in range has its four buffers when every camera has. *)
Lemma buffers_of_camera (p : MultiStaticCameraPipeline) (i : Z) :
  buffers_per_camera p -> camera_index_in_range i p ->
  exists (input : InputBuffer) (raw : DeviceArray2D float) (map : DeviceArray2D float2)
    (out : DeviceArray2D float),
    input_buffers_ p !! Z.to_nat i = Some input /\
    depth_meters_ p !! Z.to_nat i = Some raw /\
    depth_camera_undistort_maps_ p !! Z.to_nat i = Some map /\
    undistorted_depth_meters_ p !! Z.to_nat i = Some out.
Proof.
  intros (H1 & H2 & H3 & H4) Hi. unfold camera_index_in_range in Hi.
  destruct (lookup_lt_is_Some_2 (input_buffers_ p) (Z.to_nat i)) as [input Hin]; [lia |].
  destruct (lookup_lt_is_Some_2 (depth_meters_ p) (Z.to_nat i)) as [raw Hraw]; [lia |].
  destruct (lookup_lt_is_Some_2 (depth_camera_undistort_maps_ p) (Z.to_nat i))
    as [map Hmap]; [lia |].
  destruct (lookup_lt_is_Some_2 (undistorted_depth_meters_ p) (Z.to_nat i))
    as [out Hout]; [lia |].
  now exists input, raw, map, out.
Qed.


(** ** What a call can change *)

Lemma set_regular_grid_twice (g g' : RegularGridTSDF) (p : MultiStaticCameraPipeline) :
  set_regular_grid g' (set_regular_grid g p) = set_regular_grid g' p.
Proof. reflexivity. Qed.

Lemma Fuse_arguments_set_regular_grid (i : nat) (g : RegularGridTSDF)
  (p : MultiStaticCameraPipeline) :
  Fuse_arguments i (set_regular_grid g p) = Fuse_arguments i p.
Proof. reflexivity. Qed.

(** [Fuse]'s loop changes the volume and nothing else. *)
Lemma Fuse_loop_only_volume (todo i : nat) (p p' : MultiStaticCameraPipeline) :
  Fuse_loop todo i p = Returns p' -> exists g, p' = set_regular_grid g p.
Proof.
  revert i p. induction todo as [| todo IH]; intros i p H; simpl in H.
  - injection H as <-. exists (regular_grid_ p). now destruct p.
  - apply bind_Returns in H. destruct H as (a & _ & H).
    apply IH in H. destruct H as [g ->]. now exists g.
Qed.

Lemma call_effect (c : Call) (p p' : MultiStaticCameraPipeline) :
  call c p = Returns p' -> effect p p'.
Proof.
  destruct c as [i frame | i cu du | | | | adaptive camera wp wn]; simpl; intros H.
  - unfold WriteInputBuffer in H. apply bind_Returns in H. destruct H as (_ & _ & H).
    injection H as <-. constructor.
  - apply NotifyInputUpdated_Returns in H.
    destruct H as (input & raw & map & out & _ & Hin & Hraw & Hmap & Hout & ->).
    now constructor.
  - injection H as <-. constructor.
  - apply Fuse_loop_only_volume in H. destruct H as [g ->]. constructor.
  - unfold FuseMultiple in H. apply bind_Returns in H. destruct H as (cs & _ & H).
    injection H as <-. constructor.
  - injection H as <-. unfold Raycast.
    destruct (if adaptive then _ else _) as [[g points] normals]. constructor.
Qed.

(** A property that every effect preserves holds after every sequence of
    calls. *)
Lemma calls_preserve (P : MultiStaticCameraPipeline -> Prop) :
  (forall p p', P p -> effect p p' -> P p') ->
  forall (cs : list Call) (p p' : MultiStaticCameraPipeline),
    P p -> calls cs p = Returns p' -> P p'.
Proof.
  intros HP cs. induction cs as [| c cs IH]; intros p p' Hp H; simpl in H.
  - now injection H as <-.
  - apply bind_Returns in H. destruct H as (p1 & Hc & H).
    apply (IH p1); [| assumption]. apply (HP p); [assumption |].
    now apply (call_effect c).
Qed.

Lemma effect_buffers_per_camera (p p' : MultiStaticCameraPipeline) :
  buffers_per_camera p -> effect p p' -> buffers_per_camera p'.
Proof.
  intros (H1 & H2 & H3 & H4) [g | n frame | n input raw map out _ _ _ _];
    unfold buffers_per_camera; simpl; rewrite ?length_insert; auto.
Qed.

Lemma effect_processor_of_first_camera (p p' : MultiStaticCameraPipeline) :
  processor_of_first_camera p -> effect p p' -> processor_of_first_camera p'.
Proof. intros H [g | n frame | n input raw map out _ _ _ _]; exact H. Qed.

Lemma effect_camera_params (p p' : MultiStaticCameraPipeline) :
  effect p p' -> camera_params_ p' = camera_params_ p.
Proof. now intros [g | n frame | n input raw map out _ _ _ _]. Qed.


(** ** The constructor *)

Lemma same_initialisers_trans (p p' p'' : MultiStaticCameraPipeline) :
  same_initialisers p p' -> same_initialisers p' p'' -> same_initialisers p p''.
Proof.
  intros (H1 & H2 & H3 & H4) (H1' & H2' & H3' & H4').
  repeat split; congruence.
Qed.

Section Constructor.

Variable R : RGBDCameraParameters -> DeviceArray2D float -> Prop.

Hypothesis R_new :
  forall cp : RGBDCameraParameters, R cp (DeviceArray2D_new float (resolution (depth cp))).

Lemma construct_camera_Returns (camera_params : list RGBDCameraParameters)
  (i : nat) (p : MultiStaticCameraPipeline) :
  i < length camera_params -> constructed_up_to R camera_params i p ->
  exists p', construct_camera camera_params i p = Returns p' /\
    same_initialisers p p' /\ constructed_up_to R camera_params (S i) p'.
Proof using R_new.
  intros Hi (Hin & Hmaps & Hraw & Hund).
  destruct (lookup_lt_is_Some_2 camera_params i Hi) as [cp Hcp].
  assert (Hlen : length (depth_camera_undistort_maps_ p) = i).
  { rewrite Hmaps, length_fmap, length_take. lia. }
  unfold construct_camera. rewrite (vector_at_lookup _ _ _ Hcp). simpl.
  rewrite (vector_at_lookup _ i (DeviceArray2D_new float2 (resolution (depth cp))))
    by now apply list_lookup_middle.
  simpl. rewrite vector_set_in_range by (rewrite length_app; simpl; lia). simpl.
  eexists. split; [reflexivity |]. split; [now repeat split |].
  unfold constructed_up_to. simpl.
  rewrite length_app, Hin, (take_S_r _ _ _ Hcp), fmap_app. simpl.
  repeat split; try lia.
  - rewrite insert_app_r_alt by lia. rewrite Hlen, Nat.sub_diag. simpl.
    now rewrite Hmaps.
  - apply Forall2_app; [assumption |]. repeat constructor. apply R_new.
  - apply Forall2_app; [assumption |]. repeat constructor. apply R_new.
Qed.

Lemma construct_loop_Returns (camera_params : list RGBDCameraParameters)
  (todo i : nat) (p : MultiStaticCameraPipeline) :
  i + todo = length camera_params -> constructed_up_to R camera_params i p ->
  exists p', construct_loop camera_params todo i p = Returns p' /\
    same_initialisers p p' /\
    constructed_up_to R camera_params (length camera_params) p'.
Proof using R_new.
  revert i p. induction todo as [| todo IH]; intros i p Hlen Hp; simpl.
  - exists p. replace (length camera_params) with i by lia.
    split; [reflexivity | split; [now repeat split | assumption]].
  - destruct (construct_camera_Returns camera_params i p) as (p1 & -> & Hsame & Hp1);
      [lia | assumption |]. simpl.
    destruct (IH (S i) p1) as (p' & -> & Hsame' & Hp'); [lia | assumption |].
    exists p'. split; [reflexivity |]. split; [| assumption].
    now apply (same_initialisers_trans p p1 p').
Qed.

(** The constructor returns whenever there is a first calibration to read;
    the pose list and the resolutions play no part. *)
Lemma MultiStaticCameraPipeline_new_Returns
  (cp0 : RGBDCameraParameters) (camera_params : list RGBDCameraParameters)
  (depth_camera_poses_cfw : list EuclideanTransform)
  (grid_resolution : Vector3i) (world_from_grid : SimilarityTransform)
  (max_tsdf_value : float) :
  camera_params !! 0 = Some cp0 ->
  exists p,
    MultiStaticCameraPipeline_new camera_params depth_camera_poses_cfw
      grid_resolution world_from_grid max_tsdf_value = Returns p /\
    regular_grid_ p = RegularGridTSDF_new grid_resolution world_from_grid max_tsdf_value /\
    camera_params_ p = camera_params /\
    depth_camera_poses_cfw_ p = depth_camera_poses_cfw /\
    depth_processor_ p =
      {| processor_intrinsics := intrinsics (depth cp0);
         processor_depth_range := depth_range (depth cp0) |} /\
    constructed_up_to R camera_params (length camera_params) p.
Proof using R_new.
  intros H0. unfold MultiStaticCameraPipeline_new.
  rewrite (vector_at_lookup _ _ _ H0). simpl.
  match goal with
  | |- context [construct_loop _ _ _ ?p0] =>
      destruct (construct_loop_Returns camera_params (length camera_params) 0 p0)
        as (p & -> & (Hg & Hcp & Hposes & Hproc) & Hp)
  end.
  - reflexivity.
  - repeat split; simpl; constructor.
  - exists p. simpl in Hg, Hcp, Hposes, Hproc.
    split; [reflexivity |]. do 4 (split; [assumption |]). exact Hp.
Qed.

End Constructor.

Lemma constructed_buffers_per_camera
  (R : RGBDCameraParameters -> DeviceArray2D float -> Prop)
  (p : MultiStaticCameraPipeline) :
  constructed_up_to R (camera_params_ p) (length (camera_params_ p)) p ->
  buffers_per_camera p /\
  depth_camera_undistort_maps_ p = undistortion_map_of <$> camera_params_ p /\
  Forall2 R (camera_params_ p) (depth_meters_ p) /\
  Forall2 R (camera_params_ p) (undistorted_depth_meters_ p).
Proof.
  intros (Hin & Hmaps & Hraw & Hund). rewrite firstn_all in Hmaps, Hraw, Hund.
  repeat split; try assumption.
  - symmetry. apply (Forall2_length _ _ _ Hraw).
  - now rewrite Hmaps, length_fmap.
  - symmetry. apply (Forall2_length _ _ _ Hund).
Qed.

Lemma vector_set_not_Throws {A : Type} (v : list A) (i : nat) (a : A) (e : Exception) :
  vector_set v i a <> Throws e.
Proof. unfold vector_set. destruct (decide (i < length v)); congruence. Qed.

Lemma construct_loop_not_Throws (camera_params : list RGBDCameraParameters)
  (todo i : nat) (p : MultiStaticCameraPipeline) (e : Exception) :
  construct_loop camera_params todo i p <> Throws e.
Proof.
  revert i p e. induction todo as [| todo IH]; intros i p; simpl; [discriminate |].
  apply bind_not_Throws; [| intros p' e; apply IH].
  unfold construct_camera.
  apply bind_not_Throws; [intros e; apply vector_at_not_Throws | intros cp].
  apply bind_not_Throws; [intros e; apply vector_at_not_Throws | intros m].
  apply bind_not_Throws; [intros e; apply vector_set_not_Throws | discriminate].
Qed.

(** C3 (amended): the constructor validates nothing. It signals no
    construction error for any arguments, and whenever the calibration list
    is non-empty it returns a fully built pipeline, holding the calibrations
    and the poses as given and one set of buffers per calibration, whether or
    not the pose list has the same length and whatever the resolutions are. *)
Theorem construction_validates_nothing
  (camera_params : list RGBDCameraParameters)
  (depth_camera_poses_cfw : list EuclideanTransform)
  (grid_resolution : Vector3i) (world_from_grid : SimilarityTransform)
  (max_tsdf_value : float) :
  (forall e : Exception,
     MultiStaticCameraPipeline_new camera_params depth_camera_poses_cfw
       grid_resolution world_from_grid max_tsdf_value <> Throws e) /\
  (camera_params <> [] ->
   exists p : MultiStaticCameraPipeline,
     MultiStaticCameraPipeline_new camera_params depth_camera_poses_cfw
       grid_resolution world_from_grid max_tsdf_value = Returns p /\
     camera_params_ p = camera_params /\
     depth_camera_poses_cfw_ p = depth_camera_poses_cfw /\
     buffers_per_camera p).
Proof.
  split.
  - unfold MultiStaticCameraPipeline_new.
    apply bind_not_Throws; [intros e; apply vector_at_not_Throws |].
    intros cp0 e. apply construct_loop_not_Throws.
  - intros Hne. destruct camera_params as [| cp0 rest] eqn:E; [congruence |].
    rewrite <- E.
    destruct (MultiStaticCameraPipeline_new_Returns (fun _ _ => True) (fun _ => I)
                cp0 camera_params depth_camera_poses_cfw
                grid_resolution world_from_grid max_tsdf_value)
      as (p & Hp & _ & Hcp & Hposes & _ & Hup); [now rewrite E |].
    exists p. repeat (split; [assumption |]).
    rewrite <- Hcp in Hup. now apply constructed_buffers_per_camera in Hup.
Qed.

(** C8 (amended): [GetCameraParameters] indexes unchecked. For every index
    outside [[0, N)] the call is undefined behaviour: no defined fault is
    signalled, and no camera's parameters are returned in its place (the
    index is neither clamped nor wrapped). Inside the range it returns that
    camera's parameters. *)
Theorem GetCameraParameters_unchecked (p : MultiStaticCameraPipeline) (i : Z) :
  (~ camera_index_in_range i p -> GetCameraParameters i p = Undefined) /\
  (camera_index_in_range i p ->
   exists cp, camera_params_ p !! Z.to_nat i = Some cp /\
              GetCameraParameters i p = Returns cp) /\
  (forall e : Exception, GetCameraParameters i p <> Throws e).
Proof.
  unfold GetCameraParameters, camera_index_in_range. repeat split.
  - apply vector_at_int_outside.
  - intros Hi.
    destruct (lookup_lt_is_Some_2 (camera_params_ p) (Z.to_nat i)) as [cp Hcp]; [lia |].
    exists cp. split; [assumption |]. apply vector_at_int_lookup; [lia | assumption].
  - intros e. apply vector_at_int_not_Throws.
Qed.


(** ** The resolution invariant *)

Lemma Forall2_overwrite {A B : Type} (R : A -> B -> Prop) (l : list A) (k : list B)
  (n : nat) (y y' : B) :
  Forall2 R l k -> k !! n = Some y -> (forall x, R x y -> R x y') ->
  Forall2 R l (<[n := y']> k).
Proof.
  intros HF Hy HR.
  destruct (Forall2_lookup_r _ _ _ _ _ HF Hy) as (x & Hx & Hxy).
  rewrite <- (list_insert_id l n x Hx). apply Forall2_insert; auto.
Qed.

Lemma effect_depth_buffers_sized `{!ArrayLaws} (p p' : MultiStaticCameraPipeline) :
  depth_buffers_sized p -> effect p p' -> depth_buffers_sized p'.
Proof.
  intros [Hraw Hund] [g | n frame | n input raw map out _ Hr _ Ho]; split; simpl;
    try assumption.
  - apply (Forall2_overwrite _ _ _ _ raw); [assumption | assumption |].
    unfold has_declared_resolution. intros cp <-. apply copy_size.
  - apply (Forall2_overwrite _ _ _ _ out); [assumption | assumption |].
    unfold has_declared_resolution. intros cp <-. apply Undistort_size.
Qed.

Lemma depth_buffers_sized_lookup (p : MultiStaticCameraPipeline) :
  depth_buffers_sized p -> buffers_have_declared_resolution p.
Proof.
  intros [Hraw Hund] i cp Hcp.
  destruct (Forall2_lookup_l _ _ _ _ _ Hraw Hcp) as (raw & Hr & Hsize).
  destruct (Forall2_lookup_l _ _ _ _ _ Hund Hcp) as (und & Hu & Hsize').
  now exists raw, und.
Qed.

(** C9: after construction and after every sequence of calls on the pipeline
    ([NotifyInputUpdated] on any camera, writes of the capture source into
    the input buffers, fusion, reset, raycasts), [rawDepth[i]] and
    [undistortedDepth[i]] have exactly the resolution that camera [i]'s
    calibration declares, for every camera [i]. *)
Theorem resolution_invariant {laws : ArrayLaws}
  (camera_params : list RGBDCameraParameters)
  (depth_camera_poses_cfw : list EuclideanTransform)
  (grid_resolution : Vector3i) (world_from_grid : SimilarityTransform)
  (max_tsdf_value : float) (p0 p : MultiStaticCameraPipeline) (cs : list Call) :
  MultiStaticCameraPipeline_new camera_params depth_camera_poses_cfw
    grid_resolution world_from_grid max_tsdf_value = Returns p0 ->
  calls cs p0 = Returns p ->
  camera_params_ p = camera_params /\ buffers_have_declared_resolution p.
Proof.
  intros Hnew Hcalls.
  assert (H0 : camera_params_ p0 = camera_params /\ depth_buffers_sized p0).
  { destruct (camera_params !! 0) as [cp0 |] eqn:E0.
    - destruct (MultiStaticCameraPipeline_new_Returns has_declared_resolution
                  (fun cp => DeviceArray2D_new_size float (resolution (depth cp)))
                  cp0 camera_params depth_camera_poses_cfw
                  grid_resolution world_from_grid max_tsdf_value E0)
        as (p1 & Hp1 & _ & Hcp & _ & _ & Hup).
      rewrite Hnew in Hp1. injection Hp1 as <-. split; [assumption |].
      rewrite <- Hcp in Hup. apply constructed_buffers_per_camera in Hup.
      now destruct Hup as (_ & _ & Hraw & Hund).
    - unfold MultiStaticCameraPipeline_new, vector_at in Hnew.
      rewrite E0 in Hnew. discriminate. }
  assert (H1 : camera_params_ p = camera_params /\ depth_buffers_sized p).
  { apply (calls_preserve
             (fun q => camera_params_ q = camera_params /\ depth_buffers_sized q))
      with (cs := cs) (p := p0); [| assumption | assumption].
    intros q q' [Hcp Hs] He. split.
    - now rewrite (effect_camera_params q q' He).
    - now apply (effect_depth_buffers_sized q q'). }
  destruct H1 as [Hcp Hs]. split; [assumption | now apply depth_buffers_sized_lookup].
Qed.


(** ** States reached from the constructor *)

Lemma effect_as_constructed (camera_params : list RGBDCameraParameters)
  (depth_camera_poses_cfw : list EuclideanTransform)
  (p p' : MultiStaticCameraPipeline) :
  as_constructed camera_params depth_camera_poses_cfw p -> effect p p' ->
  as_constructed camera_params depth_camera_poses_cfw p'.
Proof.
  intros (Hcp & Hposes & Hmaps & Hbuf & Hproc) He.
  pose proof (effect_buffers_per_camera p p' Hbuf He) as Hbuf'.
  pose proof (effect_processor_of_first_camera p p' Hproc He) as Hproc'.
  destruct He as [g | n frame | n input raw map out _ _ _ _];
    (split; [| split; [| split; [| split]]]); assumption.
Qed.

Lemma reached_as_constructed
  (camera_params : list RGBDCameraParameters)
  (depth_camera_poses_cfw : list EuclideanTransform)
  (grid_resolution : Vector3i) (world_from_grid : SimilarityTransform)
  (max_tsdf_value : float) (p0 p : MultiStaticCameraPipeline) (cs : list Call) :
  MultiStaticCameraPipeline_new camera_params depth_camera_poses_cfw
    grid_resolution world_from_grid max_tsdf_value = Returns p0 ->
  calls cs p0 = Returns p ->
  as_constructed camera_params depth_camera_poses_cfw p.
Proof.
  intros Hnew Hcalls.
  apply (calls_preserve (as_constructed camera_params depth_camera_poses_cfw))
    with (cs := cs) (p := p0); [apply effect_as_constructed | | assumption].
  destruct (camera_params !! 0) as [cp0 |] eqn:E0.
  - destruct (MultiStaticCameraPipeline_new_Returns (fun _ _ => True) (fun _ => I)
                cp0 camera_params depth_camera_poses_cfw
                grid_resolution world_from_grid max_tsdf_value E0)
      as (p1 & Hp1 & _ & Hcp & Hposes & Hproc & Hup).
    rewrite Hnew in Hp1. injection Hp1 as <-.
    rewrite <- Hcp in Hup. apply constructed_buffers_per_camera in Hup.
    destruct Hup as (Hbuf & Hmaps & _). rewrite Hcp in Hmaps.
    repeat (split; [assumption |]). exists cp0. now rewrite Hcp.
  - unfold MultiStaticCameraPipeline_new, vector_at in Hnew.
    rewrite E0 in Hnew. discriminate.
Qed.

(** What [NotifyInputUpdated] does in every state reached from the
    constructor, for every camera index [i] in [[0, N)]: it copies camera
    [i]'s externally supplied raw depth into [rawDepth[i]] and then undistorts
    it into [undistortedDepth[i]] with camera [i]'s own undistortion map and
    the pipeline's one depth processor, which the constructor built from
    camera 0's intrinsics and depth range. *)
Theorem NotifyInputUpdated_copies_then_undistorts
  (camera_params : list RGBDCameraParameters)
  (depth_camera_poses_cfw : list EuclideanTransform)
  (grid_resolution : Vector3i) (world_from_grid : SimilarityTransform)
  (max_tsdf_value : float) (p0 p : MultiStaticCameraPipeline) (cs : list Call)
  (i : Z) (color_updated depth_updated : bool) :
  MultiStaticCameraPipeline_new camera_params depth_camera_poses_cfw
    grid_resolution world_from_grid max_tsdf_value = Returns p0 ->
  calls cs p0 = Returns p ->
  camera_index_in_range i p ->
  exists (cp0 cp : RGBDCameraParameters) (input : InputBuffer)
    (raw out : DeviceArray2D float) (p' : MultiStaticCameraPipeline),
    camera_params !! 0 = Some cp0 /\
    camera_params !! Z.to_nat i = Some cp /\
    input_buffers_ p !! Z.to_nat i = Some input /\
    depth_meters_ p !! Z.to_nat i = Some raw /\
    undistorted_depth_meters_ p !! Z.to_nat i = Some out /\
    NotifyInputUpdated i color_updated depth_updated p = Returns p' /\
    depth_meters_ p' !! Z.to_nat i = Some (copy (depth_meters input) raw) /\
    undistorted_depth_meters_ p' !! Z.to_nat i =
      Some (DepthProcessor_Undistort
              {| processor_intrinsics := intrinsics (depth cp0);
                 processor_depth_range := depth_range (depth cp0) |}
              (copy (depth_meters input) raw) (undistortion_map_of cp) out).
Proof.
  intros Hnew Hcalls Hi.
  destruct (reached_as_constructed _ _ _ _ _ _ _ _ Hnew Hcalls)
    as (Hcp & _ & Hmaps & Hbuf & (cp0 & Hcp0 & Hproc)).
  destruct (buffers_of_camera p i Hbuf Hi) as (input & raw & map & out & Hin & Hraw & Hmap & Hout).
  unfold camera_index_in_range in Hi.
  destruct (lookup_lt_is_Some_2 (camera_params_ p) (Z.to_nat i)) as [cp Hcpi]; [lia |].
  rewrite Hcp in Hcp0, Hcpi.
  rewrite Hmaps, list_lookup_fmap, Hcpi in Hmap. injection Hmap as <-.
  assert (Hmap : depth_camera_undistort_maps_ p !! Z.to_nat i = Some (undistortion_map_of cp))
    by now rewrite Hmaps, list_lookup_fmap, Hcpi.
  exists cp0, cp, input, raw, out. eexists. repeat (split; [eassumption |]).
  split; [apply NotifyInputUpdated_lookup; [lia | eassumption ..] |].
  simpl. rewrite <- Hproc. split; apply list_lookup_insert_eq.
  - now apply lookup_lt_Some in Hraw.
  - now apply lookup_lt_Some in Hout.
Qed.

(** C10: [NotifyInputUpdated(i, colorChanged, depthChanged)] returns for every
    camera index [i] in [[0, N)], and whenever it returns it has overwritten
    camera [i]'s [rawDepth] and [undistortedDepth] and nothing else: the
    volume, every input buffer, the calibration, the poses, the maps, and
    every other camera's [rawDepth] and [undistortedDepth] are unchanged. The
    two flags are not consulted: the call has the same result for all of
    their values. *)
Theorem NotifyInputUpdated_frame (p : MultiStaticCameraPipeline) (i : Z)
  (color_updated depth_updated : bool) :
  (buffers_per_camera p -> camera_index_in_range i p ->
   exists p', NotifyInputUpdated i color_updated depth_updated p = Returns p') /\
  (forall color_updated' depth_updated' : bool,
     NotifyInputUpdated i color_updated' depth_updated' p
     = NotifyInputUpdated i color_updated depth_updated p) /\
  (forall p' : MultiStaticCameraPipeline,
     NotifyInputUpdated i color_updated depth_updated p = Returns p' ->
     regular_grid_ p' = regular_grid_ p /\
     input_buffers_ p' = input_buffers_ p /\
     camera_params_ p' = camera_params_ p /\
     depth_camera_poses_cfw_ p' = depth_camera_poses_cfw_ p /\
     depth_processor_ p' = depth_processor_ p /\
     depth_camera_undistort_maps_ p' = depth_camera_undistort_maps_ p /\
     (forall j : nat, j <> Z.to_nat i ->
        depth_meters_ p' !! j = depth_meters_ p !! j /\
        undistorted_depth_meters_ p' !! j = undistorted_depth_meters_ p !! j) /\
     exists (input : InputBuffer) (raw : DeviceArray2D float)
       (map : DeviceArray2D float2) (out : DeviceArray2D float),
       input_buffers_ p !! Z.to_nat i = Some input /\
       depth_meters_ p !! Z.to_nat i = Some raw /\
       depth_camera_undistort_maps_ p !! Z.to_nat i = Some map /\
       undistorted_depth_meters_ p !! Z.to_nat i = Some out /\
       depth_meters_ p' !! Z.to_nat i = Some (copy (depth_meters input) raw) /\
       undistorted_depth_meters_ p' !! Z.to_nat i =
         Some (DepthProcessor_Undistort (depth_processor_ p)
                 (copy (depth_meters input) raw) map out)).
Proof.
  split; [| split].
  - intros Hbuf Hi.
    destruct (buffers_of_camera p i Hbuf Hi) as (input & raw & map & out & Hin & Hraw & Hmap & Hout).
    eexists. apply NotifyInputUpdated_lookup; [apply Hi | eassumption ..].
  - reflexivity.
  - intros p' H. apply NotifyInputUpdated_Returns in H.
    destruct H as (input & raw & map & out & Hi & Hin & Hraw & Hmap & Hout & ->).
    simpl. do 6 (split; [reflexivity |]). split.
    + intros j Hj. split; apply list_lookup_insert_ne; congruence.
    + exists input, raw, map, out. do 4 (split; [assumption |]).
      split; apply list_lookup_insert_eq.
      * now apply lookup_lt_Some in Hraw.
      * now apply lookup_lt_Some in Hout.
Qed.


(** ** Fuse *)

Lemma Fuse_arguments_lookup (i : nat) (p : MultiStaticCameraPipeline)
  (cp : RGBDCameraParameters) (pose : EuclideanTransform)
  (undistorted : DeviceArray2D float) :
  camera_params_ p !! i = Some cp ->
  depth_camera_poses_cfw_ p !! i = Some pose ->
  undistorted_depth_meters_ p !! i = Some undistorted ->
  Fuse_arguments i p = Returns (fuse_arguments_of cp pose undistorted).
Proof.
  intros Hcp Hpose Hund. unfold Fuse_arguments.
  rewrite (vector_at_lookup _ _ _ Hcp). simpl.
  rewrite (vector_at_lookup _ _ _ Hpose). simpl.
  now rewrite (vector_at_lookup _ _ _ Hund).
Qed.

(** The calls that [todo] iterations of [Fuse]'s loop make, from camera [i]
    on: one per camera, in order. *)
Lemma Fuse_loop_calls (todo i : nat) (p : MultiStaticCameraPipeline) :
  i + todo <= length (camera_params_ p) ->
  i + todo <= length (depth_camera_poses_cfw_ p) ->
  i + todo <= length (undistorted_depth_meters_ p) ->
  exists args : list FuseArguments,
    Fuse_loop todo i p
    = Returns (set_regular_grid
                 (foldl (fun g a => RegularGridTSDF_Fuse_with a g) (regular_grid_ p) args) p) /\
    length args = todo /\
    forall k : nat, k < todo ->
      exists cp pose undistorted,
        camera_params_ p !! (i + k) = Some cp /\
        depth_camera_poses_cfw_ p !! (i + k) = Some pose /\
        undistorted_depth_meters_ p !! (i + k) = Some undistorted /\
        args !! k = Some (fuse_arguments_of cp pose undistorted).
Proof.
  revert i p. induction todo as [| todo IH]; intros i p H1 H2 H3.
  - exists []. simpl. split; [now destruct p |]. split; [reflexivity | lia].
  - destruct (lookup_lt_is_Some_2 (camera_params_ p) i) as [cp Hcp]; [lia |].
    destruct (lookup_lt_is_Some_2 (depth_camera_poses_cfw_ p) i) as [pose Hpose]; [lia |].
    destruct (lookup_lt_is_Some_2 (undistorted_depth_meters_ p) i) as [und Hund]; [lia |].
    simpl. rewrite (Fuse_arguments_lookup i p cp pose und Hcp Hpose Hund). simpl.
    set (a := fuse_arguments_of cp pose und).
    destruct (IH (S i) (set_regular_grid (RegularGridTSDF_Fuse_with a (regular_grid_ p)) p))
      as (args & Hloop & Hlen & Hargs); simpl; try lia.
    exists (a :: args). rewrite Hloop. simpl. split; [reflexivity |].
    split; [now rewrite Hlen |].
    intros [| k] Hk.
    + exists cp, pose, und. rewrite Nat.add_0_r. now repeat split.
    + destruct (Hargs k) as (cp' & pose' & und' & Hcp' & Hpose' & Hund' & Hk'); [lia |].
      simpl in Hcp', Hpose', Hund'.
      exists cp', pose', und'. replace (i + S k) with (S (i + k)) by lia.
      now repeat split.
Qed.

(** C5: on a pipeline in which every camera has its buffers and a pose,
    [Fuse] returns, and what it does to the pipeline is exactly one fusion
    call into the shared volume per camera, for camera 0 first and camera
    N-1 last; the call for camera [i] carries camera [i]'s focal length and
    principal point, its depth range, its camera-from-world pose as a matrix,
    and whatever [undistortedDepth[i]] holds at the time of the call. Nothing
    else decides whether a camera is fused, and nothing but the volume
    changes. *)
Theorem Fuse_one_call_per_camera (p : MultiStaticCameraPipeline) :
  buffers_per_camera p -> pose_per_camera p ->
  exists args : list FuseArguments,
    Fuse p
    = Returns (set_regular_grid
                 (foldl
                    (fun g a =>
                       RegularGridTSDF_Fuse (fuse_flpp a) (fuse_depth_range a)
                         (fuse_camera_from_world a) (fuse_depth a) g)
                    (regular_grid_ p) args) p) /\
    length args = length (camera_params_ p) /\
    forall i : nat, i < length (camera_params_ p) ->
      exists cp pose undistorted,
        camera_params_ p !! i = Some cp /\
        depth_camera_poses_cfw_ p !! i = Some pose /\
        undistorted_depth_meters_ p !! i = Some undistorted /\
        args !! i = Some (fuse_arguments_of cp pose undistorted).
Proof.
  intros (_ & Hraw & _ & Hund) Hposes. unfold pose_per_camera in Hposes.
  unfold Fuse. rewrite Hraw.
  destruct (Fuse_loop_calls (length (camera_params_ p)) 0 p) as (args & HF & Hlen & Hargs);
    simpl; try lia.
  unfold RegularGridTSDF_Fuse_with in HF.
  exists args. repeat split; try assumption.
Qed.


(** ** FuseMultiple *)

Lemma FuseMultiple_pack_lookup (i : nat) (p : MultiStaticCameraPipeline)
  (c : list CalibratedPosedDepthCamera) (cp : RGBDCameraParameters)
  (pose : EuclideanTransform) :
  camera_params_ p !! i = Some cp ->
  depth_camera_poses_cfw_ p !! i = Some pose ->
  i < length c ->
  FuseMultiple_pack i p c = Returns (<[i := packed_camera cp pose]> c).
Proof.
  intros Hcp Hpose Hi. destruct (lookup_lt_is_Some_2 c i Hi) as [ci Hci].
  unfold FuseMultiple_pack.
  rewrite (vector_at_lookup _ _ _ Hcp), (vector_at_lookup _ _ _ Hpose). simpl.
  rewrite (vector_at_lookup _ _ _ Hci). simpl.
  rewrite vector_set_in_range by assumption. simpl.
  erewrite vector_at_lookup by now apply list_lookup_insert_eq. simpl.
  rewrite vector_set_in_range by now rewrite length_insert. simpl.
  erewrite vector_at_lookup
    by (apply list_lookup_insert_eq; now rewrite length_insert). simpl.
  rewrite vector_set_in_range by now rewrite !length_insert.
  now rewrite !list_insert_insert_eq.
Qed.

(** A write to [c[i]] past the end of [c] is undefined. *)
Lemma FuseMultiple_pack_past_end (i : nat) (p : MultiStaticCameraPipeline)
  (c : list CalibratedPosedDepthCamera) :
  length c <= i -> FuseMultiple_pack i p c = Undefined.
Proof.
  intros Hi. unfold FuseMultiple_pack.
  destruct (vector_at (camera_params_ p) i) as [cp | e |] eqn:E; simpl.
  - rewrite (vector_at_past_end c i Hi). reflexivity.
  - exfalso. exact (vector_at_not_Throws _ _ _ E).
  - reflexivity.
Qed.

Lemma FuseMultiple_pack_Returns (i : nat) (p : MultiStaticCameraPipeline)
  (c c' : list CalibratedPosedDepthCamera) :
  FuseMultiple_pack i p c = Returns c' ->
  i < length c /\
  exists cp pose,
    camera_params_ p !! i = Some cp /\
    depth_camera_poses_cfw_ p !! i = Some pose /\
    c' = <[i := packed_camera cp pose]> c.
Proof.
  intros H.
  destruct (decide (i < length c)) as [Hi | Hi];
    [| rewrite FuseMultiple_pack_past_end in H by lia; discriminate].
  split; [assumption |].
  destruct (camera_params_ p !! i) as [cp |] eqn:Hcp;
    [| unfold FuseMultiple_pack, vector_at in H; rewrite Hcp in H; discriminate].
  destruct (depth_camera_poses_cfw_ p !! i) as [pose |] eqn:Hpose.
  - rewrite (FuseMultiple_pack_lookup i p c cp pose Hcp Hpose Hi) in H.
    injection H as <-. now exists cp, pose.
  - unfold FuseMultiple_pack in H. returns_inv H.
    match goal with
    | Hp : vector_at (depth_camera_poses_cfw_ p) i = Returns _ |- _ =>
        apply vector_at_Returns in Hp; congruence
    end.
Qed.

(** The loop keeps the length of [c] and the entries it does not write, and
    it returns only when every index it writes is within [c]. *)
Lemma FuseMultiple_loop_Returns (todo i : nat) (p : MultiStaticCameraPipeline)
  (c c' : list CalibratedPosedDepthCamera) :
  FuseMultiple_loop todo i p c = Returns c' ->
  length c' = length c /\
  (todo = 0 \/ i + todo <= length c) /\
  (forall j : nat, j < i \/ i + todo <= j -> c' !! j = c !! j) /\
  (forall j : nat, i <= j < i + todo ->
     exists cp pose,
       camera_params_ p !! j = Some cp /\
       depth_camera_poses_cfw_ p !! j = Some pose /\
       c' !! j = Some (packed_camera cp pose)).
Proof.
  revert i c. induction todo as [| todo IH]; intros i c H; simpl in H.
  - injection H as <-. repeat split; [now left | lia].
  - apply bind_Returns in H. destruct H as (c1 & Hpack & H).
    apply FuseMultiple_pack_Returns in Hpack.
    destruct Hpack as (Hi & cp & pose & Hcp & Hpose & ->).
    apply IH in H. rewrite length_insert in H.
    destruct H as (Hlen & Hle & Hkeep & Hwritten).
    split; [assumption |]. split; [right; lia |]. split.
    + intros j Hj. rewrite Hkeep by lia. apply list_lookup_insert_ne. lia.
    + intros j Hj. destruct (decide (j = i)) as [-> | Hne].
      * exists cp, pose. do 2 (split; [assumption |]).
        rewrite Hkeep by lia. now apply list_lookup_insert_eq.
      * apply Hwritten. lia.
Qed.

(** With more iterations than [c] has entries the loop is undefined
    behaviour, whatever the rest of the pipeline holds. *)
Lemma FuseMultiple_loop_past_end (todo i : nat) (p : MultiStaticCameraPipeline)
  (c : list CalibratedPosedDepthCamera) :
  0 < todo -> length c < i + todo -> FuseMultiple_loop todo i p c = Undefined.
Proof.
  intros Hpos Hlen.
  destruct (FuseMultiple_loop todo i p c) as [c' | e |] eqn:E; [| | reflexivity].
  - apply FuseMultiple_loop_Returns in E. lia.
  - exfalso. revert i c Hlen E. clear Hpos.
    induction todo as [| todo IH]; intros i c Hlen E; simpl in E; [discriminate |].
    destruct (FuseMultiple_pack i p c) as [c1 | e1 |] eqn:Hpack; simpl in E;
      [| | discriminate].
    + apply FuseMultiple_pack_Returns in Hpack.
      destruct Hpack as (Hi & cp & pose & _ & _ & ->).
      apply (IH (S i) (<[i:=packed_camera cp pose]> c)); [| assumption].
      rewrite length_insert. lia.
    + clear E. revert Hpack. unfold FuseMultiple_pack.
      repeat (apply bind_not_Throws;
              [intros ?; first [apply vector_at_not_Throws | apply vector_set_not_Throws]
              | intros ? ?]).
      apply vector_set_not_Throws.
Qed.

(** When [c] has room for every camera, each camera has calibration and pose,
    the loop returns. *)
Lemma FuseMultiple_loop_in_range (todo i : nat) (p : MultiStaticCameraPipeline)
  (c : list CalibratedPosedDepthCamera) :
  i + todo <= length c ->
  i + todo <= length (camera_params_ p) ->
  i + todo <= length (depth_camera_poses_cfw_ p) ->
  exists c', FuseMultiple_loop todo i p c = Returns c'.
Proof.
  revert i c. induction todo as [| todo IH]; intros i c H1 H2 H3; simpl.
  - now exists c.
  - destruct (lookup_lt_is_Some_2 (camera_params_ p) i) as [cp Hcp]; [lia |].
    destruct (lookup_lt_is_Some_2 (depth_camera_poses_cfw_ p) i) as [pose Hpose]; [lia |].
    rewrite (FuseMultiple_pack_lookup i p c cp pose Hcp Hpose) by lia. simpl.
    apply IH; rewrite ?length_insert; lia.
Qed.

(** C4: [FuseMultiple] packs the per-camera parameters into a list of exactly
    three entries, whatever the number of cameras: whenever the batched
    volume call is made it receives three entries, value-initialised in the
    slots from the number of cameras on. With more than three cameras the
    call is undefined behaviour: on a pipeline whose cameras all have buffers
    and poses the first three writes succeed and the write for camera 3
    indexes past the end of the list. With fewer than three cameras, each
    with buffers and a pose, the batched volume call is made, with the
    cameras' entries in front and value-initialised entries in the unused
    slots. *)
Theorem FuseMultiple_packs_three_entries (p : MultiStaticCameraPipeline) :
  (forall c, FuseMultiple_cameras p = Returns c ->
     length c = 3 /\
     FuseMultiple p
     = Returns (set_regular_grid
                  (RegularGridTSDF_FuseMultiple c (undistorted_depth_meters_ p)
                     (regular_grid_ p)) p) /\
     forall j, length (depth_meters_ p) <= j < 3 ->
       c !! j = Some CalibratedPosedDepthCamera_default) /\
  (3 < length (depth_meters_ p) ->
   FuseMultiple_cameras p = Undefined /\
   FuseMultiple p = Undefined /\
   (buffers_per_camera p -> pose_per_camera p ->
    exists c3,
      FuseMultiple_loop 3 0 p (replicate 3 CalibratedPosedDepthCamera_default)
      = Returns c3 /\
      length c3 = 3 /\
      FuseMultiple_pack 3 p c3 = Undefined)) /\
  (length (depth_meters_ p) < 3 -> buffers_per_camera p -> pose_per_camera p ->
   exists c,
     FuseMultiple_cameras p = Returns c /\
     length c = 3 /\
     (forall j, j < length (depth_meters_ p) ->
        exists cp pose,
          camera_params_ p !! j = Some cp /\
          depth_camera_poses_cfw_ p !! j = Some pose /\
          c !! j = Some (packed_camera cp pose)) /\
     (forall j, length (depth_meters_ p) <= j < 3 ->
        c !! j = Some CalibratedPosedDepthCamera_default) /\
     FuseMultiple p
     = Returns (set_regular_grid
                  (RegularGridTSDF_FuseMultiple c (undistorted_depth_meters_ p)
                     (regular_grid_ p)) p)).
Proof.
  split; [| split].
  - intros c H. unfold FuseMultiple. rewrite H.
    apply FuseMultiple_loop_Returns in H. destruct H as (Hlen & _ & Hkeep & _).
    rewrite length_replicate in Hlen. split; [assumption |]. split; [reflexivity |].
    intros j Hj. rewrite Hkeep by lia. apply lookup_replicate_2. lia.
  - intros Hmany.
    assert (HU : FuseMultiple_cameras p = Undefined).
    { apply FuseMultiple_loop_past_end; [lia |]. rewrite length_replicate. lia. }
    split; [assumption |]. split; [unfold FuseMultiple; now rewrite HU |].
    intros (_ & Hraw & _) Hposes. unfold pose_per_camera in Hposes.
    destruct (FuseMultiple_loop_in_range 3 0 p
                (replicate 3 CalibratedPosedDepthCamera_default)) as [c3 Hc3];
      rewrite ?length_replicate; simpl; try lia.
    exists c3. split; [assumption |].
    apply FuseMultiple_loop_Returns in Hc3. destruct Hc3 as (Hlen & _).
    rewrite length_replicate in Hlen. split; [assumption |].
    apply FuseMultiple_pack_past_end. lia.
  - intros Hfew (_ & Hraw & _) Hposes. unfold pose_per_camera in Hposes.
    destruct (FuseMultiple_loop_in_range (length (depth_meters_ p)) 0 p
                (replicate 3 CalibratedPosedDepthCamera_default)) as [c Hc];
      rewrite ?length_replicate; simpl; try lia.
    exists c. split; [assumption |].
    unfold FuseMultiple. fold (FuseMultiple_cameras p) in Hc. rewrite Hc.
    apply FuseMultiple_loop_Returns in Hc.
    destruct Hc as (Hlen & _ & Hkeep & Hwritten). rewrite length_replicate in Hlen.
    split; [assumption |]. split; [| split; [| reflexivity]].
    + intros j Hj. apply Hwritten. lia.
    + intros j Hj. rewrite Hkeep by lia. apply lookup_replicate_2. lia.
Qed.

(** C1: [FuseMultiple] does not leave the volume as [Fuse] does. On every
    pipeline with more than three cameras, each with its buffers and a pose,
    [Fuse] returns with every camera fused while [FuseMultiple] is undefined
    behaviour: its list of parameters has three entries. *)
Theorem FuseMultiple_differs_from_Fuse (p : MultiStaticCameraPipeline) :
  buffers_per_camera p -> pose_per_camera p -> 3 < length (camera_params_ p) ->
  (exists p', Fuse p = Returns p') /\
  FuseMultiple p = Undefined /\
  FuseMultiple p <> Fuse p.
Proof.
  intros (_ & Hraw & _ & Hund) Hposes Hmany. unfold pose_per_camera in Hposes.
  assert (HF : exists p', Fuse p = Returns p').
  { unfold Fuse.
    destruct (Fuse_loop_calls (length (depth_meters_ p)) 0 p) as (args & HF & _);
      simpl; try lia.
    eauto. }
  assert (HM : FuseMultiple p = Undefined).
  { unfold FuseMultiple, FuseMultiple_cameras.
    rewrite FuseMultiple_loop_past_end; [reflexivity | lia |].
    rewrite length_replicate. lia. }
  split; [assumption |]. split; [assumption |].
  destruct HF as [p' HF]. rewrite HM, HF. discriminate.
Qed.

(** ** Raycast *)

(** C6: for every viewpoint and every pair of output buffers, the intrinsics
    that [Raycast] passes to the volume are the viewpoint's intrinsics for a
    screen of the size of the [world_points] output buffer, packed as focal
    length and principal point; no calibrated sensor resolution takes part.
    The call goes to the volume's adaptive raycast exactly when the flag is
    set and to its fixed-step raycast otherwise, with the viewpoint's
    world-from-camera matrix and the two buffers. *)
Theorem Raycast_dispatch (FLAGS_adaptive_raycast : bool) (camera : PerspectiveCamera)
  (world_points world_normals : DeviceArray2D float4) (p : MultiStaticCameraPipeline) :
  let screen := Vector2f_of_Vector2i (DeviceArray2D_size world_points) in
  let flpp :=
    Vector4f_of (focalLength (PerspectiveCamera_intrinsics camera screen))
      (principalPoint (PerspectiveCamera_intrinsics camera screen)) in
  let world_from_camera :=
    EuclideanTransform_asMatrix (PerspectiveCamera_worldFromCamera camera) in
  (FLAGS_adaptive_raycast = true ->
   forall g points normals,
     RegularGridTSDF_AdaptiveRaycast flpp world_from_camera world_points world_normals
       (regular_grid_ p) = (g, points, normals) ->
     Raycast FLAGS_adaptive_raycast camera world_points world_normals p
     = (set_regular_grid g p, points, normals)) /\
  (FLAGS_adaptive_raycast = false ->
   forall g points normals,
     RegularGridTSDF_Raycast flpp world_from_camera world_points world_normals
       (regular_grid_ p) = (g, points, normals) ->
     Raycast FLAGS_adaptive_raycast camera world_points world_normals p
     = (set_regular_grid g p, points, normals)).
Proof.
  split; intros -> g points normals H; unfold Raycast, Raycast_flpp; now rewrite H.
Qed.

(** ** Triangulate *)

Lemma lookup_map {A B : Type} (f : A -> B) (l : list A) (k : nat) :
  map f l !! k = f <$> l !! k.
Proof. apply (list_lookup_fmap f l k). Qed.

Lemma map_fixed {A : Type} (f : A -> A) (l : list A) :
  (forall a, f a = a) -> map f l = l.
Proof.
  intros Hf. induction l as [| a l IH]; simpl; [reflexivity |]. now rewrite Hf, IH.
Qed.

(** C7: [Triangulate(T)] is the extracted mesh with every position mapped by
    [T]'s point transform and every normal by [T]'s normal transform, vertex
    by vertex: for every transform [T] and vertex index [k], position [k] is
    [T] applied as a point to position [k] of [Triangulate(identity)], normal
    [k] is [T]'s normal transform of normal [k] of [Triangulate(identity)],
    and positions, normals and faces are as many and in the same order as in
    the mesh the volume extracted, which [Triangulate(identity)] returns
    unchanged. *)
Theorem Triangulate_transforms_each_vertex {laws : TransformLaws}
  (output_from_world : Matrix4f) (p : MultiStaticCameraPipeline) :
  Triangulate Matrix4f_identity p = RegularGridTSDF_Triangulate (regular_grid_ p) /\
  (forall k : nat,
     positions (Triangulate output_from_world p) !! k
     = Matrix4f_transformPoint output_from_world
         <$> positions (Triangulate Matrix4f_identity p) !! k) /\
  (forall k : nat,
     normals (Triangulate output_from_world p) !! k
     = Matrix4f_transformNormal output_from_world
         <$> normals (Triangulate Matrix4f_identity p) !! k) /\
  length (positions (Triangulate output_from_world p))
  = length (positions (RegularGridTSDF_Triangulate (regular_grid_ p))) /\
  length (normals (Triangulate output_from_world p))
  = length (normals (RegularGridTSDF_Triangulate (regular_grid_ p))) /\
  faces (Triangulate output_from_world p)
  = faces (RegularGridTSDF_Triangulate (regular_grid_ p)).
Proof.
  assert (Hid : Triangulate Matrix4f_identity p
                = RegularGridTSDF_Triangulate (regular_grid_ p)).
  { unfold Triangulate. simpl.
    rewrite (map_fixed _ _ transformPoint_identity),
      (map_fixed _ _ transformNormal_identity).
    now destruct (RegularGridTSDF_Triangulate (regular_grid_ p)). }
  split; [assumption |]. rewrite Hid. unfold Triangulate. simpl.
  repeat split.
  - intros k. apply lookup_map.
  - intros k. apply lookup_map.
  - apply length_map.
  - apply length_map.
Qed.


End Properties.

(** * Further properties of the pipeline *)

Section MoreProperties.

Context {float : Type} {L : @Libcgt float} {C : @Collaborators float L}.
Context {LC : @LibcgtCameras float L} {VG : @VolumeGeometry float L C LC}.

(** ** What the constructor builds *)

Lemma construct_loop_closed_form (camera_params : list RGBDCameraParameters)
  (todo i : nat) (p : MultiStaticCameraPipeline) :
  i + todo <= length camera_params ->
  input_buffers_ p = input_buffer_of <$> take i camera_params ->
  depth_meters_ p = depth_buffer_of <$> take i camera_params ->
  depth_camera_undistort_maps_ p = undistortion_map_of <$> take i camera_params ->
  undistorted_depth_meters_ p = depth_buffer_of <$> take i camera_params ->
  construct_loop camera_params todo i p
  = Returns {| regular_grid_ := regular_grid_ p;
               camera_params_ := camera_params_ p;
               depth_camera_poses_cfw_ := depth_camera_poses_cfw_ p;
               depth_processor_ := depth_processor_ p;
               input_buffers_ := input_buffer_of <$> take (i + todo) camera_params;
               depth_meters_ := depth_buffer_of <$> take (i + todo) camera_params;
               depth_camera_undistort_maps_ :=
                 undistortion_map_of <$> take (i + todo) camera_params;
               undistorted_depth_meters_ :=
                 depth_buffer_of <$> take (i + todo) camera_params |}.
Proof.
  revert i p. induction todo as [| todo IH]; intros i p Hlen Hin Hraw Hmaps Hund.
  - destruct p. simpl in *. now rewrite Nat.add_0_r, Hin, Hraw, Hmaps, Hund.
  - destruct (lookup_lt_is_Some_2 camera_params i) as [cp Hcp]; [lia |].
    assert (Hmlen : length (depth_camera_undistort_maps_ p) = i).
    { rewrite Hmaps, length_fmap, length_take. lia. }
    simpl. unfold construct_camera. rewrite (vector_at_lookup _ _ _ Hcp). simpl.
    rewrite (vector_at_lookup _ i (DeviceArray2D_new float2 (resolution (depth cp))))
      by now apply list_lookup_middle.
    simpl. rewrite vector_set_in_range by (rewrite length_app; simpl; lia). simpl.
    rewrite IH; simpl.
    + now replace (i + S todo) with (S (i + todo)) by lia.
    + lia.
    + now rewrite Hin, (take_S_r _ _ _ Hcp), fmap_app.
    + now rewrite Hraw, (take_S_r _ _ _ Hcp), fmap_app.
    + rewrite insert_app_r_alt by lia. rewrite Hmlen, Nat.sub_diag. simpl.
      now rewrite Hmaps, (take_S_r _ _ _ Hcp), fmap_app.
    + now rewrite Hund, (take_S_r _ _ _ Hcp), fmap_app.
Qed.

(** X1: the constructor returns exactly when the calibration list is not
    empty: with an empty list the read of [camera_params[0]] is undefined
    behaviour. What it returns for a non-empty list is, for every camera, an
    input buffer of the camera's colour and depth resolutions, raw and
    undistorted depth buffers of its depth resolution and the device copy of
    its undistortion map, with the volume built from the grid arguments, the
    poses as given, and the depth processor of the first calibration. *)
Theorem constructor_closed_form
  (camera_params : list RGBDCameraParameters)
  (depth_camera_poses_cfw : list EuclideanTransform)
  (grid_resolution : Vector3i) (world_from_grid : SimilarityTransform)
  (max_tsdf_value : float) :
  MultiStaticCameraPipeline_new camera_params depth_camera_poses_cfw
    grid_resolution world_from_grid max_tsdf_value
  = match camera_params with
    | [] => Undefined
    | cp0 :: _ =>
        Returns (constructed cp0 camera_params depth_camera_poses_cfw
                   grid_resolution world_from_grid max_tsdf_value)
    end.
Proof.
  destruct camera_params as [| cp0 rest] eqn:E; [reflexivity |]. rewrite <- E.
  unfold MultiStaticCameraPipeline_new.
  rewrite (vector_at_lookup camera_params 0 cp0) by now rewrite E. simpl.
  rewrite construct_loop_closed_form; simpl; try reflexivity; try lia.
  now rewrite firstn_all.
Qed.

(** ** What no call changes *)

Lemma NotifyInputUpdated_not_Throws (i : Z) (color_updated depth_updated : bool)
  (p : MultiStaticCameraPipeline) (e : Exception) :
  NotifyInputUpdated i color_updated depth_updated p <> Throws e.
Proof.
  revert e. unfold NotifyInputUpdated.
  repeat (apply bind_not_Throws; [intros e; apply vector_at_int_not_Throws | intros ?]).
  discriminate.
Qed.

(** X2: the cameras are static. In every state that a sequence of calls
    reaches from the constructor, the calibrations, the poses, the device
    undistortion maps and the depth processor are those of construction, so
    [NumCameras], [GetCameraParameters(i)] and [GetDepthCamera(i)] answer as
    they did on the fresh pipeline, for every index [i]. *)
Theorem cameras_are_static
  (camera_params : list RGBDCameraParameters)
  (depth_camera_poses_cfw : list EuclideanTransform)
  (grid_resolution : Vector3i) (world_from_grid : SimilarityTransform)
  (max_tsdf_value : float) (p0 p : MultiStaticCameraPipeline) (cs : list Call) :
  MultiStaticCameraPipeline_new camera_params depth_camera_poses_cfw
    grid_resolution world_from_grid max_tsdf_value = Returns p0 ->
  calls cs p0 = Returns p ->
  camera_params_ p = camera_params /\
  depth_camera_poses_cfw_ p = depth_camera_poses_cfw /\
  depth_camera_undistort_maps_ p = undistortion_map_of <$> camera_params /\
  depth_processor_ p = depth_processor_ p0 /\
  NumCameras p = NumCameras p0 /\
  (forall i : Z, GetCameraParameters i p = GetCameraParameters i p0) /\
  (forall i : Z, GetDepthCamera i p = GetDepthCamera i p0).
Proof.
  intros Hnew Hcalls.
  destruct (reached_as_constructed _ _ _ _ _ _ _ _ Hnew Hcalls)
    as (Hcp & Hposes & Hmaps & _ & (cp0 & Hcp0 & Hproc)).
  destruct (reached_as_constructed _ _ _ _ _ p0 p0 [] Hnew eq_refl)
    as (Hcp' & Hposes' & _ & _ & (cp0' & Hcp0' & Hproc')).
  do 3 (split; [assumption |]).
  split; [| split; [| split]].
  - rewrite Hproc, Hproc'. rewrite Hcp in Hcp0. rewrite Hcp' in Hcp0'. congruence.
  - unfold NumCameras. now rewrite Hcp, Hcp'.
  - intros i. unfold GetCameraParameters. now rewrite Hcp, Hcp'.
  - intros i. unfold GetDepthCamera. now rewrite Hcp, Hcp', Hposes, Hposes'.
Qed.

(** ** The bounds of the indexed operations *)

(** X3: on a pipeline in which every camera has its buffers,
    [GetInputBuffer(i)] and [GetUndistortedDepthMap(i)] return camera [i]'s
    buffers for [i] in [[0, N)]; for every other index, negative ones
    included, they and [NotifyInputUpdated(i, _, _)] are undefined behaviour,
    and none of them signals a fault. *)
Theorem indexed_operations_bounds (p : MultiStaticCameraPipeline) (i : Z)
  (color_updated depth_updated : bool) :
  buffers_per_camera p ->
  (camera_index_in_range i p ->
   exists (input : InputBuffer) (undistorted : DeviceArray2D float),
     input_buffers_ p !! Z.to_nat i = Some input /\
     undistorted_depth_meters_ p !! Z.to_nat i = Some undistorted /\
     GetInputBuffer i p = Returns input /\
     GetUndistortedDepthMap i p = Returns undistorted) /\
  (~ camera_index_in_range i p ->
   GetInputBuffer i p = Undefined /\
   GetUndistortedDepthMap i p = Undefined /\
   NotifyInputUpdated i color_updated depth_updated p = Undefined) /\
  (forall e : Exception,
     GetInputBuffer i p <> Throws e /\
     GetUndistortedDepthMap i p <> Throws e /\
     NotifyInputUpdated i color_updated depth_updated p <> Throws e).
Proof.
  intros Hbuf. split; [| split].
  - intros Hi.
    destruct (buffers_of_camera p i Hbuf Hi) as (input & raw & map & out & Hin & _ & _ & Hout).
    exists input, out. unfold GetInputBuffer, GetUndistortedDepthMap.
    destruct Hi as [Hi _].
    now rewrite (vector_at_int_lookup _ _ _ Hi Hin), (vector_at_int_lookup _ _ _ Hi Hout).
  - intros Hi. destruct Hbuf as (Hin & _ & _ & Hund). unfold camera_index_in_range in Hi.
    assert (H1 : GetInputBuffer i p = Undefined).
    { apply vector_at_int_outside. now rewrite Hin. }
    split; [assumption |]. split.
    + apply vector_at_int_outside. now rewrite Hund.
    + unfold NotifyInputUpdated. unfold GetInputBuffer in H1. now rewrite H1.
  - intros e. split; [| split].
    + apply vector_at_int_not_Throws.
    + apply vector_at_int_not_Throws.
    + apply NotifyInputUpdated_not_Throws.
Qed.

(** X4: [GetDepthCamera(i)] returns, for a camera [i] that has a pose, the
    perspective camera made of camera [i]'s own pose, intrinsics, depth
    resolution and depth range ends. It is undefined behaviour for an index
    outside [[0, N)] and also for a camera inside the range for which the
    pose list is too short. *)
Theorem GetDepthCamera_bounds (p : MultiStaticCameraPipeline) (i : Z) :
  (forall cp pose,
     (0 <= i)%Z ->
     camera_params_ p !! Z.to_nat i = Some cp ->
     depth_camera_poses_cfw_ p !! Z.to_nat i = Some pose ->
     GetDepthCamera i p
     = Returns (PerspectiveCamera_new pose (intrinsics (depth cp))
                  (Vector2f_of_Vector2i (resolution (depth cp)))
                  (Range1f_left (depth_range (depth cp)))
                  (Range1f_right (depth_range (depth cp))))) /\
  (~ camera_index_in_range i p -> GetDepthCamera i p = Undefined) /\
  ((Z.of_nat (length (depth_camera_poses_cfw_ p)) <= i)%Z ->
   GetDepthCamera i p = Undefined).
Proof.
  unfold GetDepthCamera. split; [| split].
  - intros cp pose Hi Hcp Hpose.
    now rewrite (vector_at_int_lookup _ _ _ Hi Hpose), (vector_at_int_lookup _ _ _ Hi Hcp).
  - intros Hi. unfold camera_index_in_range in Hi.
    destruct (vector_at_int (depth_camera_poses_cfw_ p) i) as [pose | e |] eqn:E; simpl.
    + now rewrite vector_at_int_outside.
    + exfalso. exact (vector_at_int_not_Throws _ _ _ E).
    + reflexivity.
  - intros Hi. rewrite (vector_at_int_outside (depth_camera_poses_cfw_ p) i) by lia.
    reflexivity.
Qed.


(** ** Fuse in closed form *)

Lemma Fuse_arguments_of_list (i : nat) (p : MultiStaticCameraPipeline) :
  Fuse_arguments i p
  = match fuse_arguments_list p !! i with
    | Some a => Returns a
    | None => Undefined
    end.
Proof.
  unfold Fuse_arguments, fuse_arguments_list, vector_at.
  rewrite !lookup_zip_with.
  destruct (camera_params_ p !! i) as [cp |]; simpl; [| reflexivity].
  destruct (depth_camera_poses_cfw_ p !! i) as [pose |]; simpl; [| reflexivity].
  now destruct (undistorted_depth_meters_ p !! i).
Qed.

Lemma fuse_arguments_list_set_regular_grid (g : RegularGridTSDF)
  (p : MultiStaticCameraPipeline) :
  fuse_arguments_list (set_regular_grid g p) = fuse_arguments_list p.
Proof. reflexivity. Qed.

(** As long as the list of arguments lasts, one call per entry. *)
Lemma Fuse_loop_closed_form (todo i : nat) (p : MultiStaticCameraPipeline) :
  i + todo <= length (fuse_arguments_list p) ->
  Fuse_loop todo i p
  = Returns (set_regular_grid
               (foldl (fun g a => RegularGridTSDF_Fuse_with a g) (regular_grid_ p)
                  (take todo (drop i (fuse_arguments_list p)))) p).
Proof.
  revert i p. induction todo as [| todo IH]; intros i p Hlen; simpl.
  - now destruct p.
  - destruct (lookup_lt_is_Some_2 (fuse_arguments_list p) i) as [a Ha]; [lia |].
    rewrite Fuse_arguments_of_list, Ha. simpl.
    rewrite IH by (rewrite fuse_arguments_list_set_regular_grid; lia).
    rewrite fuse_arguments_list_set_regular_grid.
    now rewrite (drop_S _ _ _ Ha).
Qed.

(** Past the end of the list of arguments the loop is undefined. *)
Lemma Fuse_loop_past_end (todo i : nat) (p : MultiStaticCameraPipeline) :
  i <= length (fuse_arguments_list p) < i + todo ->
  Fuse_loop todo i p = Undefined.
Proof.
  revert i p. induction todo as [| todo IH]; intros i p Hlen; [lia |].
  simpl. rewrite Fuse_arguments_of_list.
  destruct (fuse_arguments_list p !! i) as [a |] eqn:Ha; simpl; [| reflexivity].
  apply IH. rewrite fuse_arguments_list_set_regular_grid.
  apply lookup_lt_Some in Ha. lia.
Qed.

Lemma Fuse_closed_form (p : MultiStaticCameraPipeline) :
  Fuse p
  = if decide (length (depth_meters_ p) <= length (fuse_arguments_list p))
    then Returns (set_regular_grid
                    (foldl (fun g a => RegularGridTSDF_Fuse_with a g) (regular_grid_ p)
                       (take (length (depth_meters_ p)) (fuse_arguments_list p))) p)
    else Undefined.
Proof.
  unfold Fuse. destruct (decide _) as [Hle | Hgt].
  - now rewrite Fuse_loop_closed_form, drop_0 by (simpl; lia).
  - apply Fuse_loop_past_end. lia.
Qed.

Lemma length_fuse_arguments_list (p : MultiStaticCameraPipeline) :
  length (fuse_arguments_list p)
  = Nat.min
      (Nat.min (length (camera_params_ p)) (length (depth_camera_poses_cfw_ p)))
      (length (undistorted_depth_meters_ p)).
Proof. unfold fuse_arguments_list. now rewrite !length_zip_with. Qed.

Lemma FuseMultiple_loop_not_Throws (todo i : nat) (p : MultiStaticCameraPipeline)
  (c : list CalibratedPosedDepthCamera) (e : Exception) :
  FuseMultiple_loop todo i p c <> Throws e.
Proof.
  revert i c. induction todo as [| todo IH]; intros i c E; simpl in E; [discriminate |].
  destruct (FuseMultiple_pack i p c) as [c1 | e1 |] eqn:Hpack; simpl in E;
    [exact (IH _ _ E) | | discriminate].
  clear E. revert Hpack. unfold FuseMultiple_pack.
  repeat (apply bind_not_Throws;
          [intros ?; first [apply vector_at_not_Throws | apply vector_set_not_Throws]
          | intros ? ?]).
  apply vector_set_not_Throws.
Qed.

(** X5: in every state reached from a pipeline that was constructed with
    fewer poses than calibrations, both [Fuse] and [FuseMultiple] are
    undefined behaviour: their loops run over all cameras and read a pose
    past the end of the pose list. *)
Theorem fusion_undefined_without_poses
  (camera_params : list RGBDCameraParameters)
  (depth_camera_poses_cfw : list EuclideanTransform)
  (grid_resolution : Vector3i) (world_from_grid : SimilarityTransform)
  (max_tsdf_value : float) (p0 p : MultiStaticCameraPipeline) (cs : list Call) :
  MultiStaticCameraPipeline_new camera_params depth_camera_poses_cfw
    grid_resolution world_from_grid max_tsdf_value = Returns p0 ->
  calls cs p0 = Returns p ->
  length depth_camera_poses_cfw < length camera_params ->
  Fuse p = Undefined /\ FuseMultiple p = Undefined.
Proof.
  intros Hnew Hcalls Hfew.
  destruct (reached_as_constructed _ _ _ _ _ _ _ _ Hnew Hcalls)
    as (Hcp & Hposes & _ & (_ & Hraw & _ & Hund) & _).
  split.
  - rewrite Fuse_closed_form. destruct (decide _) as [Hle | Hgt]; [| reflexivity].
    rewrite length_fuse_arguments_list, Hraw, Hposes, Hcp in Hle. lia.
  - unfold FuseMultiple, FuseMultiple_cameras.
    destruct (FuseMultiple_loop _ _ _ _) as [c | e |] eqn:E; simpl; [| | reflexivity].
    + apply FuseMultiple_loop_Returns in E. destruct E as (_ & _ & _ & Hwritten).
      destruct (Hwritten (length depth_camera_poses_cfw)) as (cp & pose & _ & Hpose & _);
        [rewrite Hraw, Hcp; lia |].
      apply lookup_lt_Some in Hpose. rewrite Hposes in Hpose. lia.
    + exfalso. exact (FuseMultiple_loop_not_Throws _ _ _ _ _ E).
Qed.

(** X6: [Fuse] sends the volume the same calls every time. On a pipeline in
    which every camera has its buffers and a pose, [Fuse] makes one call per
    entry of the list of per-camera arguments, and a second [Fuse] right
    after it makes the same calls with the same arguments again: the depth
    maps are not consumed and nothing marks a camera as already fused. *)
Theorem Fuse_twice (p : MultiStaticCameraPipeline) :
  buffers_per_camera p -> pose_per_camera p ->
  length (fuse_arguments_list p) = length (camera_params_ p) /\
  Fuse p
  = Returns (set_regular_grid
               (foldl
                  (fun g a =>
                     RegularGridTSDF_Fuse (fuse_flpp a) (fuse_depth_range a)
                       (fuse_camera_from_world a) (fuse_depth a) g)
                  (regular_grid_ p) (fuse_arguments_list p)) p) /\
  (p' ← Fuse p; Fuse p')
  = Returns (set_regular_grid
               (foldl
                  (fun g a =>
                     RegularGridTSDF_Fuse (fuse_flpp a) (fuse_depth_range a)
                       (fuse_camera_from_world a) (fuse_depth a) g)
                  (regular_grid_ p) (fuse_arguments_list p ++ fuse_arguments_list p)) p).
Proof.
  intros (_ & Hraw & _ & Hund) Hposes. unfold pose_per_camera in Hposes.
  assert (Hlen : length (fuse_arguments_list p) = length (camera_params_ p))
    by (rewrite length_fuse_arguments_list; lia).
  assert (HF : Fuse p
               = Returns (set_regular_grid
                            (foldl (fun g a => RegularGridTSDF_Fuse_with a g)
                               (regular_grid_ p) (fuse_arguments_list p)) p)).
  { rewrite Fuse_closed_form. destruct (decide _) as [_ | Hgt]; [| lia].
    now rewrite take_ge by lia. }
  split; [assumption |]. split; [unfold RegularGridTSDF_Fuse_with in HF; exact HF |].
  rewrite HF. simpl. rewrite Fuse_closed_form. simpl.
  rewrite fuse_arguments_list_set_regular_grid.
  destruct (decide _) as [_ | Hgt]; [| lia].
  rewrite take_ge, foldl_app by lia. unfold RegularGridTSDF_Fuse_with. reflexivity.
Qed.

(** ** A written frame and the two fusions *)

Lemma FuseMultiple_loop_set_input_buffers (v : list InputBuffer) (todo i : nat)
  (p : MultiStaticCameraPipeline) (c : list CalibratedPosedDepthCamera) :
  FuseMultiple_loop todo i (set_input_buffers v p) c = FuseMultiple_loop todo i p c.
Proof.
  revert i c. induction todo as [| todo IH]; intros i c; simpl; [reflexivity |].
  change (FuseMultiple_pack i (set_input_buffers v p) c) with (FuseMultiple_pack i p c).
  destruct (FuseMultiple_pack i p c); simpl; [apply IH | reflexivity | reflexivity].
Qed.

(** X7: a frame that the capture source has written into an input buffer has
    no effect on fusion until [NotifyInputUpdated] is called: after the write
    [Fuse] and [FuseMultiple] return (or are undefined) exactly as before it
    and leave the same volume. *)
Theorem fusion_ignores_unnotified_frame (p p1 : MultiStaticCameraPipeline) (i : Z)
  (frame : InputBuffer) :
  WriteInputBuffer i frame p = Returns p1 ->
  Fuse p1
  = (p' ← Fuse p; mret (set_regular_grid (regular_grid_ p') p1)) /\
  FuseMultiple p1
  = (p' ← FuseMultiple p; mret (set_regular_grid (regular_grid_ p') p1)).
Proof.
  intros H. unfold WriteInputBuffer in H. apply bind_Returns in H.
  destruct H as (_ & _ & H). injection H as <-. split.
  - rewrite !Fuse_closed_form.
    change (fuse_arguments_list (set_input_buffers _ p)) with (fuse_arguments_list p).
    simpl. now destruct (decide _).
  - unfold FuseMultiple, FuseMultiple_cameras. simpl.
    rewrite FuseMultiple_loop_set_input_buffers.
    now destruct (FuseMultiple_loop _ _ _ _).
Qed.

(** ** The batch of FuseMultiple in closed form *)

Lemma FuseMultiple_cameras_closed_form (p : MultiStaticCameraPipeline) :
  length (depth_meters_ p) <= 3 ->
  length (depth_meters_ p) <= length (camera_params_ p) ->
  length (depth_meters_ p) <= length (depth_camera_poses_cfw_ p) ->
  FuseMultiple_cameras p
  = Returns (take (length (depth_meters_ p))
               (zip_with packed_camera (camera_params_ p) (depth_camera_poses_cfw_ p))
             ++ replicate (3 - length (depth_meters_ p)) CalibratedPosedDepthCamera_default).
Proof.
  intros H3 Hcps Hposes. unfold FuseMultiple_cameras.
  assert (Hex : exists c, FuseMultiple_loop (length (depth_meters_ p)) 0 p
                            (replicate 3 CalibratedPosedDepthCamera_default) = Returns c).
  { apply FuseMultiple_loop_in_range; rewrite ?length_replicate; simpl; lia. }
  destruct Hex as [c Hc]. rewrite Hc. f_equal. apply FuseMultiple_loop_Returns in Hc.
  destruct Hc as (Hlen & _ & Hkeep & Hwritten). rewrite length_replicate in Hlen.
  set (n := length (depth_meters_ p)) in *.
  set (z := zip_with packed_camera (camera_params_ p) (depth_camera_poses_cfw_ p)).
  assert (Hz : n <= length z) by (unfold z; rewrite length_zip_with; lia).
  apply list_eq. intros j. destruct (decide (j < n)) as [Hj | Hj].
  - destruct (Hwritten j) as (cp & pose & Hcp & Hpose & ->); [simpl; lia |].
    rewrite lookup_app_l by (rewrite length_take; lia).
    rewrite lookup_take_lt by assumption. unfold z.
    now rewrite lookup_zip_with, Hcp, Hpose.
  - rewrite Hkeep by (simpl; lia).
    rewrite lookup_app_r by (rewrite length_take; lia).
    rewrite length_take, Nat.min_l by lia.
    destruct (decide (j < 3)) as [Hj3 | Hj3].
    + now rewrite !lookup_replicate_2 by lia.
    + now rewrite !lookup_ge_None_2 by (rewrite length_replicate; lia).
Qed.

Lemma batch_of_fuse_arguments (cps : list RGBDCameraParameters)
  (poses : list EuclideanTransform) (undistorted : list (DeviceArray2D float)) :
  length cps <= length undistorted ->
  batch_entry_of <$>
    zip_with (fun f u => f u) (zip_with fuse_arguments_of cps poses) undistorted
  = zip_with packed_camera cps poses.
Proof.
  revert poses undistorted.
  induction cps as [| cp cps IH]; intros [| pose poses] [| u us] H; simpl in *;
    try reflexivity; try lia.
  f_equal. apply IH. lia.
Qed.

Lemma depths_of_fuse_arguments (cps : list RGBDCameraParameters)
  (poses : list EuclideanTransform) (undistorted : list (DeviceArray2D float)) :
  length undistorted <= length cps -> length undistorted <= length poses ->
  fuse_depth <$>
    zip_with (fun f u => f u) (zip_with fuse_arguments_of cps poses) undistorted
  = undistorted.
Proof.
  revert poses undistorted.
  induction cps as [| cp cps IH]; intros [| pose poses] [| u us] H1 H2; simpl in *;
    try reflexivity; try lia.
  f_equal. apply IH; lia.
Qed.

(** X8: with exactly three cameras, each with its buffers and a pose,
    [FuseMultiple] hands the volume in one call the data that [Fuse] hands it
    in three: the batch has one entry per [Fuse] call, in the same order and
    carrying the same focal length, principal point, depth range ends and
    camera-from-world matrix, with no padding, and the depth maps are the
    three that the [Fuse] calls carry. *)
Theorem FuseMultiple_matches_Fuse_for_three_cameras (p : MultiStaticCameraPipeline) :
  buffers_per_camera p -> pose_per_camera p -> length (camera_params_ p) = 3 ->
  length (fuse_arguments_list p) = 3 /\
  Fuse p
  = Returns (set_regular_grid
               (foldl
                  (fun g a =>
                     RegularGridTSDF_Fuse (fuse_flpp a) (fuse_depth_range a)
                       (fuse_camera_from_world a) (fuse_depth a) g)
                  (regular_grid_ p) (fuse_arguments_list p)) p) /\
  FuseMultiple p
  = Returns (set_regular_grid
               (RegularGridTSDF_FuseMultiple
                  (batch_entry_of <$> fuse_arguments_list p)
                  (fuse_depth <$> fuse_arguments_list p)
                  (regular_grid_ p)) p).
Proof.
  intros (_ & Hraw & _ & Hund) Hposes H3. unfold pose_per_camera in Hposes.
  assert (Hlen : length (fuse_arguments_list p) = 3)
    by (rewrite length_fuse_arguments_list; lia).
  split; [assumption |]. split.
  - rewrite Fuse_closed_form. destruct (decide _) as [_ | Hgt]; [| lia].
    rewrite take_ge by lia. unfold RegularGridTSDF_Fuse_with. reflexivity.
  - unfold FuseMultiple. rewrite FuseMultiple_cameras_closed_form by lia. simpl.
    unfold fuse_arguments_list.
    rewrite batch_of_fuse_arguments, depths_of_fuse_arguments by lia.
    rewrite Hraw, H3. simpl. rewrite app_nil_r, take_ge; [reflexivity |].
    rewrite length_zip_with. lia.
Qed.


(** ** From the input buffer to the undistorted depth map *)

Lemma vector_at_int_insert_other {A : Type} (v : list A) (i j : Z) (a : A) :
  (0 <= i)%Z -> j <> i ->
  vector_at_int (<[Z.to_nat i := a]> v) j = vector_at_int v j.
Proof.
  intros Hi Hne. unfold vector_at_int, vector_at.
  destruct (Z.ltb_spec j 0); [reflexivity |].
  rewrite list_lookup_insert_ne by lia. reflexivity.
Qed.

(** X9: the way of a frame through the pipeline. For a camera [i] in
    [[0, N)], a frame written through [GetInputBuffer(i)] is what
    [GetInputBuffer(i)] returns afterwards, before and after
    [NotifyInputUpdated(i, _, _)]; after the notification
    [GetUndistortedDepthMap(i)] returns the undistortion of the copy of that
    frame's depth into [rawDepth[i]]; and for every other index both
    accessors answer as they did before the write. *)
Theorem written_frame_round_trip (p : MultiStaticCameraPipeline) (i : Z)
  (frame : InputBuffer) (color_updated depth_updated : bool) :
  buffers_per_camera p -> camera_index_in_range i p ->
  exists (raw : DeviceArray2D float) (map : DeviceArray2D float2)
    (out : DeviceArray2D float) (p1 p2 : MultiStaticCameraPipeline),
    depth_meters_ p !! Z.to_nat i = Some raw /\
    depth_camera_undistort_maps_ p !! Z.to_nat i = Some map /\
    undistorted_depth_meters_ p !! Z.to_nat i = Some out /\
    WriteInputBuffer i frame p = Returns p1 /\
    GetInputBuffer i p1 = Returns frame /\
    NotifyInputUpdated i color_updated depth_updated p1 = Returns p2 /\
    GetInputBuffer i p2 = Returns frame /\
    GetUndistortedDepthMap i p2
    = Returns (DepthProcessor_Undistort (depth_processor_ p)
                 (copy (depth_meters frame) raw) map out) /\
    forall j : Z, j <> i ->
      GetInputBuffer j p2 = GetInputBuffer j p /\
      GetUndistortedDepthMap j p2 = GetUndistortedDepthMap j p.
Proof.
  intros Hbuf Hi.
  destruct (buffers_of_camera p i Hbuf Hi)
    as (input & raw & map & out & Hin & Hraw & Hmap & Hout).
  destruct Hi as [Hi _].
  assert (Hframe : <[Z.to_nat i := frame]> (input_buffers_ p) !! Z.to_nat i = Some frame).
  { apply list_lookup_insert_eq. now apply lookup_lt_Some in Hin. }
  exists raw, map, out. eexists. eexists.
  do 3 (split; [assumption |]).
  split. { unfold WriteInputBuffer, GetInputBuffer.
           now rewrite (vector_at_int_lookup _ _ _ Hi Hin). }
  split. { unfold GetInputBuffer. simpl. now apply vector_at_int_lookup. }
  split. { apply (NotifyInputUpdated_lookup _ i _ _ frame raw map out); simpl; assumption. }
  split. { unfold GetInputBuffer. simpl. now apply vector_at_int_lookup. }
  split.
  { unfold GetUndistortedDepthMap. simpl. apply vector_at_int_lookup; [assumption |].
    apply list_lookup_insert_eq. now apply lookup_lt_Some in Hout. }
  intros j Hj. unfold GetInputBuffer, GetUndistortedDepthMap. simpl.
  now rewrite !vector_at_int_insert_other.
Qed.

(** ** Notifications for different cameras *)

Lemma NotifyInputUpdated_then_other (p pi pj : MultiStaticCameraPipeline) (i j : Z)
  (ci di cj dj : bool) :
  i <> j ->
  NotifyInputUpdated i ci di p = Returns pi ->
  NotifyInputUpdated j cj dj p = Returns pj ->
  NotifyInputUpdated j cj dj pi = NotifyInputUpdated i ci di pj.
Proof.
  intros Hne Hi Hj.
  apply NotifyInputUpdated_Returns in Hi, Hj.
  destruct Hi as (ini & rawi & mapi & outi & Hi0 & Hini & Hrawi & Hmapi & Houti & ->).
  destruct Hj as (inj & rawj & mapj & outj & Hj0 & Hinj & Hrawj & Hmapj & Houtj & ->).
  assert (Hn : Z.to_nat i <> Z.to_nat j) by lia.
  rewrite (NotifyInputUpdated_lookup _ j cj dj inj rawj mapj outj); simpl;
    try assumption; try (rewrite list_lookup_insert_ne by assumption; assumption).
  rewrite (NotifyInputUpdated_lookup _ i ci di ini rawi mapi outi); simpl;
    try assumption; try (rewrite list_lookup_insert_ne by congruence; assumption).
  unfold notified. simpl. f_equal. f_equal; apply list_insert_insert_ne; congruence.
Qed.

Lemma NotifyInputUpdated_undefined_after_other (p pi : MultiStaticCameraPipeline)
  (i j : Z) (ci di cj dj : bool) :
  i <> j ->
  NotifyInputUpdated i ci di p = Returns pi ->
  NotifyInputUpdated j cj dj p = Undefined ->
  NotifyInputUpdated j cj dj pi = Undefined.
Proof.
  intros Hne Hi Hj.
  destruct (NotifyInputUpdated j cj dj pi) as [q | e |] eqn:E; [| | reflexivity].
  - exfalso. apply NotifyInputUpdated_Returns in Hi, E.
    destruct Hi as (ini & rawi & mapi & outi & Hi0 & _ & _ & _ & _ & ->).
    destruct E as (inj & rawj & mapj & outj & Hj0 & Hinj & Hrawj & Hmapj & Houtj & _).
    simpl in Hinj, Hrawj, Hmapj, Houtj.
    rewrite list_lookup_insert_ne in Hrawj, Houtj by lia.
    rewrite (NotifyInputUpdated_lookup p j cj dj inj rawj mapj outj) in Hj by assumption.
    discriminate.
  - exfalso. exact (NotifyInputUpdated_not_Throws _ _ _ _ _ E).
Qed.

(** X10: notifications for two different cameras commute: in either order
    they return the same pipeline, or neither order returns. *)
Theorem notifications_commute (p : MultiStaticCameraPipeline) (i j : Z)
  (ci di cj dj : bool) :
  i <> j ->
  (p1 ← NotifyInputUpdated i ci di p; NotifyInputUpdated j cj dj p1)
  = (p1 ← NotifyInputUpdated j cj dj p; NotifyInputUpdated i ci di p1).
Proof.
  intros Hne.
  destruct (NotifyInputUpdated i ci di p) as [pi | e |] eqn:Ei;
    [| exfalso; exact (NotifyInputUpdated_not_Throws _ _ _ _ _ Ei) |];
    (destruct (NotifyInputUpdated j cj dj p) as [pj | e |] eqn:Ej;
     [| exfalso; exact (NotifyInputUpdated_not_Throws _ _ _ _ _ Ej) |]); simpl.
  - now apply (NotifyInputUpdated_then_other p).
  - now apply (NotifyInputUpdated_undefined_after_other p pi i j ci di).
  - symmetry. apply (NotifyInputUpdated_undefined_after_other p pj j i cj dj);
      [congruence | assumption | assumption].
  - reflexivity.
Qed.

(** ** The volume and the input side *)

(** X11: the volume changes only through fusion, reset and raycast. After
    any sequence of input-buffer writes and [NotifyInputUpdated] calls that
    returns, the volume is the one before the sequence, so [Triangulate]
    gives the same mesh for every transform and the bounding box and the
    world-from-grid transform are the same. *)
Theorem input_calls_leave_the_volume (cs : list Call)
  (p0 p : MultiStaticCameraPipeline) :
  Forall is_input_call cs -> calls cs p0 = Returns p ->
  regular_grid_ p = regular_grid_ p0 /\
  (forall output_from_world : Matrix4f,
     Triangulate output_from_world p = Triangulate output_from_world p0) /\
  TSDFGridBoundingBox p = TSDFGridBoundingBox p0 /\
  TSDFWorldFromGridTransform p = TSDFWorldFromGridTransform p0.
Proof.
  intros Hcs Hcalls.
  assert (Hg : regular_grid_ p = regular_grid_ p0).
  { revert p0 Hcalls. induction Hcs as [| c cs Hc _ IH]; intros p0 Hcalls; simpl in Hcalls.
    - now injection Hcalls as <-.
    - apply bind_Returns in Hcalls. destruct Hcalls as (p1 & H1 & Hcalls).
      rewrite (IH p1 Hcalls).
      destruct c as [i frame | i cu du | | | |]; simpl in Hc; try contradiction;
        simpl in H1.
      + unfold WriteInputBuffer in H1. apply bind_Returns in H1.
        destruct H1 as (_ & _ & H1). now injection H1 as <-.
      + apply NotifyInputUpdated_Returns in H1.
        now destruct H1 as (input & raw & map & out & _ & _ & _ & _ & _ & ->). }
  split; [assumption |]. unfold Triangulate, TSDFGridBoundingBox, TSDFWorldFromGridTransform.
  now rewrite Hg.
Qed.


End MoreProperties.

(** * Properties of the viewer's OpenGL state *)

Section GLProperties.

Context {float : Type} {L : @Libcgt float} {C : @Collaborators float L}.
Context {LC : @LibcgtCameras float L} {VG : @VolumeGeometry float L C LC}.
Context {LG : @LibcgtGL float L}.

(** ** Calls into OpenGL change the record of calls only *)

Lemma gl_many_app (a b : list GLCall) (s : MultiStaticCameraGLState) :
  gl_many (a ++ b) s = gl_many b (gl_many a s).
Proof. apply foldl_app. Qed.

Lemma gl_many_projections (cs : list GLCall) (s : MultiStaticCameraGLState) :
  view_of (gl_many cs s) = view_of s /\
  objects_of (gl_many cs s) = objects_of s /\
  gl_viewport (gl_many cs s) = gl_viewport s /\
  gl_calls (gl_many cs s) = gl_calls s ++ cs.
Proof.
  revert s. induction cs as [| c cs IH]; intros s; simpl.
  - now rewrite app_nil_r.
  - destruct (IH (gl c s)) as (Hv & Ho & Hvp & Hc).
    unfold gl_many in *. rewrite Hv, Ho, Hvp, Hc. simpl.
    now rewrite <- app_assoc.
Qed.

Lemma set_gl_viewport_gl_many (r : Rect2i) (cs : list GLCall)
  (s : MultiStaticCameraGLState) :
  gl_many cs (set_gl_viewport r s) = set_gl_viewport r (gl_many cs s).
Proof.
  revert s. induction cs as [| c cs IH]; intros s; simpl; [reflexivity |].
  change (gl c (set_gl_viewport r s)) with (set_gl_viewport r (gl c s)). apply IH.
Qed.

(** ** The loops of Render *)

Lemma int_size_le {A : Type} (v : list A) : int_size v <= length v.
Proof.
  unfold int_size, static_cast_int.
  pose proof (Z.mod_le (Z.of_nat (length v) + 2 ^ 31) (2 ^ 32)) as H. lia.
Qed.

Lemma upload_depth_Returns (i : nat) (s s' : MultiStaticCameraGLState) :
  upload_depth i s = Returns s' ->
  exists raw input texture undistorted,
    raw_depth_textures_ s !! i = Some raw /\
    GetInputBuffer (Z.of_nat i) (pipeline_ s) = Returns input /\
    undistorted_depth_textures_ s !! i = Some texture /\
    GetUndistortedDepthMap (Z.of_nat i) (pipeline_ s) = Returns undistorted /\
    s' = set_undistorted_depth_textures
           (<[i := Texture_fill (DeviceDepth undistorted) texture]>
              (undistorted_depth_textures_ s))
           (set_raw_depth_textures
              (<[i := Texture_fill (HostDepth (depth_meters input)) raw]>
                 (raw_depth_textures_ s)) s).
Proof.
  intros H. unfold upload_depth in H.
  apply bind_Returns in H. destruct H as (raw & Hraw & H).
  apply bind_Returns in H. destruct H as (input & Hin & H).
  apply bind_Returns in H. destruct H as (texture & Htex & H).
  apply bind_Returns in H. destruct H as (und & Hund & H).
  apply vector_at_Returns in Hraw, Htex. simpl in *.
  injection H as <-. now exists raw, input, texture, und.
Qed.

(** What [Render]'s first loop keeps, and what it leaves in the textures. *)
Lemma upload_depths_Returns (todo i : nat) (s s' : MultiStaticCameraGLState) :
  upload_depths todo i s = Returns s' ->
  view_of s' = view_of s /\
  depth_camera_frusta_ s' = depth_camera_frusta_ s /\
  gl_viewport s' = gl_viewport s /\
  gl_calls s' = gl_calls s /\
  texture_size <$> raw_depth_textures_ s' = texture_size <$> raw_depth_textures_ s /\
  texture_size <$> undistorted_depth_textures_ s'
  = texture_size <$> undistorted_depth_textures_ s /\
  (forall k : nat, k < i \/ i + todo <= k ->
     raw_depth_textures_ s' !! k = raw_depth_textures_ s !! k /\
     undistorted_depth_textures_ s' !! k = undistorted_depth_textures_ s !! k) /\
  (forall k : nat, i <= k < i + todo ->
     exists input undistorted,
       GetInputBuffer (Z.of_nat k) (pipeline_ s) = Returns input /\
       GetUndistortedDepthMap (Z.of_nat k) (pipeline_ s) = Returns undistorted /\
       texture_content <$> raw_depth_textures_ s' !! k
       = Some (HostDepth (depth_meters input)) /\
       texture_content <$> undistorted_depth_textures_ s' !! k
       = Some (DeviceDepth undistorted)).
Proof.
  revert i s. induction todo as [| todo IH]; intros i s H; simpl in H.
  - injection H as <-. repeat split; try reflexivity. intros k Hk. lia.
  - apply bind_Returns in H. destruct H as (s1 & H1 & H).
    apply upload_depth_Returns in H1.
    destruct H1 as (raw & input & texture & und & Hraw & Hin & Htex & Hund & ->).
    apply IH in H. simpl in H.
    destruct H as (Hv & Hf & Hvp & Hc & Hrs & Hus & Hkeep & Hfilled).
    split; [exact Hv |]. split; [exact Hf |]. split; [exact Hvp |]. split; [exact Hc |].
    split; [| split; [| split]].
    + rewrite Hrs, list_fmap_insert. simpl. apply list_insert_id.
      now rewrite list_lookup_fmap, Hraw.
    + rewrite Hus, list_fmap_insert. simpl. apply list_insert_id.
      now rewrite list_lookup_fmap, Htex.
    + intros k Hk. destruct (Hkeep k) as [Hr Hu]; [lia |]. rewrite Hr, Hu.
      split; apply list_lookup_insert_ne; lia.
    + intros k Hk. destruct (decide (k = i)) as [-> | Hne].
      * exists input, und. do 2 (split; [assumption |]).
        destruct (Hkeep i) as [Hr Hu]; [lia |]. rewrite Hr, Hu.
        rewrite !list_lookup_insert_eq; [now split | |].
        -- now apply lookup_lt_Some in Htex.
        -- now apply lookup_lt_Some in Hraw.
      * apply Hfilled. lia.
Qed.

Lemma upload_depths_in_range (todo i : nat) (s : MultiStaticCameraGLState) :
  i + todo <= length (raw_depth_textures_ s) ->
  i + todo <= length (undistorted_depth_textures_ s) ->
  i + todo <= length (input_buffers_ (pipeline_ s)) ->
  i + todo <= length (undistorted_depth_meters_ (pipeline_ s)) ->
  exists s', upload_depths todo i s = Returns s'.
Proof.
  revert i s. induction todo as [| todo IH]; intros i s H1 H2 H3 H4; simpl.
  - now exists s.
  - destruct (lookup_lt_is_Some_2 (raw_depth_textures_ s) i) as [raw Hraw]; [lia |].
    destruct (lookup_lt_is_Some_2 (undistorted_depth_textures_ s) i) as [tex Htex]; [lia |].
    destruct (lookup_lt_is_Some_2 (input_buffers_ (pipeline_ s)) i) as [input Hin]; [lia |].
    destruct (lookup_lt_is_Some_2 (undistorted_depth_meters_ (pipeline_ s)) i)
      as [und Hund]; [lia |].
    unfold upload_depth, GetInputBuffer, GetUndistortedDepthMap.
    rewrite (vector_at_lookup _ _ _ Hraw). simpl.
    rewrite (vector_at_int_lookup _ (Z.of_nat i) input) by first [lia | rewrite Nat2Z.id; assumption].
    simpl. rewrite (vector_at_lookup _ _ _ Htex). simpl.
    rewrite (vector_at_int_lookup _ (Z.of_nat i) und) by first [lia | rewrite Nat2Z.id; assumption].
    simpl. apply IH; simpl; rewrite ?length_insert; lia.
Qed.


Lemma update_frustum_Returns (i : nat) (s s' : MultiStaticCameraGLState) :
  update_frustum i s = Returns s' ->
  exists camera,
    i < length (depth_camera_frusta_ s) /\
    GetDepthCamera (Z.of_nat i) (pipeline_ s) = Returns camera /\
    s' = set_depth_camera_frusta
           (<[i := {| frustum_camera := Some camera |}]> (depth_camera_frusta_ s)) s.
Proof.
  intros H. unfold update_frustum in H.
  apply bind_Returns in H. destruct H as (f & Hf & H).
  apply bind_Returns in H. destruct H as (camera & Hc & H).
  apply vector_at_Returns, lookup_lt_Some in Hf. injection H as <-. now exists camera.
Qed.

(** What [Render]'s second loop keeps, and where it leaves the frusta. *)
Lemma update_frusta_Returns (todo i : nat) (s s' : MultiStaticCameraGLState) :
  update_frusta todo i s = Returns s' ->
  view_of s' = view_of s /\
  raw_depth_textures_ s' = raw_depth_textures_ s /\
  undistorted_depth_textures_ s' = undistorted_depth_textures_ s /\
  gl_viewport s' = gl_viewport s /\
  gl_calls s' = gl_calls s /\
  length (depth_camera_frusta_ s') = length (depth_camera_frusta_ s) /\
  (forall k : nat, k < i \/ i + todo <= k ->
     depth_camera_frusta_ s' !! k = depth_camera_frusta_ s !! k) /\
  (forall k : nat, i <= k < i + todo ->
     exists camera,
       GetDepthCamera (Z.of_nat k) (pipeline_ s) = Returns camera /\
       depth_camera_frusta_ s' !! k = Some {| frustum_camera := Some camera |}).
Proof.
  revert i s. induction todo as [| todo IH]; intros i s H; simpl in H.
  - injection H as <-. repeat split; try reflexivity. intros k Hk. lia.
  - apply bind_Returns in H. destruct H as (s1 & H1 & H).
    apply update_frustum_Returns in H1. destruct H1 as (camera & Hi & Hc & ->).
    apply IH in H. simpl in H.
    destruct H as (Hv & Hr & Hu & Hvp & Hcs & Hlen & Hkeep & Hset).
    do 5 (split; [assumption |]).
    split; [now rewrite Hlen, length_insert |]. split.
    + intros k Hk. rewrite Hkeep by lia. apply list_lookup_insert_ne. lia.
    + intros k Hk. destruct (decide (k = i)) as [-> | Hne].
      * exists camera. split; [assumption |]. rewrite Hkeep by lia.
        now apply list_lookup_insert_eq.
      * apply Hset. lia.
Qed.

Lemma update_frusta_in_range (todo i : nat) (s : MultiStaticCameraGLState) :
  i + todo <= length (depth_camera_frusta_ s) ->
  i + todo <= length (camera_params_ (pipeline_ s)) ->
  i + todo <= length (depth_camera_poses_cfw_ (pipeline_ s)) ->
  exists s', update_frusta todo i s = Returns s'.
Proof.
  revert i s. induction todo as [| todo IH]; intros i s H1 H2 H3; simpl.
  - now exists s.
  - destruct (lookup_lt_is_Some_2 (depth_camera_frusta_ s) i) as [f Hf]; [lia |].
    destruct (lookup_lt_is_Some_2 (camera_params_ (pipeline_ s)) i) as [cp Hcp]; [lia |].
    destruct (lookup_lt_is_Some_2 (depth_camera_poses_cfw_ (pipeline_ s)) i)
      as [pose Hpose]; [lia |].
    unfold update_frustum, GetDepthCamera.
    rewrite (vector_at_lookup _ _ _ Hf). simpl.
    rewrite (vector_at_int_lookup _ (Z.of_nat i) pose)
      by first [lia | rewrite Nat2Z.id; assumption].
    simpl.
    rewrite (vector_at_int_lookup _ (Z.of_nat i) cp)
      by first [lia | rewrite Nat2Z.id; assumption].
    simpl. apply IH; simpl; rewrite ?length_insert; lia.
Qed.

(** ** The draw functions as lists of calls *)

Lemma draw_frusta_closed_form (todo i : nat) (s : MultiStaticCameraGLState) :
  i + todo <= length (depth_camera_frusta_ s) ->
  draw_frusta todo i s
  = Returns (gl_many ((fun k => draw (depth_camera_frustum k)) <$> seq i todo) s).
Proof.
  revert i s. induction todo as [| todo IH]; intros i s H; simpl; [reflexivity |].
  destruct (lookup_lt_is_Some_2 (depth_camera_frusta_ s) i) as [f Hf]; [lia |].
  rewrite (vector_at_lookup _ _ _ Hf). simpl. apply IH. simpl. lia.
Qed.

Lemma scene_closed_form (s : MultiStaticCameraGLState) :
  DrawCameraFrustaAndTSDFGrid (DrawWorldAxes s)
  = Returns (gl_many (scene_calls (free_camera_ s) (length (depth_camera_frusta_ s))) s).
Proof.
  unfold DrawCameraFrustaAndTSDFGrid, DrawWorldAxes.
  rewrite draw_frusta_closed_form by (simpl; lia). simpl.
  unfold scene_calls. rewrite !gl_many_app. reflexivity.
Qed.

Lemma DrawFullscreenRaycast_closed_form (FLAGS_adaptive_raycast : bool)
  (s : MultiStaticCameraGLState) :
  DrawFullscreenRaycast FLAGS_adaptive_raycast s
  = gl_many fullscreen_calls
      (if tsdf_is_dirty_ s then update_free_camera_view FLAGS_adaptive_raycast s else s).
Proof. reflexivity. Qed.

Lemma tile_S (sz : Vector2i) (k : nat) :
  tile sz (S k) = translate (tile sz k) {| Vector2i_x := Vector2i_x sz; Vector2i_y := 0 |}.
Proof. reflexivity. Qed.

Lemma draw_depth_tiles_loop_closed_form (sz : Vector2i) (todo i : nat)
  (s : MultiStaticCameraGLState) :
  i + todo <= length (raw_depth_textures_ s) ->
  i + todo <= length (undistorted_depth_textures_ s) ->
  exists r,
    draw_depth_tiles_loop sz todo i (tile sz (2 * i)) s
    = Returns (set_gl_viewport r (gl_many (flat_map (tile_calls sz) (seq i todo)) s)).
Proof.
  revert i s. induction todo as [| todo IH]; intros i s H1 H2.
  - exists (gl_viewport s). simpl. now destruct s.
  - destruct (lookup_lt_is_Some_2 (raw_depth_textures_ s) i) as [raw Hraw]; [lia |].
    destruct (lookup_lt_is_Some_2 (undistorted_depth_textures_ s) i) as [tex Htex]; [lia |].
    cbn [draw_depth_tiles_loop]. unfold draw_depth_tiles, GLUtilities_setViewport.
    cbn [raw_depth_textures_ undistorted_depth_textures_ set_gl_viewport gl].
    rewrite (vector_at_lookup _ _ _ Hraw). cbn [mbind outcome_bind].
    cbn [raw_depth_textures_ undistorted_depth_textures_ set_gl_viewport gl].
    rewrite (vector_at_lookup _ _ _ Htex). cbn [mbind outcome_bind mret outcome_ret].
    rewrite <- !tile_S. replace (S (S (2 * i))) with (2 * S i) by lia.
    match goal with
    | |- context [draw_depth_tiles_loop sz todo (S i) _ ?s1] => set (s1' := s1)
    end.
    assert (Hs1 : s1' = set_gl_viewport (tile sz (S (2 * i)))
                          (gl_many (tile_calls sz i) s)) by reflexivity.
    destruct (IH (S i) s1') as [r Hr]; [simpl; lia | simpl; lia |].
    exists r. rewrite Hr, Hs1, set_gl_viewport_gl_many. reflexivity.
Qed.

Lemma set_gl_viewport_same (cs : list GLCall) (s : MultiStaticCameraGLState) :
  set_gl_viewport (gl_viewport s) (gl_many cs s) = gl_many cs s.
Proof.
  rewrite <- set_gl_viewport_gl_many. f_equal. now destruct s.
Qed.

Lemma draw_depth_tiles_loop_Returns (sz : Vector2i) (todo i : nat) (r : Rect2i)
  (s s' : MultiStaticCameraGLState) :
  draw_depth_tiles_loop sz todo i r s = Returns s' ->
  todo = 0 \/ i + todo <= length (undistorted_depth_textures_ s).
Proof.
  revert i r s. induction todo as [| todo IH]; intros i r s H; [now left |].
  right. cbn [draw_depth_tiles_loop] in H.
  apply bind_Returns in H. destruct H as ([s1 r1] & H1 & H).
  unfold draw_depth_tiles in H1.
  apply bind_Returns in H1. destruct H1 as (raw & Hraw & H1).
  apply bind_Returns in H1. destruct H1 as (tex & Htex & H1).
  apply vector_at_Returns, lookup_lt_Some in Htex. simpl in Htex.
  injection H1 as <- <-. apply IH in H. simpl in H. lia.
Qed.

Lemma DrawInputsAndIntermediates_closed_form (s : MultiStaticCameraGLState)
  (t0 : Texture) :
  raw_depth_textures_ s !! 0 = Some t0 ->
  length (raw_depth_textures_ s) <= length (undistorted_depth_textures_ s) ->
  DrawInputsAndIntermediates s
  = Returns (gl_many (depth_tiles_calls (texture_size t0)
                        (length (raw_depth_textures_ s)) (gl_viewport s)) s).
Proof.
  intros H0 Hlen. unfold DrawInputsAndIntermediates.
  cbn [raw_depth_textures_ gl gl_viewport].
  rewrite (vector_at_lookup _ _ _ H0). cbn [mbind outcome_bind].
  match goal with
  | |- context [draw_depth_tiles_loop ?sz ?n 0 ?r ?s1] =>
      destruct (draw_depth_tiles_loop_closed_form sz n 0 s1) as [r' Hr];
        [simpl; lia | simpl; lia |];
      change r with (tile sz (2 * 0)); rewrite Hr
  end.
  cbn [mbind outcome_bind mret outcome_ret]. f_equal.
  rewrite <- (set_gl_viewport_same _ s). unfold depth_tiles_calls.
  rewrite !gl_many_app. reflexivity.
Qed.

Lemma DrawInputsAndIntermediates_Returns (s s' : MultiStaticCameraGLState) :
  DrawInputsAndIntermediates s = Returns s' ->
  exists t0,
    raw_depth_textures_ s !! 0 = Some t0 /\
    length (raw_depth_textures_ s) <= length (undistorted_depth_textures_ s) /\
    s' = gl_many (depth_tiles_calls (texture_size t0)
                    (length (raw_depth_textures_ s)) (gl_viewport s)) s.
Proof.
  intros H. pose proof H as H'. unfold DrawInputsAndIntermediates in H'.
  apply bind_Returns in H'. destruct H' as (t0 & H0 & H').
  apply vector_at_Returns in H0. simpl in H0.
  apply bind_Returns in H'. destruct H' as (s1 & Hloop & _).
  apply draw_depth_tiles_loop_Returns in Hloop. simpl in Hloop.
  assert (Hlen : length (raw_depth_textures_ s) <= length (undistorted_depth_textures_ s)).
  { destruct Hloop as [Hz | Hle]; [| exact Hle].
    apply lookup_lt_Some in H0. lia. }
  exists t0. split; [assumption |]. split; [assumption |].
  rewrite (DrawInputsAndIntermediates_closed_form s t0 H0 Hlen) in H. now injection H.
Qed.

(** ** Render, step by step *)

Lemma with_view_congruence (FLAGS_adaptive_raycast : bool)
  (a b : MultiStaticCameraGLState) :
  view_of a = view_of b ->
  view_of (with_view FLAGS_adaptive_raycast a)
  = view_of (with_view FLAGS_adaptive_raycast b).
Proof.
  intros H. pose proof H as H'.
  unfold view_of in H'. injection H' as Hp Hpos Hnor Hpt Hnt Hc Hd Hw.
  unfold with_view. rewrite Hd. destruct (tsdf_is_dirty_ b); [| exact H].
  unfold update_free_camera_view. rewrite Hp, Hpos, Hnor, Hc.
  destruct (Raycast _ _ _ _ _) as [[p points] normals]. unfold view_of. simpl.
  now rewrite Hpt, Hnt, Hw, Hc.
Qed.

Lemma objects_of_eq (a b : MultiStaticCameraGLState) :
  objects_of a = objects_of b ->
  depth_camera_frusta_ a = depth_camera_frusta_ b /\
  raw_depth_textures_ a = raw_depth_textures_ b /\
  undistorted_depth_textures_ a = undistorted_depth_textures_ b.
Proof. unfold objects_of. intros H. injection H as Hf Hr Hu. repeat split; assumption. Qed.

Lemma with_view_context (FLAGS_adaptive_raycast : bool) (s : MultiStaticCameraGLState) :
  objects_of (with_view FLAGS_adaptive_raycast s) = objects_of s /\
  gl_viewport (with_view FLAGS_adaptive_raycast s) = gl_viewport s /\
  gl_calls (with_view FLAGS_adaptive_raycast s) = gl_calls s.
Proof.
  unfold with_view, update_free_camera_view. destruct (tsdf_is_dirty_ s); [| repeat split; reflexivity].
  destruct (Raycast _ _ _ _ _) as [[p points] normals]. repeat split; reflexivity.
Qed.

Lemma with_camera_context (free_camera : PerspectiveCamera)
  (s : MultiStaticCameraGLState) :
  objects_of (with_camera free_camera s) = objects_of s /\
  gl_viewport (with_camera free_camera s) = gl_viewport s /\
  gl_calls (with_camera free_camera s) = gl_calls s.
Proof.
  unfold with_camera. destruct (PerspectiveCamera_neq _ _); repeat split; reflexivity.
Qed.

Lemma bind_congruence {A B : Type} (m : outcome A) (f g : A -> outcome B) :
  (forall a, m = Returns a -> f a = g a) -> (a ← m; f a) = (a ← m; g a).
Proof. intros H. destruct m as [a | e |]; [apply H | |]; reflexivity. Qed.

Lemma Render_unfold (FLAGS_adaptive_raycast : bool) (free_camera : PerspectiveCamera)
  (s : MultiStaticCameraGLState) :
  Render FLAGS_adaptive_raycast free_camera s
  = (sA ← upload_depths (int_size (raw_depth_textures_ s)) 0 (with_camera free_camera s);
     sB ← update_frusta (int_size (depth_camera_frusta_ s)) 0 sA;
     DrawInputsAndIntermediates
       (gl_many fullscreen_calls
          (with_view FLAGS_adaptive_raycast
             (gl_many (scene_calls (free_camera_ sB) (length (depth_camera_frusta_ sB)))
                sB)))).
Proof.
  destruct (with_camera_context free_camera s) as (Hobj & _).
  apply objects_of_eq in Hobj. destruct Hobj as (Hf0 & Hr0 & _).
  rewrite <- Hr0 at 1.
  apply bind_congruence. intros sA HA.
  pose proof (upload_depths_Returns _ _ _ _ HA) as (_ & HfA & _).
  rewrite <- Hf0, <- HfA.
  apply bind_congruence. intros sB _.
  cbv zeta. rewrite scene_closed_form.
  cbn [mbind outcome_bind kDrawUnprojectedPointCloud kDrawFullscreenRaycast mret
         outcome_ret].
  rewrite DrawFullscreenRaycast_closed_form.
  reflexivity.
Qed.

(** The state in which [Render] starts to draw. *)
Lemma drawing_context (FLAGS_adaptive_raycast : bool) (camera : PerspectiveCamera)
  (n : nat) (s : MultiStaticCameraGLState) :
  objects_of (gl_many fullscreen_calls
                (with_view FLAGS_adaptive_raycast (gl_many (scene_calls camera n) s)))
  = objects_of s /\
  gl_viewport (gl_many fullscreen_calls
                 (with_view FLAGS_adaptive_raycast (gl_many (scene_calls camera n) s)))
  = gl_viewport s /\
  gl_calls (gl_many fullscreen_calls
              (with_view FLAGS_adaptive_raycast (gl_many (scene_calls camera n) s)))
  = gl_calls s ++ scene_calls camera n ++ fullscreen_calls /\
  view_of (gl_many fullscreen_calls
             (with_view FLAGS_adaptive_raycast (gl_many (scene_calls camera n) s)))
  = view_of (with_view FLAGS_adaptive_raycast (gl_many (scene_calls camera n) s)).
Proof.
  destruct (gl_many_projections fullscreen_calls
              (with_view FLAGS_adaptive_raycast (gl_many (scene_calls camera n) s)))
    as (Hv & Ho & Hvp & Hc).
  destruct (with_view_context FLAGS_adaptive_raycast (gl_many (scene_calls camera n) s))
    as (Ho' & Hvp' & Hc').
  destruct (gl_many_projections (scene_calls camera n) s) as (_ & Ho'' & Hvp'' & Hc'').
  rewrite Ho, Ho', Ho'', Hvp, Hvp', Hvp'', Hc, Hc', Hc'', Hv, <- app_assoc.
  repeat split; reflexivity.
Qed.

Lemma Render_Returns (FLAGS_adaptive_raycast : bool) (free_camera : PerspectiveCamera)
  (s s' : MultiStaticCameraGLState) :
  Render FLAGS_adaptive_raycast free_camera s = Returns s' ->
  exists sA sB t0,
    upload_depths (int_size (raw_depth_textures_ s)) 0 (with_camera free_camera s)
    = Returns sA /\
    update_frusta (int_size (depth_camera_frusta_ s)) 0 sA = Returns sB /\
    raw_depth_textures_ sB !! 0 = Some t0 /\
    length (raw_depth_textures_ sB) <= length (undistorted_depth_textures_ sB) /\
    s' = gl_many
           (depth_tiles_calls (texture_size t0) (length (raw_depth_textures_ sB))
              (gl_viewport s))
           (gl_many fullscreen_calls
              (with_view FLAGS_adaptive_raycast
                 (gl_many
                    (scene_calls (free_camera_ (with_camera free_camera s))
                       (length (depth_camera_frusta_ s))) sB))).
Proof.
  intros H. rewrite Render_unfold in H.
  apply bind_Returns in H. destruct H as (sA & HA & H).
  apply bind_Returns in H. destruct H as (sB & HB & H).
  apply DrawInputsAndIntermediates_Returns in H. destruct H as (t0 & H0 & Hlen & ->).
  destruct (with_camera_context free_camera s) as (Hobj0 & Hvp0 & _).
  apply objects_of_eq in Hobj0. destruct Hobj0 as (Hf0 & _ & _).
  pose proof (upload_depths_Returns _ _ _ _ HA) as (HvA & HfA & HvpA & _).
  pose proof (update_frusta_Returns _ _ _ _ HB) as (HvB & _ & _ & HvpB & _ & HlenB & _).
  assert (Hcam : free_camera_ sB = free_camera_ (with_camera free_camera s)).
  { change (view_camera (view_of sB) = view_camera (view_of (with_camera free_camera s))).
    rewrite HvB, HvA. reflexivity. }
  rewrite HlenB, HfA, Hf0, Hcam in *.
  destruct (drawing_context FLAGS_adaptive_raycast
              (free_camera_ (with_camera free_camera s))
              (length (depth_camera_frusta_ s)) sB) as (Hobj & Hvp & _).
  apply objects_of_eq in Hobj. destruct Hobj as (_ & Hr & Hu).
  rewrite Hr in H0. rewrite Hr, Hu in Hlen. rewrite Hr, Hvp, HvpB, HvpA, Hvp0.
  exists sA, sB, t0.
  do 4 (split; [assumption |]). reflexivity.
Qed.


Lemma view_of_eq (a b : MultiStaticCameraGLState) :
  view_of a = view_of b ->
  pipeline_ a = pipeline_ b /\
  free_camera_world_positions_ a = free_camera_world_positions_ b /\
  free_camera_world_normals_ a = free_camera_world_normals_ b /\
  free_camera_world_positions_tex_ a = free_camera_world_positions_tex_ b /\
  free_camera_world_normals_tex_ a = free_camera_world_normals_tex_ b /\
  free_camera_ a = free_camera_ b /\
  tsdf_is_dirty_ a = tsdf_is_dirty_ b /\
  window_size_ a = window_size_ b.
Proof.
  unfold view_of. intros H. injection H as Hp Hpos Hnor Hpt Hnt Hc Hd Hw.
  repeat split; assumption.
Qed.

(** What the raycast of a dirty view leaves. *)
Lemma with_view_dirty (FLAGS_adaptive_raycast : bool) (s : MultiStaticCameraGLState) :
  tsdf_is_dirty_ s = true ->
  Raycast FLAGS_adaptive_raycast (free_camera_ s) (free_camera_world_positions_ s)
    (free_camera_world_normals_ s) (pipeline_ s)
  = (pipeline_ (with_view FLAGS_adaptive_raycast s),
     free_camera_world_positions_ (with_view FLAGS_adaptive_raycast s),
     free_camera_world_normals_ (with_view FLAGS_adaptive_raycast s)) /\
  free_camera_world_positions_tex_ (with_view FLAGS_adaptive_raycast s)
  = Texture_fill (DevicePixels (free_camera_world_positions_
                                  (with_view FLAGS_adaptive_raycast s)))
      (free_camera_world_positions_tex_ s) /\
  free_camera_world_normals_tex_ (with_view FLAGS_adaptive_raycast s)
  = Texture_fill (DevicePixels (free_camera_world_normals_
                                  (with_view FLAGS_adaptive_raycast s)))
      (free_camera_world_normals_tex_ s) /\
  free_camera_ (with_view FLAGS_adaptive_raycast s) = free_camera_ s /\
  tsdf_is_dirty_ (with_view FLAGS_adaptive_raycast s) = false /\
  window_size_ (with_view FLAGS_adaptive_raycast s) = window_size_ s.
Proof.
  intros Hd. unfold with_view. rewrite Hd. unfold update_free_camera_view.
  destruct (Raycast _ _ _ _ _) as [[p points] normals]. repeat split; reflexivity.
Qed.

Lemma with_view_clean (FLAGS_adaptive_raycast : bool) (s : MultiStaticCameraGLState) :
  tsdf_is_dirty_ s = false -> with_view FLAGS_adaptive_raycast s = s.
Proof. intros Hd. unfold with_view. rewrite Hd. reflexivity. Qed.

Lemma with_camera_differs (free_camera : PerspectiveCamera)
  (s : MultiStaticCameraGLState) :
  PerspectiveCamera_neq free_camera (free_camera_ s) = true ->
  with_camera free_camera s = set_tsdf_is_dirty true (set_free_camera free_camera s).
Proof. intros H. unfold with_camera. rewrite H. reflexivity. Qed.

Lemma with_camera_same (free_camera : PerspectiveCamera) (s : MultiStaticCameraGLState) :
  PerspectiveCamera_neq free_camera (free_camera_ s) = false ->
  with_camera free_camera s = s.
Proof. intros H. unfold with_camera. rewrite H. reflexivity. Qed.

(** The view after [Render]: the view of the state after the test of the
    camera and the raycast of a dirty view; the rest of [Render] keeps it. *)
Lemma Render_view (FLAGS_adaptive_raycast : bool) (free_camera : PerspectiveCamera)
  (s s' : MultiStaticCameraGLState) :
  Render FLAGS_adaptive_raycast free_camera s = Returns s' ->
  view_of s' = view_of (with_view FLAGS_adaptive_raycast (with_camera free_camera s)).
Proof.
  intros H. apply Render_Returns in H.
  destruct H as (sA & sB & t0 & HA & HB & _ & _ & ->).
  apply upload_depths_Returns in HA. destruct HA as (HvA & _).
  apply update_frusta_Returns in HB. destruct HB as (HvB & _).
  destruct (gl_many_projections
              (depth_tiles_calls (texture_size t0) (length (raw_depth_textures_ sB))
                 (gl_viewport s))
              (gl_many fullscreen_calls
                 (with_view FLAGS_adaptive_raycast
                    (gl_many
                       (scene_calls (free_camera_ (with_camera free_camera s))
                          (length (depth_camera_frusta_ s))) sB)))) as (Hv & _).
  rewrite Hv.
  destruct (drawing_context FLAGS_adaptive_raycast
              (free_camera_ (with_camera free_camera s))
              (length (depth_camera_frusta_ s)) sB) as (_ & _ & _ & Hv').
  rewrite Hv'. apply with_view_congruence.
  destruct (gl_many_projections
              (scene_calls (free_camera_ (with_camera free_camera s))
                 (length (depth_camera_frusta_ s))) sB) as (Hv'' & _).
  rewrite Hv'', HvB, HvA. reflexivity.
Qed.

(** X12: [Render] raycasts the volume exactly when the view is dirty or the
    camera given differs from the stored one. It then raycasts from the
    camera given into the two view buffers, copies them into the two view
    textures and clears the flag; otherwise the pipeline, the buffers and the
    textures of the view are left as they were. Either way the flag is clear
    when [Render] returns, and the window size is untouched. *)
Theorem Render_raycasts_when_needed (FLAGS_adaptive_raycast : bool)
  (free_camera : PerspectiveCamera) (s s' : MultiStaticCameraGLState) :
  Render FLAGS_adaptive_raycast free_camera s = Returns s' ->
  tsdf_is_dirty_ s' = false /\
  window_size_ s' = window_size_ s /\
  (PerspectiveCamera_neq free_camera (free_camera_ s) = true ->
   free_camera_ s' = free_camera /\
   Raycast FLAGS_adaptive_raycast free_camera (free_camera_world_positions_ s)
     (free_camera_world_normals_ s) (pipeline_ s)
   = (pipeline_ s', free_camera_world_positions_ s', free_camera_world_normals_ s')) /\
  (PerspectiveCamera_neq free_camera (free_camera_ s) = false ->
   tsdf_is_dirty_ s = true ->
   free_camera_ s' = free_camera_ s /\
   Raycast FLAGS_adaptive_raycast (free_camera_ s) (free_camera_world_positions_ s)
     (free_camera_world_normals_ s) (pipeline_ s)
   = (pipeline_ s', free_camera_world_positions_ s', free_camera_world_normals_ s')) /\
  (PerspectiveCamera_neq free_camera (free_camera_ s) = true \/ tsdf_is_dirty_ s = true ->
   free_camera_world_positions_tex_ s'
   = Texture_fill (DevicePixels (free_camera_world_positions_ s'))
       (free_camera_world_positions_tex_ s) /\
   free_camera_world_normals_tex_ s'
   = Texture_fill (DevicePixels (free_camera_world_normals_ s'))
       (free_camera_world_normals_tex_ s)) /\
  (PerspectiveCamera_neq free_camera (free_camera_ s) = false ->
   tsdf_is_dirty_ s = false ->
   view_of s' = view_of s).
Proof.
  intros H. apply Render_view in H. pose proof (view_of_eq _ _ H) as Hfields.
  destruct Hfields as (Hp & Hpos & Hnor & Hpt & Hnt & Hc & Hd & Hw).
  rewrite Hp, Hpos, Hnor, Hpt, Hnt, Hc, Hd, Hw. clear Hp Hpos Hnor Hpt Hnt Hc Hd Hw.
  destruct (PerspectiveCamera_neq free_camera (free_camera_ s)) eqn:Hneq.
  - rewrite (with_camera_differs _ _ Hneq).
    destruct (with_view_dirty FLAGS_adaptive_raycast
                (set_tsdf_is_dirty true (set_free_camera free_camera s)) eq_refl)
      as (HR & Hpt & Hnt & Hc & Hd & Hw).
    rewrite Hd, Hw, Hc. split; [reflexivity |]. split; [reflexivity |].
    split; [intros _; split; [reflexivity | exact HR] |].
    split; [intros; discriminate |].
    split; [intros _; split; [exact Hpt | exact Hnt] |].
    intros; discriminate.
  - rewrite (with_camera_same _ _ Hneq) in *.
    destruct (tsdf_is_dirty_ s) eqn:Hdirty.
    + destruct (with_view_dirty FLAGS_adaptive_raycast s Hdirty)
        as (HR & Hpt & Hnt & Hc & Hd & Hw).
      rewrite Hd, Hw, Hc. split; [reflexivity |]. split; [reflexivity |].
      split; [intros; discriminate |].
      split; [intros _ _; split; [reflexivity | exact HR] |].
      split; [intros _; split; [exact Hpt | exact Hnt] |].
      intros; discriminate.
    + rewrite (with_view_clean _ _ Hdirty) in *. rewrite Hdirty.
      split; [reflexivity |]. split; [reflexivity |].
      split; [intros; discriminate |].
      split; [intros; discriminate |].
      split; [intros [? | ?]; discriminate |].
      intros _ _. exact H.
Qed.

(** X13: the raycast view is cached. With a camera comparison under which no
    camera differs from itself, a second [Render] with the same camera right
    after a [Render] returns leaves the whole view as the first one left it:
    no raycast, no change of the pipeline; and [NotifyTSDFUpdated] between
    the two makes the second one raycast again, from the stored camera. *)
Theorem raycast_view_is_cached {laws : CameraLaws} (FLAGS_adaptive_raycast : bool)
  (free_camera : PerspectiveCamera) (s s1 : MultiStaticCameraGLState) :
  Render FLAGS_adaptive_raycast free_camera s = Returns s1 ->
  (forall s2,
     Render FLAGS_adaptive_raycast free_camera s1 = Returns s2 ->
     view_of s2 = view_of s1) /\
  (forall s2,
     Render FLAGS_adaptive_raycast free_camera (NotifyTSDFUpdated s1) = Returns s2 ->
     Raycast FLAGS_adaptive_raycast (free_camera_ s1) (free_camera_world_positions_ s1)
       (free_camera_world_normals_ s1) (pipeline_ s1)
     = (pipeline_ s2, free_camera_world_positions_ s2, free_camera_world_normals_ s2)).
Proof.
  intros H1. apply Render_view in H1.
  assert (Hclean : tsdf_is_dirty_ s1 = false
                   /\ PerspectiveCamera_neq free_camera (free_camera_ s1) = false).
  { destruct (view_of_eq _ _ H1) as (_ & _ & _ & _ & _ & Hc & Hd & _).
    rewrite Hc, Hd. clear Hc Hd H1.
    destruct (PerspectiveCamera_neq free_camera (free_camera_ s)) eqn:Hneq.
    - rewrite (with_camera_differs _ _ Hneq).
      destruct (with_view_dirty FLAGS_adaptive_raycast
                  (set_tsdf_is_dirty true (set_free_camera free_camera s)) eq_refl)
        as (_ & _ & _ & Hc & Hd & _).
      rewrite Hc, Hd. split; [reflexivity | apply PerspectiveCamera_neq_same].
    - rewrite (with_camera_same _ _ Hneq).
      destruct (tsdf_is_dirty_ s) eqn:Hdirty.
      + destruct (with_view_dirty FLAGS_adaptive_raycast s Hdirty)
          as (_ & _ & _ & Hc & Hd & _).
        rewrite Hc, Hd. split; [reflexivity | exact Hneq].
      + rewrite (with_view_clean _ _ Hdirty). split; assumption. }
  destruct Hclean as [Hd Hneq]. split; intros s2 H2; apply Render_view in H2.
  - rewrite H2, (with_camera_same _ _ Hneq), (with_view_clean _ _ Hd). reflexivity.
  - assert (Hneq' : PerspectiveCamera_neq free_camera
                      (free_camera_ (NotifyTSDFUpdated s1)) = false) by exact Hneq.
    rewrite (with_camera_same _ _ Hneq') in H2.
    destruct (view_of_eq _ _ H2) as (Hp & Hpos & Hnor & _).
    rewrite Hp, Hpos, Hnor.
    destruct (with_view_dirty FLAGS_adaptive_raycast (NotifyTSDFUpdated s1) eq_refl)
      as (HR & _).
    exact HR.
Qed.

(** X14: [Resize] does not mark the view dirty. It resizes the two view
    buffers and replaces the two view textures by new ones of the window's
    size, and a [Render] after it with a clean flag and an unchanged camera
    does not raycast: it draws the new texture, which nothing has filled. *)
Theorem Resize_leaves_the_view_unfilled (FLAGS_adaptive_raycast : bool)
  (free_camera : PerspectiveCamera) (size : Vector2i)
  (s s' : MultiStaticCameraGLState) :
  tsdf_is_dirty_ s = false ->
  PerspectiveCamera_neq free_camera (free_camera_ s) = false ->
  Render FLAGS_adaptive_raycast free_camera (Resize size s) = Returns s' ->
  window_size_ s' = size /\
  pipeline_ s' = pipeline_ s /\
  free_camera_world_positions_ s'
  = DeviceArray2D_resize (@float4 float)
      (Vector2i_div size kFullscreenRaycastDownsampleFactor)
      (free_camera_world_positions_ s) /\
  free_camera_world_normals_ s'
  = DeviceArray2D_resize (@float4 float)
      (Vector2i_div size kFullscreenRaycastDownsampleFactor)
      (free_camera_world_normals_ s) /\
  free_camera_world_positions_tex_ s'
  = Texture_new (Vector2i_div size kFullscreenRaycastDownsampleFactor) RGBA32F /\
  free_camera_world_normals_tex_ s'
  = Texture_new (Vector2i_div size kFullscreenRaycastDownsampleFactor) RGBA32F /\
  texture_content (free_camera_world_positions_tex_ s') = NoContent /\
  texture_content (free_camera_world_normals_tex_ s') = NoContent /\
  free_camera_ s' = free_camera_ s /\
  tsdf_is_dirty_ s' = false.
Proof.
  intros Hd Hneq H. apply Render_view in H.
  assert (Hneq' : PerspectiveCamera_neq free_camera (free_camera_ (Resize size s)) = false)
    by exact Hneq.
  assert (Hd' : tsdf_is_dirty_ (Resize size s) = false) by exact Hd.
  rewrite (with_camera_same _ _ Hneq'), (with_view_clean _ _ Hd') in H.
  destruct (view_of_eq _ _ H) as (Hp & Hpos & Hnor & Hpt & Hnt & Hc & Hdirty & Hw).
  rewrite Hp, Hpos, Hnor, Hpt, Hnt, Hc, Hdirty, Hw, Hd'. repeat split; reflexivity.
Qed.

Lemma int_size_small {A : Type} (v : list A) :
  (Z.of_nat (length v) < 2 ^ 31)%Z -> int_size v = length v.
Proof.
  intros H. unfold int_size, static_cast_int.
  rewrite Z.mod_small by lia. lia.
Qed.

(** [Render] returns on a viewer with its objects for every camera of a
    pipeline in which every camera has its buffers and a pose. *)
Lemma Render_in_range (FLAGS_adaptive_raycast : bool) (free_camera : PerspectiveCamera)
  (s : MultiStaticCameraGLState) :
  buffers_per_camera (pipeline_ s) -> pose_per_camera (pipeline_ s) ->
  length (raw_depth_textures_ s) = length (camera_params_ (pipeline_ s)) ->
  length (undistorted_depth_textures_ s) = length (camera_params_ (pipeline_ s)) ->
  length (depth_camera_frusta_ s) = length (camera_params_ (pipeline_ s)) ->
  0 < length (camera_params_ (pipeline_ s)) ->
  (Z.of_nat (length (camera_params_ (pipeline_ s))) < 2 ^ 31)%Z ->
  exists s', Render FLAGS_adaptive_raycast free_camera s = Returns s'.
Proof.
  intros (Hin & _ & _ & Hund) Hposes Hraw Htex Hfru Hpos Hsmall.
  unfold pose_per_camera in Hposes.
  remember (length (camera_params_ (pipeline_ s))) as n eqn:Hn.
  destruct (with_camera_context free_camera s) as (Hobj0 & _).
  apply objects_of_eq in Hobj0. destruct Hobj0 as (Hf0 & Hr0 & Hu0).
  assert (Hp0 : pipeline_ (with_camera free_camera s) = pipeline_ s).
  { unfold with_camera. destruct (PerspectiveCamera_neq _ _); reflexivity. }
  destruct (upload_depths_in_range n 0 (with_camera free_camera s)) as [sA HA];
    [rewrite Hr0; simpl; lia | rewrite Hu0; simpl; lia | rewrite Hp0; simpl; lia
    | rewrite Hp0; simpl; lia |].
  pose proof (upload_depths_Returns _ _ _ _ HA) as (HvA & HfA & _ & _ & HrsA & HusA & _).
  assert (HpA : pipeline_ sA = pipeline_ s).
  { destruct (view_of_eq _ _ HvA) as (Hp & _). rewrite Hp. exact Hp0. }
  destruct (update_frusta_in_range n 0 sA) as [sB HB];
    [rewrite HfA, Hf0; simpl; lia | rewrite HpA, <- Hn; simpl; lia
    | rewrite HpA; simpl; lia |].
  pose proof (update_frusta_Returns _ _ _ _ HB) as (_ & HrB & HuB & _).
  assert (Hlr : length (raw_depth_textures_ sB) = n).
  { rewrite HrB, <- (length_fmap texture_size), HrsA, length_fmap, Hr0. exact Hraw. }
  assert (Hlu : length (undistorted_depth_textures_ sB) = n).
  { rewrite HuB, <- (length_fmap texture_size), HusA, length_fmap, Hu0. exact Htex. }
  destruct (lookup_lt_is_Some_2 (raw_depth_textures_ sB) 0) as [t0 H0]; [lia |].
  destruct (drawing_context FLAGS_adaptive_raycast (free_camera_ sB)
              (length (depth_camera_frusta_ sB)) sB) as (Hobj & _).
  apply objects_of_eq in Hobj. destruct Hobj as (_ & HrD & HuD).
  remember (gl_many fullscreen_calls
              (with_view FLAGS_adaptive_raycast
                 (gl_many (scene_calls (free_camera_ sB)
                             (length (depth_camera_frusta_ sB))) sB))) as sD eqn:HsD.
  exists (gl_many (depth_tiles_calls (texture_size t0) (length (raw_depth_textures_ sD))
                     (gl_viewport sD)) sD).
  rewrite Render_unfold.
  rewrite (int_size_small (raw_depth_textures_ s)) by (rewrite Hraw; exact Hsmall).
  rewrite (int_size_small (depth_camera_frusta_ s)) by (rewrite Hfru; exact Hsmall).
  rewrite Hraw, Hfru, HA. cbn [mbind outcome_bind]. rewrite HB.
  cbn [mbind outcome_bind]. rewrite <- HsD.
  apply DrawInputsAndIntermediates_closed_form.
  - rewrite HrD. exact H0.
  - rewrite HrD, HuD, Hlr, Hlu. reflexivity.
Qed.

(** X15: [Render] refreshes every camera's objects from the pipeline. On a
    viewer with one raw depth texture, one undistorted depth texture and one
    frustum per camera, over a pipeline in which every camera has its buffers
    and a pose, [Render] returns, and then for every camera [k] the raw depth
    texture [k] holds the depth of [GetInputBuffer(k)], the undistorted depth
    texture [k] holds [GetUndistortedDepthMap(k)], and frustum [k] stands at
    [GetDepthCamera(k)], all as the pipeline answered before the call. *)
Theorem Render_refreshes_every_camera (FLAGS_adaptive_raycast : bool)
  (free_camera : PerspectiveCamera) (s : MultiStaticCameraGLState) :
  buffers_per_camera (pipeline_ s) -> pose_per_camera (pipeline_ s) ->
  length (raw_depth_textures_ s) = length (camera_params_ (pipeline_ s)) ->
  length (undistorted_depth_textures_ s) = length (camera_params_ (pipeline_ s)) ->
  length (depth_camera_frusta_ s) = length (camera_params_ (pipeline_ s)) ->
  0 < length (camera_params_ (pipeline_ s)) ->
  (Z.of_nat (length (camera_params_ (pipeline_ s))) < 2 ^ 31)%Z ->
  exists s',
    Render FLAGS_adaptive_raycast free_camera s = Returns s' /\
    forall k : nat, k < length (camera_params_ (pipeline_ s)) ->
      exists input undistorted camera,
        GetInputBuffer (Z.of_nat k) (pipeline_ s) = Returns input /\
        GetUndistortedDepthMap (Z.of_nat k) (pipeline_ s) = Returns undistorted /\
        GetDepthCamera (Z.of_nat k) (pipeline_ s) = Returns camera /\
        texture_content <$> raw_depth_textures_ s' !! k
        = Some (HostDepth (depth_meters input)) /\
        texture_content <$> undistorted_depth_textures_ s' !! k
        = Some (DeviceDepth undistorted) /\
        depth_camera_frusta_ s' !! k = Some {| frustum_camera := Some camera |}.
Proof.
  intros Hbuffers Hposes Hraw Htex Hfru Hpos Hsmall.
  destruct (Render_in_range FLAGS_adaptive_raycast free_camera s
              Hbuffers Hposes Hraw Htex Hfru Hpos Hsmall) as [s' Hs'].
  exists s'. split; [exact Hs' |].
  destruct (Render_Returns _ _ _ _ Hs') as (sA & sB & t0 & HA & HB & _ & _ & ->).
  rewrite (int_size_small (raw_depth_textures_ s)) in HA by (rewrite Hraw; exact Hsmall).
  rewrite (int_size_small (depth_camera_frusta_ s)) in HB by (rewrite Hfru; exact Hsmall).
  assert (Hp0 : pipeline_ (with_camera free_camera s) = pipeline_ s).
  { unfold with_camera. destruct (PerspectiveCamera_neq _ _); reflexivity. }
  pose proof (upload_depths_Returns _ _ _ _ HA) as (HvA & _ & _ & _ & _ & _ & _ & HfilledA).
  assert (HpA : pipeline_ sA = pipeline_ s).
  { destruct (view_of_eq _ _ HvA) as (Hp & _). rewrite Hp. exact Hp0. }
  pose proof (update_frusta_Returns _ _ _ _ HB) as (_ & HrB & HuB & _ & _ & _ & _ & HsetB).
  destruct (drawing_context FLAGS_adaptive_raycast
              (free_camera_ (with_camera free_camera s))
              (length (depth_camera_frusta_ s)) sB) as (Hobj & _).
  apply objects_of_eq in Hobj. destruct Hobj as (HfD & HrD & HuD).
  remember (gl_many fullscreen_calls
              (with_view FLAGS_adaptive_raycast
                 (gl_many (scene_calls (free_camera_ (with_camera free_camera s))
                             (length (depth_camera_frusta_ s))) sB))) as sD eqn:HsD.
  destruct (gl_many_projections
              (depth_tiles_calls (texture_size t0) (length (raw_depth_textures_ sB))
                 (gl_viewport s)) sD) as (_ & Hobj & _).
  apply objects_of_eq in Hobj. destruct Hobj as (HfE & HrE & HuE).
  intros k Hk.
  destruct (HfilledA k) as (input & und & HI & HU & Hrc & Huc); [rewrite Hraw; simpl; lia |].
  destruct (HsetB k) as (camera & HC & Hfk); [rewrite Hfru; simpl; lia |].
  rewrite Hp0 in HI, HU. rewrite HpA in HC.
  exists input, und, camera.
  rewrite HfE, HrE, HuE, HfD, HrD, HuD, HrB, HuB.
  do 5 (split; [assumption |]). assumption.
Qed.

(** The calls of a [Render] that returns. *)
Lemma Render_calls (FLAGS_adaptive_raycast : bool)
  (free_camera : PerspectiveCamera) (s s' : MultiStaticCameraGLState) :
  Render FLAGS_adaptive_raycast free_camera s = Returns s' ->
  exists t0 : Texture,
    raw_depth_textures_ s !! 0 = Some t0 /\
    free_camera_ s' = free_camera_ (with_camera free_camera s) /\
    gl_viewport s' = gl_viewport s /\
    gl_calls s'
    = gl_calls s
      ++ scene_calls (free_camera_ (with_camera free_camera s))
           (length (depth_camera_frusta_ s))
      ++ fullscreen_calls
      ++ depth_tiles_calls (texture_size t0) (length (raw_depth_textures_ s))
           (gl_viewport s).
Proof.
  intros H.
  assert (Hcam : free_camera_ s' = free_camera_ (with_camera free_camera s)).
  { destruct (view_of_eq _ _ (Render_view _ _ _ _ H)) as (_ & _ & _ & _ & _ & Hc & _).
    rewrite Hc. unfold with_view.
    destruct (tsdf_is_dirty_ (with_camera free_camera s)); [| reflexivity].
    unfold update_free_camera_view.
    destruct (Raycast _ _ _ _ _) as [[p points] normals]. reflexivity. }
  destruct (Render_Returns _ _ _ _ H) as (sA & sB & tB & HA & HB & H0 & _ & Hs').
  clear H.
  destruct (with_camera_context free_camera s) as (Hobj0 & Hvp0 & Hc0).
  apply objects_of_eq in Hobj0. destruct Hobj0 as (_ & Hr0 & _).
  pose proof (upload_depths_Returns _ _ _ _ HA) as (_ & _ & HvpA & HcA & HrsA & _).
  pose proof (update_frusta_Returns _ _ _ _ HB) as (_ & HrB & _ & HvpB & HcB & _).
  rewrite Hr0 in HrsA. rewrite HrB in H0, Hs'.
  assert (Hsize : texture_size <$> raw_depth_textures_ s !! 0 = Some (texture_size tB)).
  { rewrite <- list_lookup_fmap, <- HrsA, list_lookup_fmap, H0. reflexivity. }
  destruct (raw_depth_textures_ s !! 0) as [t0 |] eqn:Ht0; [| discriminate].
  injection Hsize as Hsize.
  assert (Hlen : length (raw_depth_textures_ sA) = length (raw_depth_textures_ s)).
  { rewrite <- (length_fmap texture_size), HrsA, length_fmap. reflexivity. }
  rewrite Hlen, <- Hsize in Hs'.
  exists t0. split; [reflexivity |]. split; [exact Hcam |].
  destruct (drawing_context FLAGS_adaptive_raycast
              (free_camera_ (with_camera free_camera s))
              (length (depth_camera_frusta_ s)) sB) as (_ & HvpD & HcD & _).
  remember (gl_many fullscreen_calls
              (with_view FLAGS_adaptive_raycast
                 (gl_many (scene_calls (free_camera_ (with_camera free_camera s))
                             (length (depth_camera_frusta_ s))) sB))) as sD eqn:HsD.
  destruct (gl_many_projections
              (depth_tiles_calls (texture_size t0) (length (raw_depth_textures_ s))
                 (gl_viewport s)) sD) as (_ & _ & HvpE & HcE).
  rewrite Hs', HvpE, HcE, HvpD, HcD, HvpB, HcB, HvpA, HcA, Hvp0, Hc0.
  split; [reflexivity |]. rewrite <- !app_assoc. reflexivity.
Qed.

(** X16: what [Render] asks of OpenGL. A [Render] that returns adds to the
    calls into OpenGL, in this order: the world axes, one frustum per entry
    of [depth_camera_frusta_] and the bounding box of the volume, drawn with
    the free camera's view-projection matrix; the full-screen normals; and
    for every raw depth texture two tiles of half the size of the first raw
    depth texture, side by side, the raw one then the undistorted one. The
    last calls set the viewport back to what it was and enable the depth
    test, and the viewport after [Render] is the one before. *)
Theorem Render_draws_in_order (FLAGS_adaptive_raycast : bool)
  (free_camera : PerspectiveCamera) (s s' : MultiStaticCameraGLState) :
  Render FLAGS_adaptive_raycast free_camera s = Returns s' ->
  exists t0 : Texture,
    raw_depth_textures_ s !! 0 = Some t0 /\
    gl_viewport s' = gl_viewport s /\
    gl_calls s'
    = gl_calls s
      ++ scene_calls (free_camera_ s') (length (depth_camera_frusta_ s))
      ++ fullscreen_calls
      ++ depth_tiles_calls (texture_size t0) (length (raw_depth_textures_ s))
           (gl_viewport s).
Proof.
  intros H. destruct (Render_calls _ _ _ _ H) as (t0 & H0 & Hcam & Hvp & Hcalls).
  exists t0. rewrite Hcam. repeat split; assumption.
Qed.

Lemma Forall_flat_map {A B : Type} (P : B -> Prop) (f : A -> list B) (l : list A) :
  (forall a, Forall P (f a)) -> Forall P (flat_map f l).
Proof.
  intros H. induction l as [| a l IH]; simpl; [constructor |].
  apply Forall_app. split; [apply H | exact IH].
Qed.

Lemma draw_point_clouds_calls (todo i : nat) (s s' : MultiStaticCameraGLState) :
  draw_point_clouds todo i s = Returns s' ->
  exists added, gl_calls s' = gl_calls s ++ added.
Proof.
  revert i s. induction todo as [| todo IH]; intros i s H; simpl in H.
  - injection H as <-. exists []. rewrite app_nil_r. reflexivity.
  - apply bind_Returns in H. destruct H as (s1 & H1 & H).
    unfold draw_point_cloud in H1.
    apply bind_Returns in H1. destruct H1 as (cp & _ & H1).
    apply bind_Returns in H1. destruct H1 as (camera & _ & H1).
    apply bind_Returns in H1. destruct H1 as (tex & _ & H1).
    injection H1 as <-. apply IH in H. destruct H as (added & ->).
    eexists. cbn [gl gl_calls]. rewrite <- !app_assoc. reflexivity.
Qed.

(** X17: [Render] never draws the unprojected point clouds. None of the
    calls that a [Render] adds is on the point-cloud program or its sampler
    or draws the point-cloud vertices, whereas every
    [DrawUnprojectedPointClouds] that returns starts by binding that program:
    the function is there, and [Render] does not reach it. *)
Theorem Render_never_draws_point_clouds (FLAGS_adaptive_raycast : bool)
  (free_camera : PerspectiveCamera) (s s' : MultiStaticCameraGLState) :
  Render FLAGS_adaptive_raycast free_camera s = Returns s' ->
  (exists added,
     gl_calls s' = gl_calls s ++ added /\
     Forall (fun c => is_point_cloud_call c = false) added) /\
  (forall s2,
     DrawUnprojectedPointClouds s = Returns s2 ->
     exists rest,
       gl_calls s2 = gl_calls s ++ bind unproject_point_cloud_ :: rest /\
       is_point_cloud_call (bind unproject_point_cloud_) = true).
Proof.
  intros H. split.
  - destruct (Render_calls _ _ _ _ H) as (t0 & _ & _ & _ & Hcalls).
    eexists. split; [exact Hcalls |].
    apply Forall_app. split.
    + unfold scene_calls. apply Forall_app. split; [repeat constructor |].
      apply Forall_app. split; [| repeat constructor].
      apply Forall_fmap, Forall_true. intros i. reflexivity.
    + apply Forall_app. split; [unfold fullscreen_calls; repeat constructor |].
      unfold depth_tiles_calls. apply Forall_app. split; [repeat constructor |].
      apply Forall_app. split; [| repeat constructor].
      apply Forall_flat_map. intros i. unfold tile_calls. repeat constructor.
  - intros s2 H2. unfold DrawUnprojectedPointClouds in H2.
    apply draw_point_clouds_calls in H2. destruct H2 as (added & H2).
    cbn [gl gl_calls] in H2. rewrite <- !app_assoc in H2.
    eexists. split; [exact H2 | reflexivity].
Qed.

End GLProperties.

(** * The pipeline run on the test double *)

Section Runs.

Import Double Examples.

Local Open Scope Z_scope.

(** The test double satisfies the laws. *)
Lemma double_array_laws : @ArrayLaws Z libcgt collaborators.
Proof.
  split.
  - reflexivity.
  - intros T src dst. simpl. unfold array_copy.
    now destruct (Vector2i_eqb (array_size src) (array_size dst)).
  - reflexivity.
Qed.

Lemma double_transform_laws : @TransformLaws Z libcgt.
Proof.
  split; intros [x y z]; simpl; unfold transformPoint, transformNormal, dot; simpl;
    f_equal; lia.
Qed.

Example one_camera_constructed : construct [camera0] [identity] = Returns one_camera.
Proof. reflexivity. Qed.

Example two_cameras_constructed :
  construct [camera0; camera1] [identity; shifted 3] = Returns two_cameras.
Proof. reflexivity. Qed.

Example four_cameras_constructed :
  construct [camera0; camera1; camera0; camera1]
    [identity; shifted 3; shifted 6; shifted 9] = Returns four_cameras.
Proof. reflexivity. Qed.

Example frame_written :
  WriteInputBuffer 1 frame two_cameras = Returns two_cameras_with_frame.
Proof. reflexivity. Qed.

(** ** Construction *)

(** C3, counterexample: one calibration, no pose, and a resolution of
    0 x -1: the lists differ in length and the resolution is not positive,
    yet the constructor returns a pipeline, with a buffer allocated for the
    camera, instead of signalling a construction error. *)
Lemma construction_accepts_bad_arguments :
  exists p,
    construct [camera_without_pixels] [] = Returns p /\
    length (camera_params_ p) <> length (depth_camera_poses_cfw_ p) /\
    (Vector2i_y (resolution (depth camera_without_pixels)) <= 0)%Z /\
    length (depth_meters_ p) = 1%nat.
Proof.
  eexists. split; [reflexivity |]. simpl. repeat split; [discriminate | lia].
Qed.

Lemma construction_validates_nothing_witness :
  exists p,
    construct [camera_without_pixels] [] = Returns p /\
    camera_params_ p = [camera_without_pixels] /\
    depth_camera_poses_cfw_ p = [] /\
    buffers_per_camera p.
Proof.
  apply (proj2 (construction_validates_nothing [camera_without_pixels] []
                  grid_size identity 1)).
  discriminate.
Defined.

(** ** GetCameraParameters *)

(** C8, counterexample: index 1 on a pipeline of one camera is outside
    [[0, 1)], and the call is undefined behaviour: it signals no fault. *)
Lemma GetCameraParameters_past_end_is_undefined :
  GetCameraParameters 1 one_camera = Undefined /\
  NumCameras one_camera = 1 /\
  (forall e, GetCameraParameters 1 one_camera <> Throws e).
Proof. repeat split. discriminate. Qed.

Lemma GetCameraParameters_unchecked_witness :
  GetCameraParameters (-1) one_camera = Undefined /\
  GetCameraParameters 1 one_camera = Undefined /\
  exists cp, camera_params_ one_camera !! Z.to_nat 0 = Some cp /\
             GetCameraParameters 0 one_camera = Returns cp.
Proof.
  split; [| split].
  - apply (proj1 (GetCameraParameters_unchecked one_camera (-1))).
    unfold camera_index_in_range. lia.
  - apply (proj1 (GetCameraParameters_unchecked one_camera 1)).
    unfold camera_index_in_range. simpl. lia.
  - apply (proj1 (proj2 (GetCameraParameters_unchecked one_camera 0))).
    unfold camera_index_in_range. simpl. lia.
Defined.

(** ** NotifyInputUpdated *)

(** C2: the claim has [NotifyInputUpdated(i, _, _)] undistort with camera
    [i]'s own intrinsics and depth range; the code undistorts every camera
    with the processor built from camera 0's. Camera 1's frame holds the
    depths 3 and 7, both within camera 1's range [1 .. 10].
    [NotifyInputUpdated(1, true, true)] copies them into [rawDepth[1]] and
    leaves 3 and 0 in [undistortedDepth[1]]: the 7 was judged against camera
    0's range [1 .. 5]. A processor with camera 1's own intrinsics and range
    gives 3 and 7 from the same raw depth and map. *)
Lemma NotifyInputUpdated_uses_first_camera_range :
  exists p',
    NotifyInputUpdated 1 true true two_cameras_with_frame = Returns p' /\
    depth_meters_ p' !! 1%nat = Some (depths [3; 7]) /\
    undistorted_depth_meters_ p' !! 1%nat = Some (depths [3; 0]) /\
    DepthProcessor_Undistort
      {| processor_intrinsics := intrinsics (depth camera1);
         processor_depth_range := depth_range (depth camera1) |}
      (depths [3; 7]) (undistortion_map_of camera1) (depths [])
    = depths [3; 7].
Proof. eexists. repeat split. Qed.

Lemma NotifyInputUpdated_copies_then_undistorts_witness :
  exists (cp0 cp : RGBDCameraParameters) (input : InputBuffer)
    (raw out : DeviceArray2D Z) (p' : MultiStaticCameraPipeline),
    [camera0; camera1] !! 0%nat = Some cp0 /\
    [camera0; camera1] !! Z.to_nat 1 = Some cp /\
    input_buffers_ two_cameras_with_frame !! Z.to_nat 1 = Some input /\
    depth_meters_ two_cameras_with_frame !! Z.to_nat 1 = Some raw /\
    undistorted_depth_meters_ two_cameras_with_frame !! Z.to_nat 1 = Some out /\
    NotifyInputUpdated 1 true true two_cameras_with_frame = Returns p' /\
    depth_meters_ p' !! Z.to_nat 1 = Some (copy (depth_meters input) raw) /\
    undistorted_depth_meters_ p' !! Z.to_nat 1 =
      Some (DepthProcessor_Undistort
              {| processor_intrinsics := intrinsics (depth cp0);
                 processor_depth_range := depth_range (depth cp0) |}
              (copy (depth_meters input) raw) (undistortion_map_of cp) out).
Proof.
  apply (NotifyInputUpdated_copies_then_undistorts
           [camera0; camera1] [identity; shifted 3] grid_size identity 1
           two_cameras two_cameras_with_frame [CallWriteInputBuffer 1 frame]).
  - reflexivity.
  - reflexivity.
  - unfold camera_index_in_range. simpl. lia.
Defined.

Lemma NotifyInputUpdated_frame_witness :
  exists p', NotifyInputUpdated 1 true false two_cameras_with_frame = Returns p'.
Proof.
  apply (proj1 (NotifyInputUpdated_frame two_cameras_with_frame 1 true false)).
  - repeat split.
  - unfold camera_index_in_range. simpl. lia.
Defined.

Example session_returns : calls session two_cameras = Returns two_cameras_after_session.
Proof. reflexivity. Qed.

Lemma resolution_invariant_witness :
  camera_params_ two_cameras_after_session = [camera0; camera1] /\
  buffers_have_declared_resolution two_cameras_after_session.
Proof.
  apply (resolution_invariant (laws := double_array_laws)
           [camera0; camera1] [identity; shifted 3] grid_size identity 1
           two_cameras two_cameras_after_session session);
    reflexivity.
Defined.


(** ** Fuse and FuseMultiple *)

Lemma Fuse_one_call_per_camera_witness :
  exists args : list FuseArguments,
    Fuse two_cameras_with_frame
    = Returns (set_regular_grid
                 (foldl
                    (fun g a =>
                       RegularGridTSDF_Fuse (fuse_flpp a) (fuse_depth_range a)
                         (fuse_camera_from_world a) (fuse_depth a) g)
                    (regular_grid_ two_cameras_with_frame) args)
                 two_cameras_with_frame) /\
    length args = length (camera_params_ two_cameras_with_frame) /\
    forall i : nat, (i < length (camera_params_ two_cameras_with_frame))%nat ->
      exists cp pose undistorted,
        camera_params_ two_cameras_with_frame !! i = Some cp /\
        depth_camera_poses_cfw_ two_cameras_with_frame !! i = Some pose /\
        undistorted_depth_meters_ two_cameras_with_frame !! i = Some undistorted /\
        args !! i = Some (fuse_arguments_of cp pose undistorted).
Proof.
  apply (Fuse_one_call_per_camera two_cameras_with_frame).
  - repeat split.
  - unfold pose_per_camera. simpl. lia.
Defined.

(** The volume's record of [Fuse] on two cameras: camera 0's call, then
    camera 1's, each with its own calibration and pose. *)
Example Fuse_two_cameras_record :
  grid_calls (regular_grid_ (returned_or no_cameras (Fuse two_cameras)))
  = [FuseCall (fuse_arguments_of camera0 identity (depths []));
     FuseCall (fuse_arguments_of camera1 (shifted 3) (depths []))].
Proof. reflexivity. Qed.

Lemma FuseMultiple_packs_three_entries_witness :
  FuseMultiple four_cameras = Undefined /\
  exists c,
    FuseMultiple_cameras two_cameras = Returns c /\
    length c = 3%nat /\
    c !! 2%nat = Some CalibratedPosedDepthCamera_default.
Proof.
  split.
  - apply (proj1 (proj2 (FuseMultiple_packs_three_entries four_cameras))).
    simpl. lia.
  - destruct (proj2 (proj2 (FuseMultiple_packs_three_entries two_cameras)))
      as (c & Hc & Hlen & _ & Hdefault & _).
    + simpl. lia.
    + repeat split.
    + unfold pose_per_camera. simpl. lia.
    + exists c. repeat split; [assumption | assumption |].
      apply Hdefault. simpl. lia.
Defined.

Lemma FuseMultiple_differs_from_Fuse_witness :
  (exists p', Fuse four_cameras = Returns p') /\
  FuseMultiple four_cameras = Undefined /\
  FuseMultiple four_cameras <> Fuse four_cameras.
Proof.
  apply (FuseMultiple_differs_from_Fuse four_cameras).
  - repeat split.
  - unfold pose_per_camera. simpl. lia.
  - simpl. lia.
Defined.

(** With three cameras the batch is the three cameras' parameters. *)
Example FuseMultiple_two_cameras_record :
  grid_calls (regular_grid_ (returned_or no_cameras (FuseMultiple two_cameras)))
  = [FuseMultipleCall
       [packed_camera camera0 identity; packed_camera camera1 (shifted 3);
        CalibratedPosedDepthCamera_default]
       [depths []; depths []]].
Proof. reflexivity. Qed.

(** ** Raycast *)

(** The flag set: the volume receives one adaptive raycast, with intrinsics
    for the 8 x 6 output buffer, not for the 2 x 1 sensors. *)
Lemma Raycast_dispatch_witness :
  Raycast (L := libcgt) true viewpoint output_buffer output_buffer two_cameras
  = (set_regular_grid
       {| grid_calls :=
            [AdaptiveRaycastCall
               {| Vector4f_x := 16; Vector4f_y := 12; Vector4f_z := 4; Vector4f_w := 3 |}
               (shifted 1)];
          grid_surface := empty_mesh |} two_cameras,
     output_buffer, output_buffer).
Proof.
  apply (proj1 (Raycast_dispatch (L := libcgt) true viewpoint output_buffer output_buffer two_cameras)).
  - reflexivity.
  - reflexivity.
Defined.

Example Raycast_fixed_step_record :
  grid_calls
    (regular_grid_ (Raycast (L := libcgt) false viewpoint output_buffer output_buffer two_cameras).1.1)
  = [RaycastCall
       {| Vector4f_x := 16; Vector4f_y := 12; Vector4f_z := 4; Vector4f_w := 3 |}
       (shifted 1)].
Proof. reflexivity. Qed.

(** ** Triangulate *)

Lemma Triangulate_transforms_each_vertex_witness :
  Triangulate (L := libcgt) Matrix4f_identity two_cameras_with_surface = one_vertex /\
  positions (Triangulate (L := libcgt) (shifted 10) two_cameras_with_surface) !! 0%nat
  = Some {| Vector3f_x := 11; Vector3f_y := 2; Vector3f_z := 3 |} /\
  normals (Triangulate (L := libcgt) (shifted 10) two_cameras_with_surface) !! 0%nat
  = Some {| Vector3f_x := 0; Vector3f_y := 0; Vector3f_z := 1 |}.
Proof.
  destruct (Triangulate_transforms_each_vertex (laws := double_transform_laws)
              (shifted 10) two_cameras_with_surface)
    as (Hid & Hpos & Hnor & _).
  split; [exact Hid |]. split.
  - rewrite Hpos. reflexivity.
  - rewrite Hnor. reflexivity.
Defined.


End Runs.



(** * Runs of the remaining operations and of the viewer *)

Section MoreRuns.

Import Double Examples DoubleViewer.

Local Open Scope Z_scope.

(** The double's comparison of cameras satisfies the law. *)
Lemma double_camera_laws : @CameraLaws Z libcgt libcgt_gl.
Proof.
  split. intros [f [[a b c d] [e g h i] [j k l m] [n o p q]]]. simpl.
  unfold Camera_eqb, Matrix_eqb, Vector4f_eqb. simpl.
  rewrite !Z.eqb_refl. reflexivity.
Qed.

Example three_cameras_constructed :
  construct [camera0; camera1; camera0] [identity; shifted 3; shifted 6]
  = Returns three_cameras.
Proof. reflexivity. Qed.

Lemma returned_or_Returns {A : Type} (d : A) (o : outcome A) :
  (exists a, o = Returns a) -> o = Returns (returned_or d o).
Proof. intros [a ->]. reflexivity. Qed.

(** Evaluates a closed numeric side condition. *)
Ltac run := vm_compute; first [reflexivity | lia].

Ltac run_buffers_per_camera :=
  unfold buffers_per_camera; split; [| split; [| split]]; run.

Example viewer_renders : Render false viewpoint viewer = Returns viewer_rendered.
Proof.
  unfold viewer_rendered. apply returned_or_Returns.
  apply Render_in_range; [run_buffers_per_camera | unfold pose_per_camera; run | run ..].
Qed.

Example viewer_renders_again :
  Render false viewpoint viewer_rendered = Returns viewer_rendered_again.
Proof.
  unfold viewer_rendered_again. apply returned_or_Returns.
  apply Render_in_range; [run_buffers_per_camera | unfold pose_per_camera; run | run ..].
Qed.

Example viewer_renders_resized :
  Render false viewpoint (Resize small_window viewer_rendered) = Returns viewer_resized.
Proof.
  unfold viewer_resized. apply returned_or_Returns.
  apply Render_in_range; [run_buffers_per_camera | unfold pose_per_camera; run | run ..].
Qed.

(** ** The pipeline *)

Lemma cameras_are_static_witness :
  camera_params_ two_cameras_after_session = [camera0; camera1] /\
  depth_camera_poses_cfw_ two_cameras_after_session = [identity; shifted 3] /\
  depth_camera_undistort_maps_ two_cameras_after_session
  = undistortion_map_of <$> [camera0; camera1] /\
  depth_processor_ two_cameras_after_session = depth_processor_ two_cameras /\
  NumCameras two_cameras_after_session = NumCameras two_cameras /\
  (forall i : Z,
     GetCameraParameters i two_cameras_after_session = GetCameraParameters i two_cameras) /\
  (forall i : Z,
     GetDepthCamera i two_cameras_after_session = GetDepthCamera i two_cameras).
Proof.
  apply (cameras_are_static [camera0; camera1] [identity; shifted 3] grid_size identity 1
           two_cameras two_cameras_after_session session);
    reflexivity.
Defined.

Lemma indexed_operations_bounds_witness :
  exists (input : InputBuffer) (undistorted : DeviceArray2D Z),
    input_buffers_ two_cameras !! Z.to_nat 1 = Some input /\
    undistorted_depth_meters_ two_cameras !! Z.to_nat 1 = Some undistorted /\
    GetInputBuffer 1 two_cameras = Returns input /\
    GetUndistortedDepthMap 1 two_cameras = Returns undistorted.
Proof.
  apply (proj1 (indexed_operations_bounds two_cameras 1 true true
                  (conj eq_refl (conj eq_refl (conj eq_refl eq_refl))))).
  unfold camera_index_in_range. simpl. lia.
Defined.

(** Camera 1 of two has its own pose and a focal length of 600 over 2
    pixels; there is no camera 2, and no pose for camera 1 of
    [two_cameras_one_pose]. *)
Lemma GetDepthCamera_bounds_witness :
  GetDepthCamera 1 two_cameras
  = Returns {| camera_focal := 300; camera_pose := shifted 3 |} /\
  GetDepthCamera 2 two_cameras = Undefined /\
  GetDepthCamera 1 two_cameras_one_pose = Undefined.
Proof.
  split; [| split].
  - rewrite (proj1 (GetDepthCamera_bounds two_cameras 1) camera1 (shifted 3));
      [reflexivity | lia | reflexivity | reflexivity].
  - apply (proj1 (proj2 (GetDepthCamera_bounds two_cameras 2))).
    unfold camera_index_in_range. simpl. lia.
  - apply (proj2 (proj2 (GetDepthCamera_bounds two_cameras_one_pose 1))).
    simpl. lia.
Defined.

(** Two calibrations and one pose: the constructor returns, and fusion is
    undefined. *)
Lemma fusion_undefined_without_poses_witness :
  construct [camera0; camera1] [identity] = Returns two_cameras_one_pose /\
  Fuse two_cameras_one_pose = Undefined /\
  FuseMultiple two_cameras_one_pose = Undefined.
Proof.
  split; [reflexivity |].
  apply (fusion_undefined_without_poses [camera0; camera1] [identity] grid_size identity 1
           two_cameras_one_pose two_cameras_one_pose []).
  - reflexivity.
  - reflexivity.
  - simpl. lia.
Defined.

Lemma Fuse_twice_witness :
  length (fuse_arguments_list two_cameras) = length (camera_params_ two_cameras) /\
  Fuse two_cameras
  = Returns (set_regular_grid
               (foldl
                  (fun g a =>
                     RegularGridTSDF_Fuse (fuse_flpp a) (fuse_depth_range a)
                       (fuse_camera_from_world a) (fuse_depth a) g)
                  (regular_grid_ two_cameras) (fuse_arguments_list two_cameras))
               two_cameras) /\
  (p' ← Fuse two_cameras; Fuse p')
  = Returns (set_regular_grid
               (foldl
                  (fun g a =>
                     RegularGridTSDF_Fuse (fuse_flpp a) (fuse_depth_range a)
                       (fuse_camera_from_world a) (fuse_depth a) g)
                  (regular_grid_ two_cameras)
                  (fuse_arguments_list two_cameras ++ fuse_arguments_list two_cameras))
               two_cameras).
Proof.
  apply (Fuse_twice two_cameras).
  - repeat split.
  - unfold pose_per_camera. simpl. lia.
Defined.

Lemma fusion_ignores_unnotified_frame_witness :
  Fuse two_cameras_with_frame
  = (p' ← Fuse two_cameras;
     mret (set_regular_grid (regular_grid_ p') two_cameras_with_frame)) /\
  FuseMultiple two_cameras_with_frame
  = (p' ← FuseMultiple two_cameras;
     mret (set_regular_grid (regular_grid_ p') two_cameras_with_frame)).
Proof.
  apply (fusion_ignores_unnotified_frame two_cameras two_cameras_with_frame 1 frame).
  reflexivity.
Defined.

Lemma FuseMultiple_matches_Fuse_for_three_cameras_witness :
  length (fuse_arguments_list three_cameras) = 3%nat /\
  Fuse three_cameras
  = Returns (set_regular_grid
               (foldl
                  (fun g a =>
                     RegularGridTSDF_Fuse (fuse_flpp a) (fuse_depth_range a)
                       (fuse_camera_from_world a) (fuse_depth a) g)
                  (regular_grid_ three_cameras) (fuse_arguments_list three_cameras))
               three_cameras) /\
  FuseMultiple three_cameras
  = Returns (set_regular_grid
               (RegularGridTSDF_FuseMultiple
                  (batch_entry_of <$> fuse_arguments_list three_cameras)
                  (fuse_depth <$> fuse_arguments_list three_cameras)
                  (regular_grid_ three_cameras)) three_cameras).
Proof.
  apply (FuseMultiple_matches_Fuse_for_three_cameras three_cameras).
  - repeat split.
  - unfold pose_per_camera. simpl. lia.
  - reflexivity.
Defined.

Lemma written_frame_round_trip_witness :
  exists (raw : DeviceArray2D Z) (map : DeviceArray2D float2) (out : DeviceArray2D Z)
    (p1 p2 : MultiStaticCameraPipeline),
    depth_meters_ two_cameras !! Z.to_nat 1 = Some raw /\
    depth_camera_undistort_maps_ two_cameras !! Z.to_nat 1 = Some map /\
    undistorted_depth_meters_ two_cameras !! Z.to_nat 1 = Some out /\
    WriteInputBuffer 1 frame two_cameras = Returns p1 /\
    GetInputBuffer 1 p1 = Returns frame /\
    NotifyInputUpdated 1 true true p1 = Returns p2 /\
    GetInputBuffer 1 p2 = Returns frame /\
    GetUndistortedDepthMap 1 p2
    = Returns (DepthProcessor_Undistort (depth_processor_ two_cameras)
                 (copy (depth_meters frame) raw) map out) /\
    forall j : Z, j <> 1 ->
      GetInputBuffer j p2 = GetInputBuffer j two_cameras /\
      GetUndistortedDepthMap j p2 = GetUndistortedDepthMap j two_cameras.
Proof.
  apply (written_frame_round_trip two_cameras 1 frame true true).
  - repeat split.
  - unfold camera_index_in_range. simpl. lia.
Defined.

Lemma notifications_commute_witness :
  (p1 ← NotifyInputUpdated 0 true true two_cameras_with_frame;
   NotifyInputUpdated 1 false true p1)
  = (p1 ← NotifyInputUpdated 1 false true two_cameras_with_frame;
     NotifyInputUpdated 0 true true p1).
Proof.
  apply (notifications_commute two_cameras_with_frame 0 1 true true false true). lia.
Defined.

Lemma input_calls_leave_the_volume_witness :
  regular_grid_ (returned_or no_cameras (calls input_session two_cameras_fused))
  = regular_grid_ two_cameras_fused /\
  (forall output_from_world : Matrix,
     Triangulate (L := libcgt) output_from_world
       (returned_or no_cameras (calls input_session two_cameras_fused))
     = Triangulate (L := libcgt) output_from_world two_cameras_fused) /\
  TSDFGridBoundingBox (returned_or no_cameras (calls input_session two_cameras_fused))
  = TSDFGridBoundingBox two_cameras_fused /\
  TSDFWorldFromGridTransform
    (returned_or no_cameras (calls input_session two_cameras_fused))
  = TSDFWorldFromGridTransform two_cameras_fused.
Proof.
  apply (input_calls_leave_the_volume input_session two_cameras_fused
           (returned_or no_cameras (calls input_session two_cameras_fused))).
  - repeat (constructor; [exact I |]). constructor.
  - reflexivity.
Defined.

(** ** The viewer *)

(** The first [Render] of the viewer, whose view is dirty: one raycast from
    the stored viewpoint. *)
Lemma Render_raycasts_when_needed_witness :
  tsdf_is_dirty_ viewer_rendered = false /\
  window_size_ viewer_rendered = window /\
  free_camera_ viewer_rendered = viewpoint /\
  Raycast (L := libcgt) false viewpoint output_buffer output_buffer two_cameras_fused
  = (pipeline_ viewer_rendered, free_camera_world_positions_ viewer_rendered,
     free_camera_world_normals_ viewer_rendered).
Proof.
  destruct (Render_raycasts_when_needed (L := libcgt) false viewpoint viewer viewer_rendered
              viewer_renders) as (Hd & Hw & _ & Hdirty & _).
  split; [exact Hd |]. split; [exact Hw |]. apply Hdirty; run.
Defined.

Lemma raycast_view_is_cached_witness :
  view_of viewer_rendered_again = view_of viewer_rendered.
Proof.
  apply (proj1 (raycast_view_is_cached (L := libcgt) (laws := double_camera_laws) false viewpoint
                  viewer viewer_rendered viewer_renders)).
  exact viewer_renders_again.
Defined.

Lemma Resize_leaves_the_view_unfilled_witness :
  window_size_ viewer_resized = small_window /\
  pipeline_ viewer_resized = pipeline_ viewer_rendered /\
  free_camera_world_positions_ viewer_resized
  = DeviceArray2D_resize (@float4 Z) (Vector2i_div small_window 1)
      (free_camera_world_positions_ viewer_rendered) /\
  free_camera_world_normals_ viewer_resized
  = DeviceArray2D_resize (@float4 Z) (Vector2i_div small_window 1)
      (free_camera_world_normals_ viewer_rendered) /\
  free_camera_world_positions_tex_ viewer_resized
  = Texture_new (Vector2i_div small_window 1) RGBA32F /\
  free_camera_world_normals_tex_ viewer_resized
  = Texture_new (Vector2i_div small_window 1) RGBA32F /\
  texture_content (free_camera_world_positions_tex_ viewer_resized) = NoContent /\
  texture_content (free_camera_world_normals_tex_ viewer_resized) = NoContent /\
  free_camera_ viewer_resized = free_camera_ viewer_rendered /\
  tsdf_is_dirty_ viewer_resized = false.
Proof.
  apply (Resize_leaves_the_view_unfilled (L := libcgt) false viewpoint small_window viewer_rendered
           viewer_resized).
  - run.
  - run.
  - exact viewer_renders_resized.
Defined.

Lemma Render_refreshes_every_camera_witness :
  exists s',
    Render false viewpoint viewer = Returns s' /\
    forall k : nat, (k < length (camera_params_ (pipeline_ viewer)))%nat ->
      exists input undistorted camera,
        GetInputBuffer (Z.of_nat k) (pipeline_ viewer) = Returns input /\
        GetUndistortedDepthMap (Z.of_nat k) (pipeline_ viewer) = Returns undistorted /\
        GetDepthCamera (Z.of_nat k) (pipeline_ viewer) = Returns camera /\
        texture_content <$> raw_depth_textures_ s' !! k
        = Some (HostDepth (depth_meters input)) /\
        texture_content <$> undistorted_depth_textures_ s' !! k
        = Some (DeviceDepth undistorted) /\
        depth_camera_frusta_ s' !! k = Some {| frustum_camera := Some camera |}.
Proof.
  apply (Render_refreshes_every_camera (L := libcgt) false viewpoint viewer);
    [run_buffers_per_camera | unfold pose_per_camera; run | run ..].
Defined.

Lemma Render_draws_in_order_witness :
  exists t0 : Texture,
    raw_depth_textures_ viewer !! 0%nat = Some t0 /\
    gl_viewport viewer_rendered = gl_viewport viewer /\
    gl_calls viewer_rendered
    = gl_calls viewer
      ++ scene_calls (free_camera_ viewer_rendered) (length (depth_camera_frusta_ viewer))
      ++ fullscreen_calls
      ++ depth_tiles_calls (texture_size t0) (length (raw_depth_textures_ viewer))
           (gl_viewport viewer).
Proof.
  apply (Render_draws_in_order (L := libcgt) false viewpoint viewer viewer_rendered).
  exact viewer_renders.
Defined.

Lemma Render_never_draws_point_clouds_witness :
  exists added,
    gl_calls viewer_rendered = gl_calls viewer ++ added /\
    Forall (fun c => is_point_cloud_call c = false) added.
Proof.
  apply (proj1 (Render_never_draws_point_clouds (L := libcgt) false viewpoint viewer
                  viewer_rendered viewer_renders)).
Defined.

(** One [Render] of the two-camera viewer makes 39 calls: 10 for the scene
    with its two frusta, 10 for the full-screen normals and 19 for the four
    tiles. *)
Example Render_two_cameras_record : length (gl_calls viewer_rendered) = 39%nat.
Proof. vm_compute. reflexivity. Qed.

End MoreRuns.
